(** * Chain inscription planner and signer

    A shallow embedding of [inscribe_chain.ts] of the coin-bitcoin package:
    the envelope builder ([createInscriptionTxCtxData]), the chain layout
    planner ([buildEnhancedInscriptionChains]), the chain assembler
    ([buildSingleUtxoChain]), the fee and change estimator
    ([estimateFeeAndOutput]), the signer ([signTx], [signAllTransactions])
    and the result packager ([inscribeChain]).

    Conventions of the embedding.
    - Satoshi amounts, fees and virtual sizes are integers ([Z]); a fee
      rate is a rational ([Q]), so [Math.ceil (vsize * feeRate)] is the
      exact ceiling.  The estimator's [changeAmount] is a number that can
      also be [-Infinity] ([jsnum]).
    - A [Buffer] is a list of bytes; [tx.clone ()] is the identity, since
      values are immutable here.
    - [throw new Error (msg)] is [throw (mkError msg)]; the methods of the
      tool run in a state-and-error monad [M] over the tool instance
      ([this]) and the position in the stream of random draws.
    - The functions imported from the serialization, key and hashing
      modules are the fields of the class [Externals]. *)

From Stdlib Require Import String Ascii DecimalString.
From Stdlib Require Import ZArith QArith Qround List Bool Lia.
Import ListNotations.
Close Scope Q_scope.
Local Open Scope nat_scope.

Set Implicit Arguments.

(** ** Buffers *)

Definition Buffer := list Byte.byte.

Module Buffer_.
(** [Buffer.alloc n] *)
Definition alloc (n : nat) : Buffer := repeat Byte.x00 n.

(** [Buffer.from (s)] for a string: its bytes. *)
Definition from (s : string) : Buffer := list_byte_of_string s.

(** [b.slice (i, j)] for [0 <= i]. *)
Definition slice (b : Buffer) (i j : nat) : Buffer := firstn (j - i) (skipn i b).

(** [b.toString ('hex')] is a field of [Externals] below. *)

(** [a.equals (b)] *)
Fixpoint equals (a b : Buffer) : bool :=
  match a, b with
  | [], [] => true
  | x :: a', y :: b' => Byte.eqb x y && equals a' b'
  | _, _ => false
  end.
End Buffer_.

(** ** Numbers and their rendering in template strings *)

Inductive jsnum : Type :=
| Num (z : Z)
| NegInfinity.

Definition show_Z (z : Z) : string := NilZero.string_of_int (Z.to_int z).
Definition show_nat (n : nat) : string := NilZero.string_of_uint (Nat.to_uint n).
Definition show_jsnum (x : jsnum) : string :=
  match x with
  | Num z => show_Z z
  | NegInfinity => "-Infinity"
  end.

(** ** Errors *)

Record Error : Type := mkError { message : string }.

Definition Result (A : Type) : Type := (Error + A)%type.

Definition ok {A} (a : A) : Result A := inr a.
Definition fail {A} (msg : string) : Result A := inl (mkError msg).

Definition rbind {A B} (r : Result A) (k : A -> Result B) : Result B :=
  match r with
  | inl e => inl e
  | inr a => k a
  end.

Declare Scope result_scope.
Delimit Scope result_scope with result.
Notation "x <- c ;; k" := (rbind c (fun x => k))
  (at level 61, c at next level, right associativity) : result_scope.

(** [xs.map (f)] where [f] may throw: the first exception wins. *)
Fixpoint rmap {A B} (f : A -> Result B) (xs : list A) : Result (list B) :=
  match xs with
  | [] => ok []
  | x :: xs' =>
      match f x with
      | inl e => inl e
      | inr y =>
          match rmap f xs' with
          | inl e => inl e
          | inr ys => ok (y :: ys)
          end
      end
  end.

(** ** Transactions (the part of [bitcoin.Transaction] the tool touches) *)

Module Input.
Record t : Type := mk {
  hash : Buffer;
  index : nat;
  script : Buffer;
  sequence : Z;
  witness : list Buffer
}.
Definition set_witness (w : list Buffer) (i : t) : t :=
  mk (hash i) (index i) (script i) (sequence i) w.
Definition set_script (s : Buffer) (i : t) : t :=
  mk (hash i) (index i) s (sequence i) (witness i).
End Input.

Module Output.
Record t : Type := mk {
  script : Buffer;
  value : Z
}.
Definition set_value (v : Z) (o : t) : t := mk (script o) v.
End Output.

Record Transaction : Type := mkTransaction {
  version : Z;
  locktime : Z;
  ins : list Input.t;
  outs : list Output.t
}.

(** [new bitcoin.Transaction ()] *)
Definition newTransaction : Transaction := mkTransaction 1 0 [] [].

Definition set_version (v : Z) (tx : Transaction) : Transaction :=
  mkTransaction v (locktime tx) (ins tx) (outs tx).
Definition set_ins (i : list Input.t) (tx : Transaction) : Transaction :=
  mkTransaction (version tx) (locktime tx) i (outs tx).
Definition set_outs (o : list Output.t) (tx : Transaction) : Transaction :=
  mkTransaction (version tx) (locktime tx) (ins tx) o.

(** [tx.addInput (hash, index, sequence)] *)
Definition addInput (h : Buffer) (idx : nat) (seq : Z) (tx : Transaction) : Transaction :=
  set_ins (ins tx ++ [Input.mk h idx [] seq []]) tx.

(** [tx.addOutput (script, value)] *)
Definition addOutput (s : Buffer) (v : Z) (tx : Transaction) : Transaction :=
  set_outs (outs tx ++ [Output.mk s v]) tx.

(** [l[i] = f (l[i])], nothing when [i] is out of range. *)
Fixpoint update_nth {A} (i : nat) (f : A -> A) (l : list A) : list A :=
  match l, i with
  | [], _ => []
  | x :: l', O => f x :: l'
  | x :: l', S i' => x :: update_nth i' f l'
  end.

(** [l.splice (i, 1)] *)
Fixpoint splice1 {A} (i : nat) (l : list A) : list A :=
  match l, i with
  | [], _ => []
  | _ :: l', O => l'
  | x :: l', S i' => x :: splice1 i' l'
  end.

(** [l.slice (i, j)] for [0 <= i]. *)
Definition slice {A} (l : list A) (i j : nat) : list A := firstn (j - i) (skipn i l).

(** [l.pop ()] (the list that remains) *)
Definition pop {A} (l : list A) : list A := removelast l.

(** ** Request and result types *)

Inductive Network : Type := bitcoin | testnet | regtest.

Definition Network_eqb (a b : Network) : bool :=
  match a, b with
  | bitcoin, bitcoin | testnet, testnet | regtest, regtest => true
  | _, _ => false
  end.

Inductive AddressType : Type :=
| legacy | segwit_native | segwit_nested | segwit_taproot.

Inductive Body : Type :=
| BodyString (s : string)
| BodyBuffer (b : Buffer).

Module InscriptionData.
Record t : Type := mk {
  contentType : string;
  body : Body;
  revealAddr : string
}.
End InscriptionData.

Module PrevOutput.
Record t : Type := mk {
  txId : string;
  vOut : nat;
  amount : Z;
  address : string;
  privateKey : string;
  publicKey : option string
}.
End PrevOutput.

Module InscriptionRequest.
Record t : Type := mk {
  commitTxPrevOutputList : list PrevOutput.t;
  commitFeeRate : Q;
  revealFeeRate : Q;
  inscriptionDataList : list InscriptionData.t;
  revealOutValue : Z;
  changeAddress : string;
  minChangeValue : option Z
}.
End InscriptionRequest.

Module TxOut.
Record t : Type := mk {
  pkScript : Buffer;
  value : Z
}.
End TxOut.

Module InscriptionTxCtxData.
Record t : Type := mk {
  privateKey : Buffer;
  inscriptionScript : Buffer;
  commitTxAddress : string;
  commitTxAddressPkScript : Buffer;
  witness : list Buffer;
  hash : Buffer;
  revealTxPrevOutput : TxOut.t;
  revealPkScript : Buffer
}.
Definition set_commitTxAddressPkScript (s : Buffer) (c : t) : t :=
  mk (privateKey c) (inscriptionScript c) (commitTxAddress c) s (witness c)
     (hash c) (revealTxPrevOutput c) (revealPkScript c).
End InscriptionTxCtxData.

Module OutputInfo.
Record t : Type := mk {
  pkScriptHex : string;
  value : Z
}.
End OutputInfo.

Module LastTxInfo.
Record t : Type := mk {
  txId : string;
  hex : string;
  fee : Z;
  inputTxId : string;
  inputVout : nat;
  inputValue : Z;
  outputs : list OutputInfo.t;
  signingPrivateKeyWIF : string;
  finalChangeAddress : string;
  network : Network;
  revealOutValue : Z;
  minChangeValue : Z;
  prevInputPkScriptHex : string;
  revealPkScriptHex : string;
  finalChangePkScriptHex : string;
  tapScriptTreeHashHex : string;
  networkType : string
}.
End LastTxInfo.

Module ChainInscribeResult.
Record t : Type := mk {
  success : bool;
  txChains : list (list string);
  txChainTxIds : list (list string);
  lastTxDetails : list LastTxInfo.t;
  totalEstimatedFee : Z;
  error : option string
}.
End ChainInscribeResult.

(** ** Constants *)

Definition DEFAULT_SEQUENCE_NUM : Z := 0xfffffffd.
Definition MAX_TRANSACTIONS_PER_CHAIN : nat := 25.
Definition DEFAULT_TX_VERSION : Z := 2.
Definition DEFAULT_REVEAL_OUT_VALUE : Z := 546.
Definition DEFAULT_MIN_CHANGE_VALUE : Z := 546.

(** [bitcoin.Transaction.SIGHASH_DEFAULT] and [SIGHASH_ALL] *)
Definition SIGHASH_DEFAULT : Z := 0.
Definition SIGHASH_ALL : Z := 1.

(** ** Scripts *)

(** [bitcoin.payments.StackElement]: an opcode number or a data push. *)
Inductive StackElement : Type :=
| Op (code : Z)
| Data (b : Buffer).

(** Modelled from the spec: the opcode table [bitcoin.script.OPS] belongs
    to the serialization library; [OP_DATA_1] is the byte 0x01 of the
    envelope description, the other opcodes have their Bitcoin values. *)
Module OPS.
Definition OP_0 : Z := 0x00.
Definition OP_FALSE : Z := 0x00.
Definition OP_DATA_1 : Z := 0x01.
Definition OP_IF : Z := 0x63.
Definition OP_ENDIF : Z := 0x68.
Definition OP_CHECKSIG : Z := 0xac.
End OPS.

(** The result of [bitcoin.payments.p2tr]. *)
Module Payment.
Record t : Type := mk {
  output : Buffer;
  witness : list Buffer;
  hash : Buffer;
  address : string
}.
End Payment.

(** ** Imported functions

    Everything the file imports from [./bitcoinjs-lib], [./txBuild],
    [./taproot], [./sigcost] and [@okxweb3/crypto-lib].  A function that
    can throw returns a [Result].  [randomBytes k n] is what the [k]-th
    call of [base.randomBytes] returns when asked for [n] bytes. *)
Class Externals : Type := {
  fromHex : string -> Buffer;
  toHex : Buffer -> string;
  toString_hex : Buffer -> string;
  reverseBuffer : Buffer -> Buffer;
  randomBytes : nat -> nat -> Buffer;
  privateKeyFromWIF : string -> Network -> Result string;
  private2public : string -> Buffer;
  wif2Public : string -> Network -> Result Buffer;
  private2Wif : Buffer -> Network -> string;
  getAddressType : string -> Network -> Result AddressType;
  sign : Buffer -> string -> Buffer;
  schnorr_sign : Buffer -> Buffer -> Buffer -> Buffer;
  taprootTweakPrivKey : Buffer -> Buffer;
  hash160 : Buffer -> Buffer;
  toOutputScript : string -> Network -> Result Buffer;
  script_compile : list StackElement -> Buffer;
  signature_encode : Buffer -> Z -> Buffer;
  p2pkh_input : Buffer -> Buffer -> Buffer;
  p2tr : Buffer -> Buffer -> Buffer * Z -> Network -> Result Payment.t;
  getHash : Transaction -> Buffer;
  getId : Transaction -> string;
  tx_toHex : Transaction -> string;
  hashForSignature : Transaction -> nat -> Buffer -> Z -> Buffer;
  hashForWitness : Transaction -> nat -> Buffer -> Z -> Z -> Buffer;
  hashForWitnessV1 :
    Transaction -> nat -> list Buffer -> list Z -> Z -> option Buffer -> Buffer;
  countAdjustedVsize : Transaction -> list string -> Network -> Result Z
}.

(** ** The tool instance and the monad of its methods *)

Module Mapping.
Record t : Type := mk {
  chainIndex : nat;
  txIndex : nat;
  contextIndex : option nat
}.
End Mapping.

Module TxFee.
Record t : Type := mk {
  chainIndex : nat;
  txIndex : nat;
  fee : Z
}.
End TxFee.

Module UtxoInfo.
Record t : Type := mk {
  amount : Z;
  address : string;
  privateKey : string
}.
End UtxoInfo.

(** The fields of the class [ChainInscriptionTool]. *)
Module Tool.
Record t : Type := mk {
  network : Network;
  inscriptionTxCtxDataList : list InscriptionTxCtxData.t;
  txChains : list (list Transaction);
  utxoMap : list (string * UtxoInfo.t);
  totalEstimatedFee : Z;
  chainContextMapping : list Mapping.t;
  txFees : list TxFee.t
}.

(** [new ChainInscriptionTool ()] *)
Definition new : t := mk bitcoin [] [] [] 0 [] [].

Definition set_network (n : Network) (o : t) : t :=
  mk n (inscriptionTxCtxDataList o) (txChains o) (utxoMap o)
     (totalEstimatedFee o) (chainContextMapping o) (txFees o).
Definition set_inscriptionTxCtxDataList (l : list InscriptionTxCtxData.t) (o : t) : t :=
  mk (network o) l (txChains o) (utxoMap o)
     (totalEstimatedFee o) (chainContextMapping o) (txFees o).
Definition set_txChains (c : list (list Transaction)) (o : t) : t :=
  mk (network o) (inscriptionTxCtxDataList o) c (utxoMap o)
     (totalEstimatedFee o) (chainContextMapping o) (txFees o).
Definition set_utxoMap (u : list (string * UtxoInfo.t)) (o : t) : t :=
  mk (network o) (inscriptionTxCtxDataList o) (txChains o) u
     (totalEstimatedFee o) (chainContextMapping o) (txFees o).
Definition set_totalEstimatedFee (f : Z) (o : t) : t :=
  mk (network o) (inscriptionTxCtxDataList o) (txChains o) (utxoMap o)
     f (chainContextMapping o) (txFees o).
Definition set_chainContextMapping (m : list Mapping.t) (o : t) : t :=
  mk (network o) (inscriptionTxCtxDataList o) (txChains o) (utxoMap o)
     (totalEstimatedFee o) m (txFees o).
Definition set_txFees (f : list TxFee.t) (o : t) : t :=
  mk (network o) (inscriptionTxCtxDataList o) (txChains o) (utxoMap o)
     (totalEstimatedFee o) (chainContextMapping o) f.
End Tool.

(** What a method can read and change: the instance and the number of
    random draws made so far. *)
Record World : Type := mkWorld {
  this : Tool.t;
  draws : nat
}.

Definition M (A : Type) : Type := World -> Result (A * World).

Definition ret {A} (a : A) : M A := fun w => inr (a, w).

Definition bind {A B} (m : M A) (k : A -> M B) : M B :=
  fun w =>
    match m w with
    | inl e => inl e
    | inr (a, w') => k a w'
    end.

Definition throw {A} (msg : string) : M A := fun _ => inl (mkError msg).

Definition lift {A} (r : Result A) : M A :=
  fun w =>
    match r with
    | inl e => inl e
    | inr a => inr (a, w)
    end.

Definition gets {A} (f : Tool.t -> A) : M A := fun w => inr (f (this w), w).

Definition modify (f : Tool.t -> Tool.t) : M unit :=
  fun w => inr (tt, mkWorld (f (this w)) (draws w)).

(** [try { m } catch (e) { throw new Error (wrap (e.message)) }] *)
Definition rethrow {A} (wrap : string -> string) (m : M A) : M A :=
  fun w =>
    match m w with
    | inl e => inl (mkError (wrap (message e)))
    | inr r => inr r
    end.

Declare Scope M_scope.
Delimit Scope M_scope with M.
Notation "x <- c ;; k" := (bind c (fun x => k))
  (at level 61, c at next level, right associativity) : M_scope.
Notation "c ;;; k" := (bind c (fun _ => k))
  (at level 61, right associativity) : M_scope.

(** What [estimateFeeAndOutput] returns. *)
Module Estimate.
Record t : Type := mk {
  fee : Z;
  changeAmount : jsnum
}.
End Estimate.

(** The variables the reveal loop of [buildSingleUtxoChain] carries from
    one round to the next; [prevOutputIndex = None] stands for the [-1]
    that ends the loop. *)
Module LoopState.
Record t : Type := mk {
  txChain : list Transaction;
  prevTx : Transaction;
  prevOutputValue : Z;
  prevOutputIndex : option nat
}.
End LoopState.

Section Model.
Context {ext : Externals}.

(** [base.randomBytes (n)] *)
Definition draw (n : nat) : M Buffer :=
  fun w => inr (randomBytes (draws w) n, mkWorld (this w) (S (draws w))).

(** ** Envelope builder *)

Definition maxChunkSize : nat := 520.

(** The loop [for (let i = 0; i < bodySize; i += maxChunkSize)] that
    pushes the slices of the body; [fuel] bounds the number of rounds and
    [length body] rounds are always enough. *)
Fixpoint pushBodyChunks (fuel : nat) (body : Buffer) (i : nat) : list StackElement :=
  match fuel with
  | O => []
  | S fuel' =>
      let bodySize := length body in
      if i <? bodySize then
        let end_ := if bodySize <? i + maxChunkSize then bodySize else i + maxChunkSize in
        Data (Buffer_.slice body i end_) :: pushBodyChunks fuel' body (i + maxChunkSize)
      else []
  end.

(** [Buffer.from (inscriptionData.body)] *)
Definition bodyBuffer (b : Body) : Buffer :=
  match b with
  | BodyString s => Buffer_.from s
  | BodyBuffer b => b
  end.

(** The element list handed to [bitcoin.script.compile]. *)
Definition inscriptionBuilder (internalPubKey : Buffer) (inscriptionData : InscriptionData.t)
  : list StackElement :=
  let body := bodyBuffer (InscriptionData.body inscriptionData) in
  [ Data internalPubKey;
    Op OPS.OP_CHECKSIG;
    Op OPS.OP_FALSE;
    Op OPS.OP_IF;
    Data (Buffer_.from "ord");
    Op OPS.OP_DATA_1;
    Op OPS.OP_DATA_1;
    Data (Buffer_.from (InscriptionData.contentType inscriptionData));
    Op OPS.OP_0 ]
  ++ pushBodyChunks (length body) body 0
  ++ [ Op OPS.OP_ENDIF ].

Definition createInscriptionTxCtxData (network : Network)
  (inscriptionData : InscriptionData.t) (privateKeyWif : string)
  : Result InscriptionTxCtxData.t :=
  (privateKeyHex <- privateKeyFromWIF privateKeyWif network ;;
   let privateKey := fromHex privateKeyHex in
   publicKey <- wif2Public privateKeyWif network ;;
   let internalPubKey := skipn 1 publicKey in
   let inscriptionScript := script_compile (inscriptionBuilder internalPubKey inscriptionData) in
   let scriptTree := inscriptionScript in
   let redeem := (inscriptionScript, 0xc0%Z) in
   payment <- p2tr internalPubKey scriptTree redeem network ;;
   revealPkScript <- toOutputScript (InscriptionData.revealAddr inscriptionData) network ;;
   ok (InscriptionTxCtxData.mk
         privateKey
         inscriptionScript
         (Payment.address payment)
         (Payment.output payment)
         (Payment.witness payment)
         (Payment.hash payment)
         (TxOut.mk (Buffer_.alloc 0) 0)
         revealPkScript))%result.

(** ** Funding-input signer *)

(** Reading a property of [undefined]. *)
Definition typeError {A} (prop : string) : M A :=
  throw ("Cannot read properties of undefined (reading '" ++ prop ++ "')")%string.

(** The body of [tx.ins.forEach ((input, i) => ...)] in [signTx]. *)
Definition signInput (commitTxPrevOutputList : list PrevOutput.t) (network : Network)
  (tx : Transaction) (i : nat) : M Transaction :=
  match nth_error commitTxPrevOutputList i with
  | None => typeError "address"
  | Some utxo =>
    (addressType <- lift (getAddressType (PrevOutput.address utxo) network) ;;
     privateKeyHex0 <- lift (privateKeyFromWIF (PrevOutput.privateKey utxo) network) ;;
     let privateKey := fromHex privateKeyHex0 in
     let privateKeyHex := toHex privateKey in
     let publicKey := private2public privateKeyHex in
     match addressType with
     | segwit_taproot =>
         prevOutScripts <-
           lift (rmap (fun o => toOutputScript (PrevOutput.address o) network)
                      commitTxPrevOutputList) ;;
         let values := map PrevOutput.amount commitTxPrevOutputList in
         let hash := hashForWitnessV1 tx i prevOutScripts values SIGHASH_DEFAULT None in
         let tweakedPrivKey := taprootTweakPrivKey privateKey in
         aux <- draw 32 ;;
         let signature := schnorr_sign hash tweakedPrivKey aux in
         ret (set_ins (update_nth i (Input.set_witness [signature]) (ins tx)) tx)
     | legacy =>
         prevScript <- lift (toOutputScript (PrevOutput.address utxo) network) ;;
         let hash := hashForSignature tx i prevScript SIGHASH_ALL in
         let signature := sign hash privateKeyHex in
         let payment_input :=
           p2pkh_input (signature_encode signature SIGHASH_ALL) publicKey in
         ret (set_ins (update_nth i (Input.set_script payment_input) (ins tx)) tx)
     | _ =>
         let pubKeyHash := hash160 publicKey in
         let prevOutScript :=
           [Byte.x19; Byte.x76; Byte.xa9; Byte.x14] ++ pubKeyHash ++ [Byte.x88; Byte.xac] in
         let value := PrevOutput.amount utxo in
         let hash := hashForWitness tx i prevOutScript value SIGHASH_ALL in
         let signature := sign hash privateKeyHex in
         let tx1 :=
           set_ins (update_nth i
                      (Input.set_witness [signature_encode signature SIGHASH_ALL; publicKey])
                      (ins tx)) tx in
         let redeemScript := [Byte.x16; Byte.x00; Byte.x14] ++ pubKeyHash in
         match addressType with
         | segwit_nested =>
             ret (set_ins (update_nth i (Input.set_script redeemScript) (ins tx1)) tx1)
         | _ => ret tx1
         end
     end)%M
  end.

(** [tx.ins.forEach]: inputs [i], [i + 1], ... ([n] of them) in turn. *)
Fixpoint signInputs (commitTxPrevOutputList : list PrevOutput.t) (network : Network)
  (n i : nat) (tx : Transaction) : M Transaction :=
  match n with
  | O => ret tx
  | S n' =>
      (tx' <- signInput commitTxPrevOutputList network tx i ;;
       signInputs commitTxPrevOutputList network n' (S i) tx')%M
  end.

(** [signTx] changes its transaction in place; here it returns it. *)
Definition signTx (tx : Transaction) (commitTxPrevOutputList : list PrevOutput.t)
  (network : Network) : M Transaction :=
  signInputs commitTxPrevOutputList network (length (ins tx)) 0 tx.

(** ** Fee and change estimator *)

(** The two [try] blocks of the estimator that give the copy a witness
    of the right size; they differ in their messages only. *)
Definition simulateSigning (txForEstimate : Transaction) (inputs : list PrevOutput.t)
  (isCommitTx : bool) (inscriptionCtx : option InscriptionTxCtxData.t)
  (noInput noContext : string) (wrap : string -> string) : M Transaction :=
  rethrow wrap
    (if isCommitTx then
       (network <- gets Tool.network ;;
        signTx txForEstimate inputs network)%M
     else
       match inscriptionCtx with
       | Some ctx =>
           let emptySignature := Buffer_.alloc 64 in
           match ins txForEstimate with
           | input0 :: _ =>
               ret (set_ins
                      (update_nth 0
                         (Input.set_witness (emptySignature :: InscriptionTxCtxData.witness ctx))
                         (ins txForEstimate))
                      txForEstimate)
           | [] => throw noInput
           end
       | None => throw noContext
       end).

(** [countAdjustedVsize (tx, inputs.map (i => i.address), this.network)]
    inside its [try] block. *)
Definition adjustedVsize (tx : Transaction) (inputs : list PrevOutput.t)
  (wrap : string -> string) : M Z :=
  rethrow wrap
    (network <- gets Tool.network ;;
     lift (countAdjustedVsize tx (map PrevOutput.address inputs) network))%M.

(** [Math.max (Math.ceil (vsize * feeRate), vsize)] *)
Definition feeFor (vsize : Z) (feeRate : Q) : Z :=
  Z.max (Qceiling (inject_Z vsize * feeRate)) vsize.

Definition estimateFeeAndOutput (tx : Transaction) (inputs : list PrevOutput.t)
  (feeRate : Q) (totalInputValue fixedOutputValue minChangeValue : Z)
  (isCommitTx : bool) (inscriptionCtx : option InscriptionTxCtxData.t)
  : M Estimate.t :=
  (let txForEstimate := tx in
   txForEstimate <-
     simulateSigning txForEstimate inputs isCommitTx inscriptionCtx
       "费用估算内部错误：尝试估算一个没有输入的 Reveal 交易？"
       "费用估算内部错误：估算 Reveal 交易费用需要提供 inscriptionCtx"
       (fun m => "费用估算错误：模拟签名失败: " ++ m)%string ;;
   vsize <-
     adjustedVsize txForEstimate inputs
       (fun m => "费用估算错误：计算 VSize 失败: " ++ m)%string ;;
   let fee := feeFor vsize feeRate in
   let changeAmount := (totalInputValue - fixedOutputValue - fee)%Z in
   let changeOutputIndex := if isCommitTx then (-1)%Z else 1%Z in
   if negb (changeOutputIndex =? -1)%Z
      && (changeOutputIndex <? Z.of_nat (length (outs tx)))%Z
   then
     if negb (minChangeValue <=? changeAmount)%Z then
       let txWithoutChange := tx in
       txWithoutChange <-
         (if (changeOutputIndex <? Z.of_nat (length (outs txWithoutChange)))%Z then
            ret (set_outs (splice1 (Z.to_nat changeOutputIndex) (outs txWithoutChange))
                          txWithoutChange)
          else
            throw ("费用估算内部错误：期望在索引 " ++ show_Z changeOutputIndex
                   ++ " 找到找零输出，但输出数量为 "
                   ++ show_nat (length (outs txWithoutChange)))%string) ;;
       let estimateTxWithoutChange := txWithoutChange in
       estimateTxWithoutChange <-
         simulateSigning estimateTxWithoutChange inputs isCommitTx inscriptionCtx
           "费用估算内部错误：尝试估算一个没有输入且无找零的 Reveal 交易？"
           "费用估算内部错误：估算 Reveal 交易费用需要提供 inscriptionCtx (无找零情况)"
           (fun m => "费用估算错误：重新模拟签名 (无找零) 失败: " ++ m)%string ;;
       vsizeWithoutChange <-
         adjustedVsize estimateTxWithoutChange inputs
           (fun m => "费用估算错误：重新计算 VSize (无找零) 失败: " ++ m)%string ;;
       let feeWithoutChange := feeFor vsizeWithoutChange feeRate in
       if (fixedOutputValue + feeWithoutChange <=? totalInputValue)%Z then
         ret (Estimate.mk feeWithoutChange (Num (-1)))
       else
         ret (Estimate.mk fee NegInfinity)
     else ret (Estimate.mk fee (Num changeAmount))
   else ret (Estimate.mk fee (Num changeAmount)))%M.

(** ** Chain assembler *)

(** The three statements that enter a transaction in the ledgers:
    [this.totalEstimatedFee += fee], [this.txFees.push (...)] and
    [this.chainContextMapping.push (...)]. *)
Definition recordTx (chainIndex txIndex : nat) (fee : Z) (contextIndex : option nat)
  : M unit :=
  (modify (fun t => Tool.set_totalEstimatedFee (Tool.totalEstimatedFee t + fee)%Z t) ;;;
   modify (fun t => Tool.set_txFees (Tool.txFees t ++ [TxFee.mk chainIndex txIndex fee]) t) ;;;
   modify (fun t =>
     Tool.set_chainContextMapping
       (Tool.chainContextMapping t ++ [Mapping.mk chainIndex txIndex contextIndex]) t))%M.

Section Chain.
Variables (network : Network) (utxo : PrevOutput.t)
  (inscriptions : list InscriptionTxCtxData.t)
  (revealOutValue : Z) (revealFeeRate : Q) (finalChangeAddress : string)
  (minChangeValue : Z) (commitFeeRate : Q)
  (inscriptionCtxStartIndex chainIndex : nat).
Variable firstInscriptionCtx : InscriptionTxCtxData.t.

Definition chainLabel (i : nat) : string :=
  (" (链 " ++ show_nat chainIndex ++ ", 铭文 " ++ show_nat i ++ "): ")%string.

(** The input description the estimator gets for a reveal:
    [{...utxo, amount: prevOutputValue, address: firstInscriptionCtx.commitTxAddress, privateKey: ''}]. *)
Definition simulatedInput (prevOutputValue : Z) : PrevOutput.t :=
  PrevOutput.mk (PrevOutput.txId utxo) (PrevOutput.vOut utxo) prevOutputValue
    (InscriptionTxCtxData.commitTxAddress firstInscriptionCtx) ""
    (PrevOutput.publicKey utxo).

(** One round of the loop [for (let i = 0; i < inscriptionCount; i++)]. *)
Definition revealStep (i : nat) (inscriptionCtx : InscriptionTxCtxData.t)
  (txChain : list Transaction) (prevTx : Transaction)
  (prevOutputValue : Z) (prevOutputIndex : nat) : M LoopState.t :=
  let inscriptionCount := length inscriptions in
  let isLastReveal := i =? inscriptionCount - 1 in
  let currentTxIndex := length txChain in
  let contextIndexForThisReveal := inscriptionCtxStartIndex + i in
  let currentChangeAddress :=
    if isLastReveal then finalChangeAddress
    else match nth_error inscriptions (i + 1) with
         | Some next => InscriptionTxCtxData.commitTxAddress next
         | None => ""%string
         end in
  if String.eqb currentChangeAddress "" then
    throw ("链式铭刻内部错误" ++ chainLabel i ++ "无法确定 Reveal 交易的找零地址")%string
  else
    (let revealTx := set_version DEFAULT_TX_VERSION newTransaction in
     let revealTx := addInput (getHash prevTx) prevOutputIndex DEFAULT_SEQUENCE_NUM revealTx in
     let revealTx :=
       addOutput (InscriptionTxCtxData.revealPkScript inscriptionCtx) revealOutValue revealTx in
     changePkScript <- lift (toOutputScript currentChangeAddress network) ;;
     let revealTx := addOutput changePkScript 0 revealTx in
     est <- estimateFeeAndOutput revealTx [simulatedInput prevOutputValue] revealFeeRate
              prevOutputValue revealOutValue minChangeValue false (Some inscriptionCtx) ;;
     let revealFee := Estimate.fee est in
     r <- match Estimate.changeAmount est with
          | NegInfinity =>
              throw ("链式铭刻错误" ++ chainLabel i ++ "交易链中断，余额 ("
                     ++ show_Z prevOutputValue ++ " sat) 不足以支付 Reveal 费用 (约 "
                     ++ show_Z revealFee ++ " sat) + 铭文输出 ("
                     ++ show_Z revealOutValue ++ " sat)")%string
          | Num revealChangeAmount =>
              if (revealChangeAmount =? -1)%Z then
                if negb isLastReveal then
                  throw ("链式铭刻错误" ++ chainLabel i
                         ++ "交易链中断，非最后一个 Reveal 交易必须有找零，但余额 ("
                         ++ show_Z prevOutputValue ++ " sat) 不足以支付 Reveal 费用 (约 "
                         ++ show_Z revealFee ++ " sat) + 铭文输出 ("
                         ++ show_Z revealOutValue ++ " sat) + 最小找零 ("
                         ++ show_Z minChangeValue ++ " sat)")%string
                else
                  let revealTx := set_outs (pop (outs revealTx)) revealTx in
                  est' <- estimateFeeAndOutput revealTx [simulatedInput prevOutputValue]
                            revealFeeRate prevOutputValue revealOutValue 0 false
                            (Some inscriptionCtx) ;;
                  let revealFeeNoChange := Estimate.fee est' in
                  recordTx chainIndex currentTxIndex revealFeeNoChange
                    (Some contextIndexForThisReveal) ;;;
                  ret (revealTx, 0%Z)
              else if (minChangeValue <=? revealChangeAmount)%Z then
                recordTx chainIndex currentTxIndex revealFee
                  (Some contextIndexForThisReveal) ;;;
                let revealTx :=
                  set_outs (update_nth 1 (Output.set_value revealChangeAmount) (outs revealTx))
                           revealTx in
                ret (revealTx, revealChangeAmount)
              else
                throw ("链式铭刻内部错误" ++ chainLabel i ++ "计算得到的找零金额异常: "
                       ++ show_Z revealChangeAmount)%string
          end ;;
     let '(revealTx, prevOutputValue) := r in
     let txChain := txChain ++ [revealTx] in
     let prevTx := revealTx in
     let prevOutputIndex :=
       match Estimate.changeAmount est with
       | Num c => if isLastReveal && (c =? -1)%Z then None else Some 1
       | NegInfinity => Some 1
       end in
     ret (LoopState.mk txChain prevTx prevOutputValue prevOutputIndex))%M.

(** The reveal loop.  [pending] is [inscriptions] from position [i] on:
    the loop test [i < inscriptionCount] is [pending <> []] and
    [inscriptions[i]] is its head. *)
Fixpoint revealLoop (pending : list InscriptionTxCtxData.t) (i : nat)
  (txChain : list Transaction) (prevTx : Transaction)
  (prevOutputValue : Z) (prevOutputIndex : nat) : M (list Transaction) :=
  match pending with
  | [] => ret txChain
  | inscriptionCtx :: pending' =>
      (st <- revealStep i inscriptionCtx txChain prevTx prevOutputValue prevOutputIndex ;;
       match LoopState.prevOutputIndex st with
       | None => ret (LoopState.txChain st)
       | Some prevOutputIndex' =>
           revealLoop pending' (S i) (LoopState.txChain st) (LoopState.prevTx st)
             (LoopState.prevOutputValue st) prevOutputIndex'
       end)%M
  end.

End Chain.

Definition buildSingleUtxoChain (network : Network) (utxo : PrevOutput.t)
  (inscriptions : list InscriptionTxCtxData.t)
  (revealOutValue : Z) (revealFeeRate : Q) (finalChangeAddress : string)
  (minChangeValue : Z) (commitFeeRate : Q)
  (inscriptionCtxStartIndex chainIndex : nat) : M (list Transaction) :=
  let txChain : list Transaction := [] in
  match inscriptions with
  | [] => ret txChain
  | firstInscriptionCtx :: _ =>
    (let initialCommitTx := set_version DEFAULT_TX_VERSION newTransaction in
     let utxoHash := reverseBuffer (fromHex (PrevOutput.txId utxo)) in
     let initialCommitTx :=
       addInput utxoHash (PrevOutput.vOut utxo) DEFAULT_SEQUENCE_NUM initialCommitTx in
     let initialCommitTx :=
       addOutput (InscriptionTxCtxData.commitTxAddressPkScript firstInscriptionCtx) 0
                 initialCommitTx in
     est <- estimateFeeAndOutput initialCommitTx [utxo] commitFeeRate
              (PrevOutput.amount utxo) 0 minChangeValue true None ;;
     let initialCommitFee := Estimate.fee est in
     let insufficient : M (list Transaction) :=
       throw ("链式铭刻错误 (链 " ++ show_nat chainIndex ++ "): UTXO "
              ++ PrevOutput.txId utxo ++ ":" ++ show_nat (PrevOutput.vOut utxo)
              ++ " (" ++ show_Z (PrevOutput.amount utxo)
              ++ " sat) 余额不足以支付初始 Commit 交易费用 (约 "
              ++ show_Z initialCommitFee ++ " sat)")%string in
     match Estimate.changeAmount est with
     | NegInfinity => insufficient
     | Num commitOutputAmount =>
         if (commitOutputAmount <? 0)%Z then insufficient
         else
           recordTx chainIndex 0 initialCommitFee None ;;;
           let initialCommitTx :=
             set_outs (update_nth 0 (Output.set_value commitOutputAmount)
                                  (outs initialCommitTx))
                      initialCommitTx in
           let txChain := txChain ++ [initialCommitTx] in
           revealLoop network utxo inscriptions revealOutValue revealFeeRate
             finalChangeAddress minChangeValue inscriptionCtxStartIndex chainIndex
             firstInscriptionCtx
             inscriptions 0 txChain initialCommitTx commitOutputAmount 0
     end)%M
  end.

(** ** Chain layout planner *)

Section Planner.
Variables (network : Network) (commitTxPrevOutputList : list PrevOutput.t)
  (revealOutValue : Z) (revealFeeRate : Q) (changeAddress : string)
  (minChangeValue : Z) (commitFeeRate : Q).
Variable totalInscriptions : nat.

Definition maxInscriptionsPerChain : nat := MAX_TRANSACTIONS_PER_CHAIN - 1.

(** The loop [while (inscriptionStartIndex < totalInscriptions)].
    [pending] is [commitTxPrevOutputList] from position [currentUtxoIndex]
    on: [currentUtxoIndex >= utxoCount] is [pending = []] and
    [commitTxPrevOutputList[currentUtxoIndex]] is its head. *)
Fixpoint chainLoop (pending : list PrevOutput.t)
  (inscriptionStartIndex currentUtxoIndex : nat) : M unit :=
  let utxoCount := length commitTxPrevOutputList in
  if inscriptionStartIndex <? totalInscriptions then
    match pending with
    | [] =>
        throw ("链式铭刻错误：UTXO 数量 (" ++ show_nat utxoCount
               ++ ") 不足以处理所有铭文 (" ++ show_nat totalInscriptions
               ++ ")。请确保调用前已筛选足够价值的 UTXO。")%string
    | utxo :: pending' =>
      (let remainingInscriptions := totalInscriptions - inscriptionStartIndex in
       let countForThisChain := Nat.min remainingInscriptions maxInscriptionsPerChain in
       let segmentEndIndex := inscriptionStartIndex + countForThisChain in
       contexts <- gets Tool.inscriptionTxCtxDataList ;;
       let inscriptionsForThisChain := slice contexts inscriptionStartIndex segmentEndIndex in
       if (length inscriptionsForThisChain =? 0)
          || negb (length inscriptionsForThisChain =? countForThisChain)
       then throw "链式铭刻内部错误：无法获取铭文数据片段"
       else
         chains <- gets Tool.txChains ;;
         let currentChainIndex := length chains in
         txChain <- buildSingleUtxoChain network utxo inscriptionsForThisChain
                      revealOutValue revealFeeRate changeAddress minChangeValue
                      commitFeeRate inscriptionStartIndex currentChainIndex ;;
         (if 0 <? length txChain
          then modify (fun t => Tool.set_txChains (Tool.txChains t ++ [txChain]) t)
          else ret tt) ;;;
         chainLoop pending' (inscriptionStartIndex + countForThisChain)
                   (S currentUtxoIndex))%M
    end
  else ret tt.

End Planner.

Definition buildEnhancedInscriptionChains (network : Network)
  (commitTxPrevOutputList : list PrevOutput.t)
  (revealOutValue : Z) (revealFeeRate : Q) (changeAddress : string)
  (minChangeValue : Z) (commitFeeRate : Q) : M unit :=
  (contexts <- gets Tool.inscriptionTxCtxDataList ;;
   let totalInscriptions := length contexts in
   let utxoCount := length commitTxPrevOutputList in
   if utxoCount =? 0 then ret tt
   else if totalInscriptions =? 0 then ret tt
   else
     chainLoop network commitTxPrevOutputList revealOutValue revealFeeRate
       changeAddress minChangeValue commitFeeRate totalInscriptions
       commitTxPrevOutputList 0 0)%M.

(** ** Script-path signer *)

(** [list.find (m => m.chainIndex === chainIndex && m.txIndex === txIndex)] *)
Definition findMapping (chainIndex txIndex : nat) (l : list Mapping.t) : option Mapping.t :=
  find (fun m => (Mapping.chainIndex m =? chainIndex) && (Mapping.txIndex m =? txIndex)) l.

Definition findFee (chainIndex txIndex : nat) (l : list TxFee.t) : option TxFee.t :=
  find (fun f => (TxFee.chainIndex f =? chainIndex) && (TxFee.txIndex f =? txIndex)) l.

(** The [else] branch of the signing callback: a reveal, [txIndex > 0]. *)
Definition signReveal (chainIndex txIndex : nat) (tx : Transaction)
  (prevTxOutputs : list Output.t) : M Transaction :=
  let inputIndex := 0 in
  match nth_error (ins tx) inputIndex with
  | None => typeError "index"
  | Some input =>
    let outputSpentIndex := Input.index input in
    if length prevTxOutputs <=? outputSpentIndex then
      throw ("签名错误 (链 " ++ show_nat chainIndex ++ ", TX " ++ show_nat txIndex
             ++ "): 尝试花费上一个交易 (TX " ++ show_nat (txIndex - 1)
             ++ ") 不存在的输出索引 " ++ show_nat outputSpentIndex)%string
    else
      match nth_error prevTxOutputs outputSpentIndex with
      | None => typeError "script"
      | Some prevOut =>
        (let prevOutScript := Output.script prevOut in
         let value := Output.value prevOut in
         mappings <- gets Tool.chainContextMapping ;;
         let noMapping : M Transaction :=
           throw ("签名错误 (链 " ++ show_nat chainIndex ++ ", TX " ++ show_nat txIndex
                  ++ "): 未找到交易的铭文上下文映射信息")%string in
         match findMapping chainIndex txIndex mappings with
         | None => noMapping
         | Some mapping =>
           match Mapping.contextIndex mapping with
           | None => noMapping
           | Some contextIndex =>
             contexts <- gets Tool.inscriptionTxCtxDataList ;;
             match nth_error contexts contextIndex with
             | None =>
                 throw ("签名错误 (链 " ++ show_nat chainIndex ++ ", TX " ++ show_nat txIndex
                        ++ "): 根据映射索引 " ++ show_nat contextIndex
                        ++ " 未找到铭文上下文数据")%string
             | Some inscriptionCtx =>
               if negb (Buffer_.equals
                          (InscriptionTxCtxData.commitTxAddressPkScript inscriptionCtx)
                          prevOutScript)
               then throw "签名错误：花费脚本与预期上下文不匹配"
               else
                 let privateKeyForSigning := InscriptionTxCtxData.privateKey inscriptionCtx in
                 let scriptHashForSigning := InscriptionTxCtxData.hash inscriptionCtx in
                 let witnessForSigning := InscriptionTxCtxData.witness inscriptionCtx in
                 let hash :=
                   hashForWitnessV1 tx inputIndex [prevOutScript] [value] SIGHASH_DEFAULT
                     (Some scriptHashForSigning) in
                 aux <- draw 32 ;;
                 let signature := schnorr_sign hash privateKeyForSigning aux in
                 ret (set_ins
                        (update_nth inputIndex
                           (Input.set_witness (signature :: witnessForSigning)) (ins tx))
                        tx)
             end
           end
         end)%M
      end
  end.

(** [chain.forEach ((tx, txIndex) => ...)]: the transactions from
    position [txIndex] on; the result is the chain as signed. *)
Fixpoint signChainTxs (initialUtxo : PrevOutput.t) (chainIndex : nat)
  (txs : list Transaction) (txIndex : nat) (prevTxOutputs : list Output.t)
  : M (list Transaction) :=
  match txs with
  | [] => ret []
  | tx :: txs' =>
    (tx' <- rethrow
              (fun m => "签名错误 (链 " ++ show_nat chainIndex ++ ", TX "
                        ++ show_nat txIndex ++ "): " ++ m)%string
              (if txIndex =? 0 then
                 network <- gets Tool.network ;;
                 signTx tx [initialUtxo] network
               else signReveal chainIndex txIndex tx prevTxOutputs) ;;
     let prevTxOutputs := outs tx' in
     rest <- signChainTxs initialUtxo chainIndex txs' (S txIndex) prevTxOutputs ;;
     ret (tx' :: rest))%M
  end.

(** [this.txChains.forEach ((chain, chainIndex) => ...)] from position
    [chainIndex] on; a chain the callback returns from early stays as it
    is. *)
Fixpoint signChains (commitTxPrevOutputList : list PrevOutput.t)
  (chains : list (list Transaction)) (chainIndex : nat) : M (list (list Transaction)) :=
  match chains with
  | [] => ret []
  | chain :: chains' =>
    (chain' <-
       (if length commitTxPrevOutputList <=? chainIndex then ret chain
        else
          match nth_error commitTxPrevOutputList chainIndex with
          | None => ret chain
          | Some initialUtxo =>
              if String.eqb (PrevOutput.privateKey initialUtxo) "" then ret chain
              else signChainTxs initialUtxo chainIndex chain 0 []
          end) ;;
     rest <- signChains commitTxPrevOutputList chains' (S chainIndex) ;;
     ret (chain' :: rest))%M
  end.

Definition signAllTransactions (commitTxPrevOutputList : list PrevOutput.t) : M unit :=
  (chains <- gets Tool.txChains ;;
   if length chains =? 0 then ret tt
   else
     chains' <- signChains commitTxPrevOutputList chains 0 ;;
     modify (Tool.set_txChains chains'))%M.

(** ** The factory *)

(** [x || d] for a number. *)
Definition orDefault (x d : Z) : Z := if (x =? 0)%Z then d else x.

(** [x || d] for an optional number. *)
Definition orDefaultOpt (x : option Z) (d : Z) : Z :=
  match x with
  | Some v => orDefault v d
  | None => d
  end.

(** The check that every funding output carries its key. *)
Fixpoint checkPrivateKeys (utxos : list PrevOutput.t) (index : nat) : M unit :=
  match utxos with
  | [] => ret tt
  | utxo :: utxos' =>
      if String.eqb (PrevOutput.privateKey utxo) "" then
        throw ("输入错误：commitTxPrevOutputList 中索引 " ++ show_nat index
               ++ " 的 UTXO (txId: " ++ PrevOutput.txId utxo
               ++ ") 缺少私钥 (privateKey)")%string
      else checkPrivateKeys utxos' (S index)
  end.

(** [map.set (key, value)] on a [Map] kept in insertion order. *)
Fixpoint map_set {V} (key : string) (v : V) (m : list (string * V)) : list (string * V) :=
  match m with
  | [] => [(key, v)]
  | (k, v') :: m' => if String.eqb k key then (k, v) :: m' else (k, v') :: map_set key v m'
  end.

Definition utxoKey (utxo : PrevOutput.t) : string :=
  (PrevOutput.txId utxo ++ ":" ++ show_nat (PrevOutput.vOut utxo))%string.

Definition utxoInfo (utxo : PrevOutput.t) : UtxoInfo.t :=
  UtxoInfo.mk (PrevOutput.amount utxo) (PrevOutput.address utxo) (PrevOutput.privateKey utxo).

(** The body of [newChainInscriptionTool], run on the fresh instance. *)
Definition initialize (network : Network) (request : InscriptionRequest.t) : M unit :=
  (modify (Tool.set_network network) ;;;
   let revealOutValue :=
     orDefault (InscriptionRequest.revealOutValue request) DEFAULT_REVEAL_OUT_VALUE in
   let minChangeValue :=
     orDefaultOpt (InscriptionRequest.minChangeValue request) DEFAULT_MIN_CHANGE_VALUE in
   let utxos := InscriptionRequest.commitTxPrevOutputList request in
   match utxos with
   | [] => throw "输入错误：commitTxPrevOutputList 不能为空"
   | firstUtxo :: _ =>
     if length (InscriptionRequest.inscriptionDataList request) =? 0 then
       throw "输入错误：inscriptionDataList 不能为空"
     else
       checkPrivateKeys utxos 0 ;;;
       let primaryPrivateKeyWif := PrevOutput.privateKey firstUtxo in
       contexts <-
         lift (rmap (fun inscriptionData =>
                       createInscriptionTxCtxData network inscriptionData primaryPrivateKeyWif)
                    (InscriptionRequest.inscriptionDataList request)) ;;
       modify (fun t =>
         Tool.set_inscriptionTxCtxDataList (Tool.inscriptionTxCtxDataList t ++ contexts) t) ;;;
       modify (fun t =>
         Tool.set_utxoMap
           (fold_left (fun m utxo => map_set (utxoKey utxo) (utxoInfo utxo) m) utxos
                      (Tool.utxoMap t)) t) ;;;
       buildEnhancedInscriptionChains network utxos revealOutValue
         (InscriptionRequest.revealFeeRate request)
         (InscriptionRequest.changeAddress request) minChangeValue
         (InscriptionRequest.commitFeeRate request) ;;;
       signAllTransactions utxos
   end)%M.

(** [ChainInscriptionTool.newChainInscriptionTool (network, request)]
    when [seed] random draws were made before the call: the tool, and
    the number of draws after it. *)
Definition newChainInscriptionTool (network : Network) (request : InscriptionRequest.t)
  (seed : nat) : Result World :=
  match initialize network request (mkWorld Tool.new seed) with
  | inl e => inl e
  | inr (_, w) => inr w
  end.

(** ** Result packager *)

(** The three arrays the packaging callback appends to. *)
Definition Packaged : Type :=
  (list (list string) * list (list string) * list LastTxInfo.t)%type.

(** The callback of [tool.txChains.forEach ((chain, chainIndex) => ...)]
    in [inscribeChain]. *)
Definition packageChain (tool : Tool.t) (request : InscriptionRequest.t)
  (acc : Packaged) (chainIndex : nat) (chain : list Transaction) : Result Packaged :=
  let '(txChainsHex, txChainTxIds, lastTxDetails) := acc in
  if length chain <? 2 then
    ok (txChainsHex ++ [[]], txChainTxIds ++ [[]], lastTxDetails)
  else
    let lastTxIndex := length chain - 1 in
    match nth_error chain lastTxIndex, nth_error chain (lastTxIndex - 1) with
    | Some lastTx, Some prevTx =>
      let chainHex := map tx_toHex chain in
      let chainTxIds := map getId chain in
      let txChainsHex := txChainsHex ++ [chainHex] in
      let txChainTxIds := txChainTxIds ++ [chainTxIds] in
      let lastTxId := getId lastTx in
      let lastTxHex := tx_toHex lastTx in
      let feeInfo := findFee chainIndex lastTxIndex (Tool.txFees tool) in
      let lastTxFee := match feeInfo with Some f => TxFee.fee f | None => 0%Z end in
      match nth_error (ins lastTx) 0 with
      | None => fail "Cannot read properties of undefined (reading 'index')"
      | Some inputInfo =>
        let inputTxId := getId prevTx in
        let inputVout := Input.index inputInfo in
        if length (outs prevTx) <=? inputVout then
          ok (txChainsHex, txChainTxIds, lastTxDetails)
        else
          match nth_error (outs prevTx) inputVout with
          | None => fail "Cannot read properties of undefined (reading 'value')"
          | Some spent =>
            let inputValue := Output.value spent in
            let outputs :=
              map (fun o => OutputInfo.mk (toString_hex (Output.script o)) (Output.value o))
                  (outs lastTx) in
            let mappingInfo :=
              findMapping chainIndex lastTxIndex (Tool.chainContextMapping tool) in
            let contextIndex :=
              match mappingInfo with
              | Some m => Mapping.contextIndex m
              | None => None
              end in
            let revealPkScriptHex :=
              match outputs with
              | o :: _ => OutputInfo.pkScriptHex o
              | [] => ""%string
              end in
            let finalChangePkScriptHex :=
              match outputs with
              | _ :: o :: _ => OutputInfo.pkScriptHex o
              | _ => ""%string
              end in
            let context :=
              match contextIndex with
              | Some c => nth_error (Tool.inscriptionTxCtxDataList tool) c
              | None => None
              end in
            let signingPrivateKeyWIF :=
              match context with
              | Some c => private2Wif (InscriptionTxCtxData.privateKey c) (Tool.network tool)
              | None => ""%string
              end in
            let prevInputPkScriptHex :=
              match context with
              | Some c => toString_hex (InscriptionTxCtxData.commitTxAddressPkScript c)
              | None => ""%string
              end in
            let tapScriptTreeHashHex :=
              match context with
              | Some c => toString_hex (InscriptionTxCtxData.hash c)
              | None => ""%string
              end in
            let detail :=
              LastTxInfo.mk lastTxId lastTxHex lastTxFee inputTxId inputVout inputValue
                outputs signingPrivateKeyWIF
                (InscriptionRequest.changeAddress request)
                (Tool.network tool)
                (orDefault (InscriptionRequest.revealOutValue request)
                           DEFAULT_REVEAL_OUT_VALUE)
                (orDefaultOpt (InscriptionRequest.minChangeValue request)
                              DEFAULT_MIN_CHANGE_VALUE)
                prevInputPkScriptHex revealPkScriptHex finalChangePkScriptHex
                tapScriptTreeHashHex
                (if Network_eqb (Tool.network tool) bitcoin then "mainnet" else "testnet")
            in
            ok (txChainsHex, txChainTxIds, lastTxDetails ++ [detail])
          end
      end
    | _, _ => fail "Cannot read properties of undefined (reading 'getId')"
    end.

Fixpoint packageChains (tool : Tool.t) (request : InscriptionRequest.t)
  (acc : Packaged) (chainIndex : nat) (chains : list (list Transaction))
  : Result Packaged :=
  match chains with
  | [] => ok acc
  | chain :: chains' =>
      match packageChain tool request acc chainIndex chain with
      | inl e => inl e
      | inr acc' => packageChains tool request acc' (S chainIndex) chains'
      end
  end.

(** The [try] block of [inscribeChain]. *)
Definition inscribeChainTry (network : Network) (request : InscriptionRequest.t)
  (seed : nat) : Result ChainInscribeResult.t :=
  (w <- newChainInscriptionTool network request seed ;;
   let tool := this w in
   packaged <- packageChains tool request ([], [], []) 0 (Tool.txChains tool) ;;
   let '(txChainsHex, txChainTxIds, lastTxDetails) := packaged in
   ok (ChainInscribeResult.mk true txChainsHex txChainTxIds lastTxDetails
         (Tool.totalEstimatedFee tool) None))%result.

(** [inscribeChain (network, request)], when [seed] random draws were
    made before the call. *)
Definition inscribeChain (network : Network) (request : InscriptionRequest.t)
  (seed : nat) : ChainInscribeResult.t :=
  match inscribeChainTry network request seed with
  | inr result => result
  | inl error =>
      ChainInscribeResult.mk false [] [] [] 0
        (Some (if String.eqb (message error) "" then "未知错误"%string else message error))
  end.

End Model.


(** * Notions used in the statements *)

(** The copy of a reveal the estimator measures: a zero signature of 64
    bytes in front of the context's witness. *)
Definition withPlaceholderWitness (ctx : InscriptionTxCtxData.t) (tx : Transaction)
  : Transaction :=
  set_ins
    (update_nth 0
       (Input.set_witness (Buffer_.alloc 64 :: InscriptionTxCtxData.witness ctx))
       (ins tx))
    tx.

(** The sentinels of the estimator. *)
Definition CHANGE_DROPPED : jsnum := Num (-1).
Definition INSUFFICIENT : jsnum := NegInfinity.

(** The instance after [recordTx]: one more fee, one more mapping. *)
Definition recorded (chainIndex txIndex : nat) (fee : Z) (contextIndex : option nat)
  (t : Tool.t) : Tool.t :=
  Tool.mk (Tool.network t) (Tool.inscriptionTxCtxDataList t) (Tool.txChains t)
    (Tool.utxoMap t) (Tool.totalEstimatedFee t + fee)%Z
    (Tool.chainContextMapping t ++ [Mapping.mk chainIndex txIndex contextIndex])
    (Tool.txFees t ++ [TxFee.mk chainIndex txIndex fee]).

Section Shapes.
Context {ext : Externals}.

(** A reveal as the assembler first writes it: one input spending
    [prevOutputIndex] of [prevTx], the dust output, and a change output
    whose value is still open. *)
Definition revealSkeleton (prevTx : Transaction) (prevOutputIndex : nat)
  (revealPkScript : Buffer) (revealOutValue : Z) (changePkScript : Buffer) : Transaction :=
  mkTransaction DEFAULT_TX_VERSION 0
    [Input.mk (getHash prevTx) prevOutputIndex [] DEFAULT_SEQUENCE_NUM []]
    [Output.mk revealPkScript revealOutValue; Output.mk changePkScript 0].

(** The commit of a chain: the funding output in, one output out. *)
Definition commitOf (utxo : PrevOutput.t) (commitPkScript : Buffer) (value : Z) : Transaction :=
  mkTransaction DEFAULT_TX_VERSION 0
    [Input.mk (reverseBuffer (fromHex (PrevOutput.txId utxo))) (PrevOutput.vOut utxo) []
       DEFAULT_SEQUENCE_NUM []]
    [Output.mk commitPkScript value].

Section Chain.
Variables (network : Network) (inscriptions : list InscriptionTxCtxData.t)
  (revealOutValue : Z) (finalChangeAddress : string) (minChangeValue : Z).

(** Where the change of reveal [i] goes. *)
Definition changeAddressOf (i : nat) : string :=
  if i =? length inscriptions - 1 then finalChangeAddress
  else match nth_error inscriptions (i + 1) with
       | Some next => InscriptionTxCtxData.commitTxAddress next
       | None => ""%string
       end.

(** Reveal [i] of a chain, spending output [prevOutputIndex] of [prevTx]
    worth [available] and paying the estimated [fee]: either it keeps a
    change output of at least [minChangeValue], or it is the last one
    and has the dust output only. *)
Definition revealShape (i : nat) (prevTx : Transaction) (prevOutputIndex : nat)
  (available : Z) (tx : Transaction) (fee : Z) : Prop :=
  exists ctx changePkScript,
    nth_error inscriptions i = Some ctx
    /\ toOutputScript (changeAddressOf i) network = inr changePkScript
    /\ version tx = DEFAULT_TX_VERSION
    /\ ins tx = [Input.mk (getHash prevTx) prevOutputIndex [] DEFAULT_SEQUENCE_NUM []]
    /\ ((exists change,
           outs tx = [Output.mk (InscriptionTxCtxData.revealPkScript ctx) revealOutValue;
                      Output.mk changePkScript change]
           /\ (minChangeValue <= change)%Z
           /\ available = (revealOutValue + fee + change)%Z)
        \/ (i = length inscriptions - 1
            /\ outs tx = [Output.mk (InscriptionTxCtxData.revealPkScript ctx) revealOutValue]
            /\ ((0 <= minChangeValue)%Z -> (revealOutValue + fee <= available)%Z))).

(** What the next reveal can spend. *)
Definition changeValueOf (tx : Transaction) : Z :=
  match outs tx with
  | [_; change] => Output.value change
  | _ => 0%Z
  end.

(** The reveals of a chain from position [i] on, with their fees. *)
Fixpoint revealsShape (i : nat) (prevTx : Transaction) (prevOutputIndex : nat)
  (available : Z) (txs : list Transaction) (fees : list Z) : Prop :=
  match txs, fees with
  | [], [] => True
  | tx :: txs', fee :: fees' =>
      revealShape i prevTx prevOutputIndex available tx fee
      /\ revealsShape (S i) tx 1 (changeValueOf tx) txs' fees'
  | _, _ => False
  end.

(** A whole chain: the commit, then one reveal per inscription. *)
Definition chainShape (utxo : PrevOutput.t) (chain : list Transaction) (fees : list Z) : Prop :=
  exists first commitValue reveals commitFee revealFees,
    nth_error inscriptions 0 = Some first
    /\ chain =
       commitOf utxo (InscriptionTxCtxData.commitTxAddressPkScript first) commitValue :: reveals
    /\ fees = commitFee :: revealFees
    /\ (0 <= commitValue)%Z
    /\ PrevOutput.amount utxo = (commitValue + commitFee)%Z
    /\ length reveals = length inscriptions
    /\ revealsShape 0
         (commitOf utxo (InscriptionTxCtxData.commitTxAddressPkScript first) commitValue)
         0 commitValue reveals revealFees.

End Chain.

(** The ledger entries of a run of transactions that starts at position
    [txIndex] of chain [chainIndex]. *)
Fixpoint feeEntries (chainIndex txIndex : nat) (fees : list Z) : list TxFee.t :=
  match fees with
  | [] => []
  | fee :: fees' => TxFee.mk chainIndex txIndex fee :: feeEntries chainIndex (S txIndex) fees'
  end.

Fixpoint revealMappings (chainIndex txIndex contextIndex count : nat) : list Mapping.t :=
  match count with
  | O => []
  | S count' =>
      Mapping.mk chainIndex txIndex (Some contextIndex)
      :: revealMappings chainIndex (S txIndex) (S contextIndex) count'
  end.

(** A whole chain: transaction [0] is the commit (no context),
    transaction [j + 1] reveals context [start + j]. *)
Definition chainMappings (chainIndex start count : nat) : list Mapping.t :=
  Mapping.mk chainIndex 0 None :: revealMappings chainIndex 1 start count.

Definition sumZ (l : list Z) : Z := fold_right Z.add 0%Z l.

(** An instance whose ledgers grew and that is otherwise the same. *)
Definition withLedger (t : Tool.t) (fee : Z) (mappings : list Mapping.t)
  (fees : list TxFee.t) : Tool.t :=
  Tool.mk (Tool.network t) (Tool.inscriptionTxCtxDataList t) (Tool.txChains t)
    (Tool.utxoMap t) (Tool.totalEstimatedFee t + fee)%Z
    (Tool.chainContextMapping t ++ mappings)
    (Tool.txFees t ++ fees).

(** ** The layout in closed form

    The planner as the specification words it: [chainCount n] chains,
    chain [k] built from funding output [k] over the
    [inscriptionsInChain n k] inscriptions that start at [24 * k]. *)

Definition chainCount (n : nat) : nat := (n + 23) / 24.

Definition inscriptionsInChain (n k : nat) : nat := Nat.min 24 (n - 24 * k).

Definition utxoCountInsufficient (utxoCount totalInscriptions : nat) : string :=
  ("链式铭刻错误：UTXO 数量 (" ++ show_nat utxoCount
   ++ ") 不足以处理所有铭文 (" ++ show_nat totalInscriptions
   ++ ")。请确保调用前已筛选足够价值的 UTXO。")%string.

Section Layout.
Variables (network : Network) (commitTxPrevOutputList : list PrevOutput.t)
  (revealOutValue : Z) (revealFeeRate : Q) (changeAddress : string)
  (minChangeValue : Z) (commitFeeRate : Q) (n : nat).

(** Chain [k]: it needs funding output [k]. *)
Definition assembleChain (k : nat) : M unit :=
  match nth_error commitTxPrevOutputList k with
  | None => throw (utxoCountInsufficient (length commitTxPrevOutputList) n)
  | Some utxo =>
      (contexts <- gets Tool.inscriptionTxCtxDataList ;;
       chains <- gets Tool.txChains ;;
       txChain <- buildSingleUtxoChain network utxo
                    (slice contexts (24 * k) (24 * k + inscriptionsInChain n k))
                    revealOutValue revealFeeRate changeAddress minChangeValue
                    commitFeeRate (24 * k) (length chains) ;;
       modify (fun t => Tool.set_txChains (Tool.txChains t ++ [txChain]) t))%M
  end.

(** Chains [k], [k + 1], ... ([count] of them), in this order. *)
Fixpoint assembleChains (k count : nat) : M unit :=
  match count with
  | O => ret tt
  | S count' => (assembleChain k ;;; assembleChains (S k) count')%M
  end.

Definition layoutSpec : M unit := assembleChains 0 (chainCount n).

(** The instance after chains [k], [k + 1], ... were assembled, each
    given with the fees of its transactions. *)
Fixpoint extendWith (t : Tool.t) (k : nat) (built : list (list Transaction * list Z))
  : Tool.t :=
  match built with
  | [] => t
  | (txChain, fees) :: built' =>
      extendWith
        (Tool.set_txChains (Tool.txChains t ++ [txChain])
           (withLedger t (sumZ fees)
              (chainMappings (length (Tool.txChains t)) (24 * k) (inscriptionsInChain n k))
              (feeEntries (length (Tool.txChains t)) 0 fees)))
        (S k) built'
  end.

(** Chain [k] of the layout is [txChain], with the fees [fees]. *)
Definition chainBuilt (contexts : list InscriptionTxCtxData.t) (k : nat)
  (txChain : list Transaction) (fees : list Z) : Prop :=
  exists utxo,
    nth_error commitTxPrevOutputList k = Some utxo
    /\ chainShape network
         (slice contexts (24 * k) (24 * k + inscriptionsInChain n k))
         revealOutValue changeAddress minChangeValue utxo txChain fees
    /\ length txChain = 1 + inscriptionsInChain n k
    /\ length fees = 1 + inscriptionsInChain n k.

Fixpoint chainsBuilt (contexts : list InscriptionTxCtxData.t) (k : nat)
  (built : list (list Transaction * list Z)) : Prop :=
  match built with
  | [] => True
  | (txChain, fees) :: built' =>
      chainBuilt contexts k txChain fees /\ chainsBuilt contexts (S k) built'
  end.

End Layout.

End Shapes.

(** * Properties of a built chain *)

Section ChainProperties.
Context {ext : Externals}.
Variables (network : Network) (inscriptions : list InscriptionTxCtxData.t)
  (revealOutValue : Z) (finalChangeAddress : string) (minChangeValue : Z).

(** An address and an output script that belong together. *)
Definition coherent (ctx : InscriptionTxCtxData.t) : Prop :=
  toOutputScript (InscriptionTxCtxData.commitTxAddress ctx) network
  = inr (InscriptionTxCtxData.commitTxAddressPkScript ctx).

(** Transaction [j >= 1] of a chain reveals inscription [j - 1]; it is
    the final reveal when [j = length inscriptions]. *)

(** Every retained change output is worth at least [minChangeValue], and
    only the final reveal can be without one. *)
Definition change_kept_or_final (chain : list Transaction) : Prop :=
  forall j tx,
    1 <= j -> nth_error chain j = Some tx ->
    (exists dust change,
        outs tx = [dust; change] /\ (minChangeValue <= Output.value change)%Z)
    \/ (j = length inscriptions /\ exists dust, outs tx = [dust]).

(** Every reveal has one input, which spends the change-bearing output
    of the transaction before it (output 0 of the commit, output 1 of a
    reveal), and its outputs are the dust for the recipient and then the
    change, sent to the next commit address or, at the end, to the final
    change address. *)
Definition reveals_linked (chain : list Transaction) : Prop :=
  forall j tx,
    1 <= j -> nth_error chain j = Some tx ->
    exists prev ctx,
      nth_error chain (j - 1) = Some prev
      /\ nth_error inscriptions (j - 1) = Some ctx
      /\ ins tx = [Input.mk (getHash prev) (if j =? 1 then 0 else 1) []
                     DEFAULT_SEQUENCE_NUM []]
      /\ (if j =? 1 then exists o, outs prev = [o]
          else exists dust change, outs prev = [dust; change])
      /\ ((exists changePkScript change,
             outs tx = [Output.mk (InscriptionTxCtxData.revealPkScript ctx) revealOutValue;
                        Output.mk changePkScript change]
             /\ (j < length inscriptions ->
                 exists next,
                   nth_error inscriptions j = Some next
                   /\ toOutputScript (InscriptionTxCtxData.commitTxAddress next) network
                      = inr changePkScript
                   /\ (coherent next ->
                       changePkScript = InscriptionTxCtxData.commitTxAddressPkScript next))
             /\ (j = length inscriptions ->
                 toOutputScript finalChangeAddress network = inr changePkScript))
          \/ (j = length inscriptions
              /\ outs tx = [Output.mk (InscriptionTxCtxData.revealPkScript ctx)
                              revealOutValue])).

(** The value a reveal spends: that of the output its input points to. *)
Definition inputValueOf (prev tx : Transaction) : option Z :=
  match ins tx with
  | input :: _ => option_map Output.value (nth_error (outs prev) (Input.index input))
  | [] => None
  end.

(** When the final reveal has no change output, what it spends covers
    the dust and the fee entered for it; whatever is left over goes to
    the miners too. *)
Definition dropped_change_covered (chain : list Transaction) (fees : list Z) : Prop :=
  forall last prev dust fee,
    nth_error chain (length inscriptions) = Some last ->
    nth_error chain (length inscriptions - 1) = Some prev ->
    outs last = [dust] ->
    nth_error fees (length inscriptions) = Some fee ->
    exists inputValue,
      inputValueOf prev last = Some inputValue
      /\ Output.value dust = revealOutValue
      /\ (revealOutValue + fee <= inputValue)%Z.

End ChainProperties.

(** A request with another reveal output value, or another minimum
    change. *)
Definition withRevealOutValue (v : Z) (r : InscriptionRequest.t) : InscriptionRequest.t :=
  InscriptionRequest.mk (InscriptionRequest.commitTxPrevOutputList r)
    (InscriptionRequest.commitFeeRate r) (InscriptionRequest.revealFeeRate r)
    (InscriptionRequest.inscriptionDataList r) v
    (InscriptionRequest.changeAddress r) (InscriptionRequest.minChangeValue r).

Definition withMinChangeValue (v : option Z) (r : InscriptionRequest.t)
  : InscriptionRequest.t :=
  InscriptionRequest.mk (InscriptionRequest.commitTxPrevOutputList r)
    (InscriptionRequest.commitFeeRate r) (InscriptionRequest.revealFeeRate r)
    (InscriptionRequest.inscriptionDataList r) (InscriptionRequest.revealOutValue r)
    (InscriptionRequest.changeAddress r) v.

(** * The phases of the factory *)

Section Phases.
Context {ext : Externals}.

(** What [newChainInscriptionTool] does before it builds: it checks the
    request, creates the contexts with the key of funding output 0 and
    fills the map of funding outputs. *)
Definition prepare (network : Network) (request : InscriptionRequest.t) : M unit :=
  (modify (Tool.set_network network) ;;;
   let utxos := InscriptionRequest.commitTxPrevOutputList request in
   match utxos with
   | [] => throw "输入错误：commitTxPrevOutputList 不能为空"
   | firstUtxo :: _ =>
     if length (InscriptionRequest.inscriptionDataList request) =? 0 then
       throw "输入错误：inscriptionDataList 不能为空"
     else
       checkPrivateKeys utxos 0 ;;;
       contexts <-
         lift (rmap (fun inscriptionData =>
                       createInscriptionTxCtxData network inscriptionData
                         (PrevOutput.privateKey firstUtxo))
                    (InscriptionRequest.inscriptionDataList request)) ;;
       modify (fun t =>
         Tool.set_inscriptionTxCtxDataList (Tool.inscriptionTxCtxDataList t ++ contexts) t) ;;;
       modify (fun t =>
         Tool.set_utxoMap
           (fold_left (fun m utxo => map_set (utxoKey utxo) (utxoInfo utxo) m) utxos
                      (Tool.utxoMap t)) t)
   end)%M.

(** The build phase with the values the request gives or defaults to. *)
Definition buildPhase (network : Network) (request : InscriptionRequest.t) : M unit :=
  buildEnhancedInscriptionChains network
    (InscriptionRequest.commitTxPrevOutputList request)
    (orDefault (InscriptionRequest.revealOutValue request) DEFAULT_REVEAL_OUT_VALUE)
    (InscriptionRequest.revealFeeRate request)
    (InscriptionRequest.changeAddress request)
    (orDefaultOpt (InscriptionRequest.minChangeValue request) DEFAULT_MIN_CHANGE_VALUE)
    (InscriptionRequest.commitFeeRate request).

Definition signPhase (request : InscriptionRequest.t) : M unit :=
  signAllTransactions (InscriptionRequest.commitTxPrevOutputList request).

(** The result [inscribeChain] returns from its [catch] block. *)
Definition failureResult (e : Error) : ChainInscribeResult.t :=
  ChainInscribeResult.mk false [] [] [] 0
    (Some (if String.eqb (message e) "" then "未知错误"%string else message e)).

End Phases.

(** * The envelope *)

(** The elements of the envelope of [contentType] and the body chunks
    [chunks], for the x-only key [internalPubKey]. *)
Definition envelope (internalPubKey : Buffer) (contentType : string) (chunks : list Buffer)
  : list StackElement :=
  [ Data internalPubKey;
    Op OPS.OP_CHECKSIG;
    Op OPS.OP_FALSE;
    Op OPS.OP_IF;
    Data (Buffer_.from "ord");
    Op OPS.OP_DATA_1;
    Op OPS.OP_DATA_1;
    Data (Buffer_.from contentType);
    Op OPS.OP_0 ]
  ++ map Data chunks
  ++ [ Op OPS.OP_ENDIF ].

(** A split of [body] in chunks of at most 520 bytes: none is empty and
    all but the last are full. *)
Fixpoint fullButLast (chunks : list Buffer) : Prop :=
  match chunks with
  | [] => True
  | [c] => 1 <= length c <= 520
  | c :: chunks' => length c = 520 /\ fullButLast chunks'
  end.

Definition splitsBody (body : Buffer) (chunks : list Buffer) : Prop :=
  concat chunks = body
  /\ Forall (fun c => 1 <= length c <= 520) chunks
  /\ fullButLast chunks.

(** The mappings the chains [k], [k + 1], ... of a layout add when the
    first of them gets the chain index [c]. *)
Fixpoint layoutMappings (n c k : nat) (built : list (list Transaction * list Z))
  : list Mapping.t :=
  match built with
  | [] => []
  | _ :: built' =>
      chainMappings c (24 * k) (inscriptionsInChain n k)
      ++ layoutMappings n (S c) (S k) built'
  end.

(** * Signed reveals *)

Section Signed.
Context {ext : Externals}.

(** The reveal [tx] with the witness the signer gives its input: the
    Schnorr signature, made with the key of the context over the
    script-path hash for the spent output [prevOut], in front of the
    witness of the context. *)
Definition revealSignature (ctx : InscriptionTxCtxData.t) (prevOut : Output.t)
  (tx : Transaction) (aux : Buffer) : Buffer :=
  schnorr_sign
    (hashForWitnessV1 tx 0 [Output.script prevOut] [Output.value prevOut] SIGHASH_DEFAULT
       (Some (InscriptionTxCtxData.hash ctx)))
    (InscriptionTxCtxData.privateKey ctx) aux.

Definition signedReveal (ctx : InscriptionTxCtxData.t) (prevOut : Output.t)
  (tx : Transaction) (aux : Buffer) : Transaction :=
  set_ins
    (update_nth 0
       (Input.set_witness
          (revealSignature ctx prevOut tx aux :: InscriptionTxCtxData.witness ctx))
       (ins tx))
    tx.

(** A signed reveal as the signer found it: input [0] without witness. *)
Definition beforeSigning (tx : Transaction) : Transaction :=
  set_ins (update_nth 0 (Input.set_witness []) (ins tx)) tx.

(** What the payments library gives for a tree of one leaf: the witness
    is the script of the leaf and a control block of 33 bytes (leaf
    version and parity, then the internal key; no path). *)
Definition single_leaf_witness : Prop :=
  forall internalPubkey scriptTree redeem network payment,
    p2tr internalPubkey scriptTree redeem network = inr payment ->
    exists controlBlock,
      Payment.witness payment = [fst redeem; controlBlock]
      /\ length controlBlock = 33.

(** Schnorr signatures have 64 bytes. *)
Definition schnorr_signatures_have_64_bytes : Prop :=
  forall hash key aux, length (schnorr_sign hash key aux) = 64.

(** The outputs the signer has in [prevTxOutputs] when it comes to
    transaction [i] of [txs]. *)
Definition prevOutputsAt (prevTxOutputs : list Output.t) (txs : list Transaction) (i : nat)
  : list Output.t :=
  match i with
  | O => prevTxOutputs
  | S i' => nth i' (map outs txs) []
  end.

End Signed.
(** ** A reference instance of the imported functions

    A small stand-in for the serialization and key libraries, used to run
    the model on concrete requests.  An address is the text of its output
    script; a virtual size counts 10 bytes of overhead, 41 per input, 43
    per output and a quarter of the witness bytes. *)
Module Reference.

Definition witnessBytes (tx : Transaction) : nat :=
  fold_right (fun i acc => fold_right (fun w a => 1 + length w + a) 0 (Input.witness i) + acc)
             0 (ins tx).

Definition vsizeOf (tx : Transaction) : Z :=
  Z.of_nat (10 + 41 * length (ins tx) + 43 * length (outs tx) + (witnessBytes tx + 3) / 4).

Definition pushData (b : Buffer) : Buffer :=
  match Byte.of_nat (length b) with
  | Some n => n :: b
  | None => Byte.x4d :: b
  end.

Definition compileElement (e : StackElement) : Buffer :=
  match e with
  | Op code =>
      match Byte.of_N (Z.to_N code) with
      | Some b => [b]
      | None => []
      end
  | Data b => pushData b
  end.

Definition addressTypeOf (address : string) : Result AddressType :=
  match address with
  | String "1" _ => ok legacy
  | String "3" _ => ok segwit_nested
  | String "q" _ => ok segwit_native
  | String "Q" _ => ok segwit_taproot
  | _ => fail (address ++ " has no matching Script")
  end.

Definition keyOf (wif : string) : Result string :=
  if String.eqb wif "" then fail "Invalid WIF" else ok wif.

Definition pad32 (b : Buffer) : Buffer := firstn 32 (b ++ repeat Byte.x11 32).

Definition taprootOutput (internalPubkey script : Buffer) : Buffer :=
  [Byte.x51; Byte.x20] ++ pad32 (rev script ++ internalPubkey).

#[local] Instance externals : Externals := {|
  fromHex := list_byte_of_string;
  toHex := string_of_list_byte;
  toString_hex := string_of_list_byte;
  reverseBuffer := @rev Byte.byte;
  randomBytes := fun k n => repeat Byte.x2a n;
  privateKeyFromWIF := fun wif _ => keyOf wif;
  private2public := fun hex => Byte.x02 :: pad32 (list_byte_of_string hex);
  wif2Public := fun wif _ =>
    match keyOf wif with
    | inl e => inl e
    | inr k => ok (Byte.x02 :: pad32 (list_byte_of_string k))
    end;
  private2Wif := fun key _ => string_of_list_byte key;
  getAddressType := fun address _ => addressTypeOf address;
  sign := fun hash key => firstn 70 (hash ++ repeat Byte.x30 70);
  schnorr_sign := fun hash key aux => firstn 64 (hash ++ key ++ aux ++ repeat Byte.x00 64);
  taprootTweakPrivKey := fun key => rev key;
  hash160 := fun b => firstn 20 (b ++ repeat Byte.x00 20);
  toOutputScript := fun address _ =>
    if String.eqb address "" then fail "has no matching Script"
    else ok (list_byte_of_string address);
  script_compile := fun l => concat (map compileElement l);
  signature_encode := fun s hashType => s ++ [Byte.x01];
  p2pkh_input := fun s pubkey => pushData s ++ pushData pubkey;
  p2tr := fun internalPubkey scriptTree redeem _ =>
    let output := taprootOutput internalPubkey scriptTree in
    ok (Payment.mk output [fst redeem; Byte.xc0 :: pad32 internalPubkey]
                   (pad32 (Byte.xc0 :: scriptTree))
                   (string_of_list_byte output));
  getHash := fun tx =>
    pad32 (concat (map Input.hash (ins tx)) ++ concat (map Output.script (outs tx)));
  getId := fun tx =>
    string_of_list_byte
      (rev (pad32 (concat (map Input.hash (ins tx)) ++ concat (map Output.script (outs tx)))));
  tx_toHex := fun tx =>
    string_of_list_byte
      (concat (map Input.hash (ins tx)) ++ concat (map Output.script (outs tx)));
  hashForSignature := fun tx i script hashType => pad32 script;
  hashForWitness := fun tx i script value hashType => pad32 script;
  hashForWitnessV1 := fun tx i scripts values hashType leafHash =>
    pad32 (match leafHash with Some h => h | None => [] end ++ concat scripts);
  countAdjustedVsize := fun tx _ _ => ok (vsizeOf tx)
|}.

Definition utxoOf (txId : string) (amount : Z) : PrevOutput.t :=
  PrevOutput.mk txId 0 amount "Qfunding"
    "cPnvkvUYyHcSSS26iD1dkrJdV7k1RoUqJLhn3CYxpo398PdLVE22" None.

Definition inscriptionOf (text : string) : InscriptionData.t :=
  InscriptionData.mk "text/plain;charset=utf-8" (BodyString text) "Qrecipient".

Definition requestOf (utxos : list PrevOutput.t) (n : nat) : InscriptionRequest.t :=
  InscriptionRequest.mk utxos 2 (5 # 2)
    (map (fun k => inscriptionOf ("mint " ++ show_nat k)) (seq 0 n))
    546 "Qchange" (Some 546%Z).

Definition key : string := "cPnvkvUYyHcSSS26iD1dkrJdV7k1RoUqJLhn3CYxpo398PdLVE22".

(** The contexts of the first [n] inscriptions of [requestOf]. *)
Definition contextsOf (n : nat) : list InscriptionTxCtxData.t :=
  match rmap (fun d => createInscriptionTxCtxData testnet d key)
             (map (fun k => inscriptionOf ("mint " ++ show_nat k)) (seq 0 n)) with
  | inr l => l
  | inl _ => []
  end.

Definition noContext : InscriptionTxCtxData.t :=
  InscriptionTxCtxData.mk [] [] "" [] [] [] (TxOut.mk [] 0) [].

(** Context [k] of [n]. *)
Definition contextAt (n k : nat) : InscriptionTxCtxData.t := nth k (contextsOf n) noContext.

(** A tool on the test network that holds these contexts and nothing
    else, before any random draw. *)
Definition worldOf (n : nat) : World :=
  mkWorld (Tool.set_inscriptionTxCtxDataList (contextsOf n)
             (Tool.set_network testnet Tool.new)) 0.

End Reference.
(** * Reasoning about runs *)

Section RunLemmas.
Context {ext : Externals}.

Lemma bind_ok {A B} (m : M A) (k : A -> M B) w r :
  bind m k w = inr r -> exists a w1, m w = inr (a, w1) /\ k a w1 = inr r.
Proof.
  unfold bind. destruct (m w) as [e | [a w1]]; [discriminate | eauto].
Qed.

Lemma bind_run {A B} (m : M A) (k : A -> M B) w a w1 :
  m w = inr (a, w1) -> bind m k w = k a w1.
Proof. intros H. unfold bind. rewrite H. reflexivity. Qed.

Lemma bind_fail {A B} (m : M A) (k : A -> M B) w e :
  m w = inl e -> bind m k w = inl e.
Proof. intros H. unfold bind. rewrite H. reflexivity. Qed.

Lemma bind_gets {A B} (f : Tool.t -> A) (k : A -> M B) w :
  bind (gets f) k w = k (f (this w)) w.
Proof. reflexivity. Qed.

Lemma bind_modify {B} f (k : unit -> M B) w :
  bind (modify f) k w = k tt (mkWorld (f (this w)) (draws w)).
Proof. reflexivity. Qed.

Lemma bind_bind {A B C} (m : M A) (k : A -> M B) (k' : B -> M C) w :
  bind (bind m k) k' w = bind m (fun a => bind (k a) k') w.
Proof. unfold bind. destruct (m w) as [e | [a w1]]; reflexivity. Qed.

Lemma bind_ext {A B} (m : M A) (k k' : A -> M B) w :
  (forall a w1, k a w1 = k' a w1) -> bind m k w = bind m k' w.
Proof. intros H. unfold bind. destruct (m w) as [e | [a w1]]; auto. Qed.

Lemma lift_ok {A} (r : Result A) w a w1 :
  lift r w = inr (a, w1) -> r = inr a /\ w1 = w.
Proof. unfold lift. destruct r; intros H; inversion H; auto. Qed.

Lemma lift_run {A} (r : Result A) w a : r = inr a -> lift r w = inr (a, w).
Proof. intros ->. reflexivity. Qed.

Lemma rethrow_ok {A} wrap (m : M A) w r :
  rethrow wrap m w = inr r -> m w = inr r.
Proof. unfold rethrow. destruct (m w); intros H; inversion H; auto. Qed.

Lemma rethrow_run {A} wrap (m : M A) w r :
  m w = inr r -> rethrow wrap m w = inr r.
Proof. unfold rethrow. intros ->. reflexivity. Qed.

Lemma throw_ok {A} msg w (r : A * World) : throw msg w = inr r -> False.
Proof. discriminate. Qed.

(** A run that leaves the instance alone (it may draw random bytes). *)
Definition pure_run {A} (m : M A) : Prop :=
  forall w a w1, m w = inr (a, w1) -> this w1 = this w.

Lemma pure_bind {A B} (m : M A) (k : A -> M B) :
  pure_run m -> (forall a, pure_run (k a)) -> pure_run (bind m k).
Proof.
  intros Hm Hk w b w2 H. apply bind_ok in H as (a & w1 & H1 & H2).
  rewrite (Hk _ _ _ _ H2). eauto.
Qed.

Lemma pure_ret {A} (a : A) : pure_run (ret a).
Proof. intros w b w1 H. inversion H. reflexivity. Qed.

Lemma pure_throw {A} msg : pure_run (@throw A msg).
Proof. intros w b w1 H. discriminate. Qed.

Lemma pure_lift {A} (r : Result A) : pure_run (lift r).
Proof. intros w b w1 H. apply lift_ok in H as [_ ->]. reflexivity. Qed.

Lemma pure_gets {A} (f : Tool.t -> A) : pure_run (gets f).
Proof. intros w b w1 H. inversion H. reflexivity. Qed.

Lemma pure_draw n : pure_run (draw n).
Proof. intros w b w1 H. inversion H. reflexivity. Qed.

Lemma pure_rethrow {A} wrap (m : M A) : pure_run m -> pure_run (rethrow wrap m).
Proof. intros Hm w b w1 H. apply rethrow_ok in H. eauto. Qed.

Lemma pure_signInput utxos network tx i : pure_run (signInput utxos network tx i).
Proof.
  unfold signInput. destruct (nth_error utxos i); [| apply pure_throw].
  apply pure_bind; [apply pure_lift | intros ty].
  apply pure_bind; [apply pure_lift | intros k].
  destruct ty.
  - apply pure_bind; [apply pure_lift | intros]. apply pure_ret.
  - apply pure_ret.
  - apply pure_ret.
  - apply pure_bind; [apply pure_lift | intros].
    apply pure_bind; [apply pure_draw | intros]. apply pure_ret.
Qed.

Lemma pure_signInputs utxos network n : forall i tx,
  pure_run (signInputs utxos network n i tx).
Proof.
  induction n as [| n IH]; intros i tx; simpl.
  - apply pure_ret.
  - apply pure_bind; [apply pure_signInput | intros; apply IH].
Qed.

Lemma pure_signTx tx utxos network : pure_run (signTx tx utxos network).
Proof. apply pure_signInputs. Qed.

Lemma pure_simulateSigning tx inputs isCommitTx ctx m1 m2 wrap :
  pure_run (simulateSigning tx inputs isCommitTx ctx m1 m2 wrap).
Proof.
  unfold simulateSigning. apply pure_rethrow. destruct isCommitTx.
  - apply pure_bind; [apply pure_gets | intros; apply pure_signTx].
  - destruct ctx; [| apply pure_throw].
    destruct (ins tx); [apply pure_throw | apply pure_ret].
Qed.

Lemma pure_adjustedVsize tx inputs wrap : pure_run (adjustedVsize tx inputs wrap).
Proof.
  unfold adjustedVsize. apply pure_rethrow.
  apply pure_bind; [apply pure_gets | intros; apply pure_lift].
Qed.

Lemma pure_estimateFeeAndOutput tx inputs feeRate total fixed minChange isCommitTx ctx :
  pure_run (estimateFeeAndOutput tx inputs feeRate total fixed minChange isCommitTx ctx).
Proof.
  unfold estimateFeeAndOutput.
  apply pure_bind; [apply pure_simulateSigning | intros tx1].
  apply pure_bind; [apply pure_adjustedVsize | intros vsize].
  destruct (_ && _); [| apply pure_ret].
  destruct (negb _); [| apply pure_ret].
  apply pure_bind.
  { destruct (_ <? _)%Z; [apply pure_ret | apply pure_throw]. }
  intros tx2.
  apply pure_bind; [apply pure_simulateSigning | intros tx3].
  apply pure_bind; [apply pure_adjustedVsize | intros vsize'].
  destruct (_ <=? _)%Z; apply pure_ret.
Qed.

End RunLemmas.

(** * The estimator *)

Section EstimatorLemmas.
Context {ext : Externals}.

Lemma adjustedVsize_run tx inputs wrap w vsize :
  countAdjustedVsize tx (map PrevOutput.address inputs) (Tool.network (this w)) = inr vsize ->
  adjustedVsize tx inputs wrap w = inr (vsize, w).
Proof.
  intros H. unfold adjustedVsize, rethrow, bind, gets, lift. rewrite H. reflexivity.
Qed.

Lemma adjustedVsize_ok tx inputs wrap w vsize w1 :
  adjustedVsize tx inputs wrap w = inr (vsize, w1) ->
  countAdjustedVsize tx (map PrevOutput.address inputs) (Tool.network (this w)) = inr vsize
  /\ w1 = w.
Proof.
  unfold adjustedVsize, rethrow, bind, gets, lift.
  destruct (countAdjustedVsize _ _ _); intros H; inversion H; auto.
Qed.


Lemma simulateSigning_reveal_run tx inputs ctx m1 m2 wrap w input0 rest :
  ins tx = input0 :: rest ->
  simulateSigning tx inputs false (Some ctx) m1 m2 wrap w
  = inr (withPlaceholderWitness ctx tx, w).
Proof.
  intros H. unfold simulateSigning, rethrow, withPlaceholderWitness. rewrite H. reflexivity.
Qed.

Lemma simulateSigning_reveal_ok tx inputs ctx m1 m2 wrap w tx1 w1 :
  simulateSigning tx inputs false ctx m1 m2 wrap w = inr (tx1, w1) ->
  exists c, ctx = Some c /\ tx1 = withPlaceholderWitness c tx /\ w1 = w /\ ins tx <> [].
Proof.
  unfold simulateSigning, rethrow, withPlaceholderWitness.
  destruct ctx as [c |]; [| discriminate].
  destruct (ins tx) eqn:E; [discriminate |].
  intros H. inversion H. exists c. repeat split. discriminate.
Qed.



(** A transaction with at most one output has no change slot either. *)
Lemma estimate_no_slot tx inputs feeRate total fixed minChange ctx w input0 rest vsize :
  ins tx = input0 :: rest ->
  length (outs tx) <= 1 ->
  countAdjustedVsize (withPlaceholderWitness ctx tx) (map PrevOutput.address inputs)
    (Tool.network (this w)) = inr vsize ->
  estimateFeeAndOutput tx inputs feeRate total fixed minChange false (Some ctx) w
  = inr (Estimate.mk (feeFor vsize feeRate) (Num (total - fixed - feeFor vsize feeRate)), w).
Proof.
  intros Hi Ho Hv. unfold estimateFeeAndOutput.
  erewrite bind_run by (eapply simulateSigning_reveal_run; eassumption).
  erewrite bind_run by (apply adjustedVsize_run; eassumption).
  replace (1 <? Z.of_nat (length (outs tx)))%Z with false
    by (symmetry; apply Z.ltb_ge; lia).
  reflexivity.
Qed.

Lemma has_slot {A} (a b : A) l : (1 <? Z.of_nat (length (a :: b :: l)))%Z = true.
Proof. apply Z.ltb_lt. cbn [length]. lia. Qed.

Section Reveal.
Variables (tx : Transaction) (inputs : list PrevOutput.t) (feeRate : Q)
  (total fixed minChange : Z) (ctx : InscriptionTxCtxData.t) (w : World).
Variables (input0 : Input.t) (rest : list Input.t).
Variables (dust change : Output.t) (more : list Output.t).
Hypothesis Hins : ins tx = input0 :: rest.
Hypothesis Houts : outs tx = dust :: change :: more.
Variable vsize : Z.
Hypothesis Hvsize :
  countAdjustedVsize (withPlaceholderWitness ctx tx) (map PrevOutput.address inputs)
    (Tool.network (this w)) = inr vsize.

Let fee := feeFor vsize feeRate.
Let changeAmount := (total - fixed - fee)%Z.
Let txWithoutChange := set_outs (dust :: more) tx.



End Reveal.

End EstimatorLemmas.

(** * What a successful estimate tells *)

Section EstimatorInversion.
Context {ext : Externals}.

Lemma estimate_commit_ok tx inputs feeRate total fixed minChange ctx w est w1 :
  estimateFeeAndOutput tx inputs feeRate total fixed minChange true ctx w = inr (est, w1) ->
  this w1 = this w
  /\ Estimate.changeAmount est = Num (total - fixed - Estimate.fee est).
Proof.
  intros H. split.
  - eapply pure_estimateFeeAndOutput; eassumption.
  - unfold estimateFeeAndOutput in H.
    apply bind_ok in H as (tx1 & w2 & _ & H).
    apply bind_ok in H as (vsize & w3 & _ & H).
    cbn in H. inversion H. reflexivity.
Qed.

Lemma estimate_single_ok tx inputs feeRate total fixed minChange ctx w est w1 dust :
  outs tx = [dust] ->
  estimateFeeAndOutput tx inputs feeRate total fixed minChange false ctx w = inr (est, w1) ->
  w1 = w
  /\ exists c vsize,
       ctx = Some c
       /\ countAdjustedVsize (withPlaceholderWitness c tx) (map PrevOutput.address inputs)
            (Tool.network (this w)) = inr vsize
       /\ Estimate.fee est = feeFor vsize feeRate.
Proof.
  intros Ho H. unfold estimateFeeAndOutput in H.
  apply bind_ok in H as (tx1 & w2 & Hs & H).
  apply simulateSigning_reveal_ok in Hs as (c & -> & -> & -> & _).
  apply bind_ok in H as (vsize & w3 & Hv & H).
  apply adjustedVsize_ok in Hv as [Hv ->].
  rewrite Ho in H. cbn in H. inversion H. subst. split; [reflexivity |].
  exists c, vsize. auto.
Qed.

Lemma estimate_reveal_ok tx inputs feeRate total fixed minChange ctx w est w1 dust change :
  outs tx = [dust; change] ->
  estimateFeeAndOutput tx inputs feeRate total fixed minChange false ctx w = inr (est, w1) ->
  w1 = w
  /\ ((exists c, Estimate.changeAmount est = Num c
                 /\ (minChange <= c)%Z
                 /\ c = (total - fixed - Estimate.fee est)%Z)
      \/ (Estimate.changeAmount est = CHANGE_DROPPED
          /\ (fixed + Estimate.fee est <= total)%Z
          /\ exists c vsize',
               ctx = Some c
               /\ countAdjustedVsize (withPlaceholderWitness c (set_outs [dust] tx))
                    (map PrevOutput.address inputs) (Tool.network (this w)) = inr vsize'
               /\ Estimate.fee est = feeFor vsize' feeRate)
      \/ Estimate.changeAmount est = INSUFFICIENT).
Proof.
  intros Ho H. unfold estimateFeeAndOutput in H.
  apply bind_ok in H as (tx1 & w2 & Hs & H).
  apply simulateSigning_reveal_ok in Hs as (c & -> & -> & -> & Hi).
  apply bind_ok in H as (vsize & w3 & Hv & H).
  apply adjustedVsize_ok in Hv as [Hv ->].
  rewrite Ho, has_slot in H.
  change (negb (1 =? -1)%Z && true) with true in H. cbn iota in H.
  destruct (Z.leb_spec minChange (total - fixed - feeFor vsize feeRate)) as [Hc | Hc];
    cbn [negb] in H.
  - inversion H. subst. split; [reflexivity |]. left. eexists. cbn. eauto.
  - apply bind_ok in H as (tx2 & w4 & H2 & H). inversion H2. subst tx2 w4.
    apply bind_ok in H as (tx3 & w5 & Hs' & H).
    apply simulateSigning_reveal_ok in Hs' as (c' & Hc' & -> & -> & _).
    inversion Hc'. subst c'.
    apply bind_ok in H as (vsize' & w6 & Hv' & H).
    apply adjustedVsize_ok in Hv' as [Hv' ->].
    destruct (Z.leb_spec (fixed + feeFor vsize' feeRate) total) as [Hf | Hf];
      inversion H; subst; (split; [reflexivity |]).
    + right. left. cbn. repeat split; auto. exists c, vsize'. auto.
    + right. right. reflexivity.
Qed.

End EstimatorInversion.

(** * The chain assembler *)

Section AssemblerLemmas.
Context {ext : Externals}.

Lemma recordTx_run chainIndex txIndex fee contextIndex w :
  recordTx chainIndex txIndex fee contextIndex w
  = inr (tt, mkWorld (recorded chainIndex txIndex fee contextIndex (this w)) (draws w)).
Proof. reflexivity. Qed.

Lemma recordTx_run_bind {B} chainIndex txIndex fee contextIndex (k : unit -> M B) w :
  bind (recordTx chainIndex txIndex fee contextIndex) k w
  = k tt (mkWorld (recorded chainIndex txIndex fee contextIndex (this w)) (draws w)).
Proof. reflexivity. Qed.

Ltac run_record Hb :=
  let Hr := fresh "Hr" in
  apply bind_ok in Hb as (? & ? & Hr & Hb);
  rewrite recordTx_run in Hr; inversion Hr; subst; clear Hr;
  inversion Hb; subst; clear Hb.

Ltac exists_built :=
  match goal with
  | |- context [LoopState.mk (_ ++ [?T]) ?T _ _] =>
      eexists _, T; split; [eassumption |]; split; [reflexivity |];
      split; [reflexivity |]; split; [reflexivity |]
  end.

Section Step.
Variables (network : Network) (utxo : PrevOutput.t)
  (inscriptions : list InscriptionTxCtxData.t)
  (revealOutValue : Z) (revealFeeRate : Q) (finalChangeAddress : string)
  (minChangeValue : Z)
  (inscriptionCtxStartIndex chainIndex : nat)
  (firstInscriptionCtx : InscriptionTxCtxData.t).

Local Notation "'step'" :=
  (revealStep network utxo inscriptions revealOutValue revealFeeRate finalChangeAddress
     minChangeValue inscriptionCtxStartIndex chainIndex firstInscriptionCtx).
Local Notation "'loop'" :=
  (revealLoop network utxo inscriptions revealOutValue revealFeeRate finalChangeAddress
     minChangeValue inscriptionCtxStartIndex chainIndex firstInscriptionCtx).

(** What a successful round of the reveal loop has done. *)
Lemma revealStep_ok i ctx txChain prevTx available prevOutputIndex w st w1 :
  step i ctx txChain prevTx available prevOutputIndex w = inr (st, w1) ->
  exists changePkScript fee tx,
    toOutputScript (changeAddressOf inscriptions finalChangeAddress i) network
    = inr changePkScript
    /\ w1 = mkWorld (recorded chainIndex (length txChain) fee
                       (Some (inscriptionCtxStartIndex + i)) (this w)) (draws w)
    /\ version tx = DEFAULT_TX_VERSION
    /\ ins tx = [Input.mk (getHash prevTx) prevOutputIndex [] DEFAULT_SEQUENCE_NUM []]
    /\ ((exists change,
           outs tx = [Output.mk (InscriptionTxCtxData.revealPkScript ctx) revealOutValue;
                      Output.mk changePkScript change]
           /\ (minChangeValue <= change)%Z
           /\ available = (revealOutValue + fee + change)%Z
           /\ st = LoopState.mk (txChain ++ [tx]) tx change (Some 1))
        \/ (i = length inscriptions - 1
            /\ outs tx = [Output.mk (InscriptionTxCtxData.revealPkScript ctx) revealOutValue]
            /\ ((0 <= minChangeValue)%Z -> (revealOutValue + fee <= available)%Z)
            /\ st = LoopState.mk (txChain ++ [tx]) tx 0 None)).
Proof.
  intros H. unfold revealStep in H. unfold changeAddressOf.
  set (addr := if i =? length inscriptions - 1 then _ else _) in *.
  destruct (String.eqb addr ""); [discriminate |].
  apply bind_ok in H as (changePk & w2 & Hl & H). apply lift_ok in Hl as [Hl ->].
  apply bind_ok in H as (est & w3 & He & H).
  assert (Hsingle : forall est' w', estimateFeeAndOutput
            (set_outs (pop (outs (addOutput changePk 0
               (addOutput (InscriptionTxCtxData.revealPkScript ctx) revealOutValue
                  (addInput (getHash prevTx) prevOutputIndex DEFAULT_SEQUENCE_NUM
                     (set_version DEFAULT_TX_VERSION newTransaction))))))
               (addOutput changePk 0
                  (addOutput (InscriptionTxCtxData.revealPkScript ctx) revealOutValue
                     (addInput (getHash prevTx) prevOutputIndex DEFAULT_SEQUENCE_NUM
                        (set_version DEFAULT_TX_VERSION newTransaction)))))
            [simulatedInput utxo firstInscriptionCtx available] revealFeeRate
            available revealOutValue 0 false (Some ctx) w = inr (est', w') ->
          w' = w /\ exists vsize,
            countAdjustedVsize
              (withPlaceholderWitness ctx
                 (set_outs [Output.mk (InscriptionTxCtxData.revealPkScript ctx) revealOutValue]
                    (addOutput changePk 0
                       (addOutput (InscriptionTxCtxData.revealPkScript ctx) revealOutValue
                          (addInput (getHash prevTx) prevOutputIndex DEFAULT_SEQUENCE_NUM
                             (set_version DEFAULT_TX_VERSION newTransaction))))))
              (map PrevOutput.address [simulatedInput utxo firstInscriptionCtx available])
              (Tool.network (this w)) = inr vsize
            /\ Estimate.fee est' = feeFor vsize revealFeeRate).
  { intros est' w' He'.
    eapply estimate_single_ok in He' as [-> (c & vsize & Hc & Hv & Hf)]; [| reflexivity].
    assert (c = ctx) by congruence. subst c. split; [reflexivity |]. exists vsize. auto. }
  eapply estimate_reveal_ok in He as [-> He]; [| reflexivity].
  apply bind_ok in H as ([tx v] & w4 & Hb & H). inversion H. subst st w1. clear H.
  exists changePk.
  destruct He as [(c & Hca & Hmin & Hc) | [(Hca & Hfee & c0 & vsize' & Hc0 & Hv' & Hf') | Hca]];
    rewrite Hca in *; cbn [CHANGE_DROPPED INSUFFICIENT] in *.
  - destruct (Z.eqb_spec c (-1)) as [Hm1 | Hne].
    + cbn iota in Hb.
      destruct (i =? length inscriptions - 1) eqn:Hlast; cbn [negb] in Hb; [| discriminate].
      apply bind_ok in Hb as (est' & w5 & He' & Hb).
      apply Hsingle in He' as [-> _].
      run_record Hb.
      exists_built. right. cbn [andb].
      apply Nat.eqb_eq in Hlast. repeat split; auto. intros. lia.
    + cbn iota in Hb.
      replace (minChangeValue <=? c)%Z with true in Hb by (symmetry; apply Z.leb_le; exact Hmin).
      run_record Hb.
      exists_built. left. rewrite andb_false_r. eexists.
      split; [reflexivity |]. split; [exact Hmin |]. split; [lia | reflexivity].
  - change (-1 =? -1)%Z with true in Hb. cbn iota in Hb.
    destruct (i =? length inscriptions - 1) eqn:Hlast; cbn [negb] in Hb; [| discriminate].
    apply bind_ok in Hb as (est' & w5 & He' & Hb).
    apply Hsingle in He' as [-> (vsize & Hv & Hf)].
    assert (c0 = ctx) by congruence. subst c0. cbn [map] in Hv, Hv'. rewrite Hv' in Hv. inversion Hv. subst vsize.
    run_record Hb.
    exists_built. right. cbn [andb].
    apply Nat.eqb_eq in Hlast. repeat split; auto. intros _. rewrite Hf, <- Hf'. exact Hfee.
  - discriminate.
Qed.

(** The two ways a round can go when the estimator answers
    [CHANGE_DROPPED]. *)
Section Dropped.
Variables (i : nat) (ctx : InscriptionTxCtxData.t) (txChain : list Transaction)
  (prevTx : Transaction) (available : Z) (prevOutputIndex : nat) (w w1 : World)
  (changePkScript : Buffer) (est : Estimate.t).
Hypothesis Haddress :
  String.eqb (changeAddressOf inscriptions finalChangeAddress i) "" = false.
Hypothesis Hscript :
  toOutputScript (changeAddressOf inscriptions finalChangeAddress i) network
  = inr changePkScript.
Hypothesis Hestimate :
  estimateFeeAndOutput
    (revealSkeleton prevTx prevOutputIndex (InscriptionTxCtxData.revealPkScript ctx)
       revealOutValue changePkScript)
    [simulatedInput utxo firstInscriptionCtx available] revealFeeRate available
    revealOutValue minChangeValue false (Some ctx) w = inr (est, w1).
Hypothesis Hdropped : Estimate.changeAmount est = CHANGE_DROPPED.

Lemma revealStep_dropped_nonfinal :
  i <> length inscriptions - 1 ->
  exists e, step i ctx txChain prevTx available prevOutputIndex w = inl e.
Proof.
  intros Hi. unfold revealStep. unfold changeAddressOf in *.
  replace (i =? length inscriptions - 1) with false in *
    by (symmetry; apply Nat.eqb_neq; exact Hi).
  rewrite Haddress.
  erewrite bind_run by (apply lift_run; exact Hscript).
  erewrite bind_run by exact Hestimate.
  rewrite Hdropped. unfold CHANGE_DROPPED.
  change (-1 =? -1)%Z with true. cbn [negb]. unfold bind, throw. eauto.
Qed.

Lemma revealStep_dropped_final est' w2 :
  i = length inscriptions - 1 ->
  let revealTx :=
    set_outs [Output.mk (InscriptionTxCtxData.revealPkScript ctx) revealOutValue]
      (revealSkeleton prevTx prevOutputIndex (InscriptionTxCtxData.revealPkScript ctx)
         revealOutValue changePkScript) in
  estimateFeeAndOutput revealTx [simulatedInput utxo firstInscriptionCtx available]
    revealFeeRate available revealOutValue 0 false (Some ctx) w1 = inr (est', w2) ->
  step i ctx txChain prevTx available prevOutputIndex w
  = inr (LoopState.mk (txChain ++ [revealTx]) revealTx 0 None,
         mkWorld (recorded chainIndex (length txChain) (Estimate.fee est')
                    (Some (inscriptionCtxStartIndex + i)) (this w2))
                 (draws w2)).
Proof.
  intros Hi revealTx Hest'. unfold revealStep. unfold changeAddressOf in *.
  replace (i =? length inscriptions - 1) with true in *
    by (symmetry; apply Nat.eqb_eq; exact Hi).
  rewrite Haddress.
  erewrite bind_run by (apply lift_run; exact Hscript).
  erewrite bind_run by exact Hestimate.
  rewrite Hdropped. unfold CHANGE_DROPPED.
  change (-1 =? -1)%Z with true. cbn [negb andb].
  erewrite bind_run.
  2:{ erewrite bind_run by exact Hest'. rewrite recordTx_run_bind. reflexivity. }
  reflexivity.
Qed.

End Dropped.

Lemma skipn_cons_inv {A} (l : list A) : forall i x r,
  skipn i l = x :: r -> nth_error l i = Some x /\ skipn (S i) l = r /\ i < length l.
Proof.
  induction l as [| a l IH]; intros i x r H.
  - destruct i; discriminate.
  - destruct i as [| i].
    + cbn in H. inversion H. subst. cbn. repeat split. lia.
    + cbn [skipn] in H. apply IH in H as (H1 & H2 & H3). cbn [nth_error length].
      repeat split; auto. lia.
Qed.

Lemma recorded_withLedger c i f x t :
  recorded c i f x t = withLedger t f [Mapping.mk c i x] [TxFee.mk c i f].
Proof. reflexivity. Qed.

Lemma withLedger_withLedger t a m f b m' f' :
  withLedger (withLedger t a m f) b m' f' = withLedger t (a + b) (m ++ m') (f ++ f').
Proof.
  unfold withLedger. cbn. rewrite <- !app_assoc, Z.add_assoc. reflexivity.
Qed.

(** What a successful run of the reveal loop has built. *)
Lemma revealLoop_ok : forall pending i txChain prevTx available prevOutputIndex w chain w1,
  skipn i inscriptions = pending ->
  loop pending i txChain prevTx available prevOutputIndex w = inr (chain, w1) ->
  exists reveals fees,
    chain = txChain ++ reveals
    /\ length reveals = length pending
    /\ length fees = length pending
    /\ revealsShape network inscriptions revealOutValue finalChangeAddress minChangeValue
         i prevTx prevOutputIndex available reveals fees
    /\ w1 = mkWorld
              (withLedger (this w) (sumZ fees)
                 (revealMappings chainIndex (length txChain) (inscriptionCtxStartIndex + i)
                    (length pending))
                 (feeEntries chainIndex (length txChain) fees))
              (draws w).
Proof.
  induction pending as [| ctx pending' IH];
    intros i txChain prevTx available prevOutputIndex w chain w1 Hsk H.
  - cbn in H. inversion H. subst. exists [], []. cbn [length revealsShape].
    rewrite app_nil_r.
    split; [reflexivity |]. split; [reflexivity |]. split; [reflexivity |].
    split; [exact I |].
    unfold withLedger. cbn [sumZ fold_right revealMappings feeEntries].
    rewrite !app_nil_r, Z.add_0_r. destruct w1 as [[] ?]. reflexivity.
  - cbn [revealLoop] in H. apply bind_ok in H as (st & w2 & Hst & H).
    apply skipn_cons_inv in Hsk as (Hnth & Hsk' & Hlt).
    apply revealStep_ok in Hst
      as (changePk & fee & tx & Hpk & -> & Hver & Hins & [(c & Ho & Hmin & Hav & ->) | (Hi & Ho & Hav & ->)]).
    + cbn [LoopState.prevOutputIndex LoopState.txChain LoopState.prevTx
           LoopState.prevOutputValue] in H.
      eapply IH in H as (reveals & fees & -> & Hlen & Hlenf & Hsh & ->); [| exact Hsk'].
      exists (tx :: reveals), (fee :: fees). cbn [length].
      rewrite <- app_assoc. cbn [app].
      split; [reflexivity |]. split; [lia |]. split; [lia |]. split.
      * cbn [revealsShape]. split.
        -- exists ctx, changePk.
           split; [exact Hnth |]. split; [exact Hpk |]. split; [exact Hver |].
           split; [exact Hins |]. left. exists c. auto.
        -- unfold changeValueOf. rewrite Ho. cbn [Output.value]. exact Hsh.
      * cbn [this draws]. rewrite recorded_withLedger, withLedger_withLedger.
        rewrite length_app. cbn [length sumZ fold_right revealMappings feeEntries app].
        replace (length txChain + 1) with (S (length txChain)) by lia.
        replace (inscriptionCtxStartIndex + S i) with (S (inscriptionCtxStartIndex + i)) by lia.
        reflexivity.
    + cbn [LoopState.prevOutputIndex LoopState.txChain] in H. inversion H. subst chain w1.
      assert (pending' = []) as ->.
      { rewrite <- Hsk'. apply skipn_all2. lia. }
      exists [tx], [fee]. cbn [length].
      split; [reflexivity |]. split; [reflexivity |]. split; [reflexivity |]. split.
      * cbn [revealsShape]. split; [| exact I].
        exists ctx, changePk.
        split; [exact Hnth |]. split; [exact Hpk |]. split; [exact Hver |].
        split; [exact Hins |]. right. auto.
      * cbn [this draws]. rewrite recorded_withLedger.
        cbn [sumZ fold_right revealMappings feeEntries]. rewrite Z.add_0_r. reflexivity.
Qed.

End Step.

(** What a successful assembly of a chain has built. *)
Lemma buildSingleUtxoChain_ok network utxo inscriptions revealOutValue revealFeeRate
  finalChangeAddress minChangeValue commitFeeRate inscriptionCtxStartIndex chainIndex
  w chain w1 :
  inscriptions <> [] ->
  buildSingleUtxoChain network utxo inscriptions revealOutValue revealFeeRate
    finalChangeAddress minChangeValue commitFeeRate inscriptionCtxStartIndex chainIndex w
  = inr (chain, w1) ->
  exists fees,
    chainShape network inscriptions revealOutValue finalChangeAddress minChangeValue
      utxo chain fees
    /\ length fees = S (length inscriptions)
    /\ this w1 = withLedger (this w) (sumZ fees)
                   (chainMappings chainIndex inscriptionCtxStartIndex (length inscriptions))
                   (feeEntries chainIndex 0 fees).
Proof.
  intros Hne H. destruct inscriptions as [| first rest]; [congruence |].
  unfold buildSingleUtxoChain in H.
  apply bind_ok in H as (est & w2 & He & H).
  apply estimate_commit_ok in He as [Hw2 Hca]. rewrite Hca in H.
  destruct (Z.ltb_spec (PrevOutput.amount utxo - 0 - Estimate.fee est) 0) as [Hneg | Hpos];
    [discriminate |].
  apply bind_ok in H as ([] & w3 & Hr & H). rewrite recordTx_run in Hr.
  inversion Hr. subst w3. clear Hr.
  apply revealLoop_ok in H as (reveals & fees & -> & Hlen & Hlenf & Hsh & ->); [| reflexivity].
  exists (Estimate.fee est :: fees). split; [| split].
  - exists first, (PrevOutput.amount utxo - 0 - Estimate.fee est)%Z, reveals,
      (Estimate.fee est), fees.
    split; [reflexivity |]. split; [reflexivity |]. split; [reflexivity |].
    split; [exact Hpos |]. split; [lia |]. split; [exact Hlen |]. exact Hsh.
  - cbn [length] in *. lia.
  - cbn [this draws]. rewrite Hw2, recorded_withLedger, withLedger_withLedger.
    cbn [length app Nat.add]. rewrite Nat.add_0_r. reflexivity.
Qed.

Lemma chainShape_length network inscriptions revealOutValue finalChangeAddress
  minChangeValue utxo chain fees :
  chainShape network inscriptions revealOutValue finalChangeAddress minChangeValue
    utxo chain fees ->
  length chain = 1 + length inscriptions.
Proof.
  intros (first & v & reveals & cf & rf & _ & -> & _ & _ & _ & Hlen & _).
  cbn [length]. lia.
Qed.

End AssemblerLemmas.

(** * The planner *)

Section PlannerLemmas.
Context {ext : Externals}.

Lemma chainCount_spec n : 24 * chainCount n < n + 24 /\ n <= 24 * chainCount n.
Proof.
  unfold chainCount.
  pose proof (Nat.div_mod_eq (n + 23) 24) as H.
  pose proof (Nat.mod_upper_bound (n + 23) 24 ltac:(lia)) as H'.
  lia.
Qed.

Lemma chainCount_lt n k : k < chainCount n <-> 24 * k < n.
Proof. pose proof (chainCount_spec n). split; intros; nia. Qed.

Lemma length_slice {A} (l : list A) i j :
  length (slice l i j) = Nat.min (j - i) (length l - i).
Proof. unfold slice. rewrite length_firstn, length_skipn. reflexivity. Qed.

Section Loop.
Variables (network : Network) (commitTxPrevOutputList : list PrevOutput.t)
  (revealOutValue : Z) (revealFeeRate : Q) (changeAddress : string)
  (minChangeValue : Z) (commitFeeRate : Q) (n : nat).

Local Notation "'loop'" :=
  (chainLoop network commitTxPrevOutputList revealOutValue revealFeeRate changeAddress
     minChangeValue commitFeeRate n).
Local Notation "'chains'" :=
  (assembleChains network commitTxPrevOutputList revealOutValue revealFeeRate changeAddress
     minChangeValue commitFeeRate n).
Local Notation "'chain'" :=
  (assembleChain network commitTxPrevOutputList revealOutValue revealFeeRate changeAddress
     minChangeValue commitFeeRate n).

(** What assembling chain [k] does when it succeeds. *)
Lemma assembleChain_ok k w u w1 :
  length (Tool.inscriptionTxCtxDataList (this w)) = n ->
  24 * k < n ->
  chain k w = inr (u, w1) ->
  exists utxo txChain fees,
    nth_error commitTxPrevOutputList k = Some utxo
    /\ chainShape network
         (slice (Tool.inscriptionTxCtxDataList (this w)) (24 * k)
                (24 * k + inscriptionsInChain n k))
         revealOutValue changeAddress minChangeValue utxo txChain fees
    /\ length txChain = 1 + inscriptionsInChain n k
    /\ length fees = 1 + inscriptionsInChain n k
    /\ this w1 =
       Tool.set_txChains (Tool.txChains (this w) ++ [txChain])
         (withLedger (this w) (sumZ fees)
            (chainMappings (length (Tool.txChains (this w))) (24 * k)
               (inscriptionsInChain n k))
            (feeEntries (length (Tool.txChains (this w))) 0 fees)).
Proof.
  intros Hn Hk H. unfold assembleChain in H.
  destruct (nth_error commitTxPrevOutputList k) as [utxo |]; [| discriminate].
  apply bind_ok in H as (contexts & w2 & Hg & H). inversion Hg. subst contexts w2. clear Hg.
  apply bind_ok in H as (cs & w2 & Hg & H). inversion Hg. subst cs w2. clear Hg.
  apply bind_ok in H as (txChain & w2 & Hb & H).
  assert (Hlen : length (slice (Tool.inscriptionTxCtxDataList (this w)) (24 * k)
                          (24 * k + inscriptionsInChain n k)) = inscriptionsInChain n k).
  { rewrite length_slice, Hn. unfold inscriptionsInChain. lia. }
  apply buildSingleUtxoChain_ok in Hb as (fees & Hsh & Hlf & Hw).
  2:{ intros E. rewrite E in Hlen. cbn [length] in Hlen. unfold inscriptionsInChain in Hlen. lia. }
  inversion H. subst u w1. clear H.
  exists utxo, txChain, fees. split; [reflexivity |]. split; [exact Hsh |].
  split; [rewrite (chainShape_length Hsh), Hlen; reflexivity |].
  split; [rewrite Hlf, Hlen; reflexivity |].
  cbn [this]. rewrite Hw, Hlen. reflexivity.
Qed.

(** The loop with its two cursors is the layout in closed form. *)
Lemma chainLoop_layout : forall count k pending w,
  length (Tool.inscriptionTxCtxDataList (this w)) = n ->
  skipn k commitTxPrevOutputList = pending ->
  k + count = chainCount n ->
  loop pending (Nat.min (24 * k) n) k w = chains k count w.
Proof.
  induction count as [| count IH]; intros k pending w Hn Hsk Hk.
  - assert (Hge : n <= 24 * k) by (pose proof (chainCount_spec n); lia).
    destruct pending; cbn [chainLoop assembleChains];
      replace (Nat.min (24 * k) n <? n) with false
        by (symmetry; apply Nat.ltb_ge; lia); reflexivity.
  - assert (Hlt : 24 * k < n) by (apply chainCount_lt; lia).
    replace (Nat.min (24 * k) n) with (24 * k) by lia.
    cbn [assembleChains]. unfold assembleChain.
    destruct pending as [| utxo pending'].
    + cbn [chainLoop]. replace (24 * k <? n) with true by (symmetry; apply Nat.ltb_lt; lia).
      assert (Hnone : nth_error commitTxPrevOutputList k = None).
      { apply nth_error_None. rewrite <- (firstn_skipn k commitTxPrevOutputList), Hsk,
          app_nil_r, length_firstn at 1. lia. }
      rewrite Hnone. reflexivity.
    + apply skipn_cons_inv in Hsk as (Hnth & Hsk' & _). rewrite Hnth.
      cbn [chainLoop]. replace (24 * k <? n) with true by (symmetry; apply Nat.ltb_lt; lia).
      rewrite bind_bind, !bind_gets.
      replace (Nat.min (n - 24 * k) maxInscriptionsPerChain) with (inscriptionsInChain n k)
        by (unfold inscriptionsInChain, maxInscriptionsPerChain, MAX_TRANSACTIONS_PER_CHAIN; lia).
      assert (Hlen : length (slice (Tool.inscriptionTxCtxDataList (this w)) (24 * k)
                              (24 * k + inscriptionsInChain n k)) = inscriptionsInChain n k).
      { rewrite length_slice, Hn. unfold inscriptionsInChain. lia. }
      rewrite Hlen, Nat.eqb_refl.
      replace (inscriptionsInChain n k =? 0) with false
        by (symmetry; apply Nat.eqb_neq; unfold inscriptionsInChain; lia).
      cbn [orb negb]. rewrite bind_bind, !bind_gets, bind_bind.
      unfold bind at 1 3.
      destruct (buildSingleUtxoChain network utxo _ revealOutValue revealFeeRate changeAddress
                  minChangeValue commitFeeRate (24 * k) (length (Tool.txChains (this w))) w)
        as [e | [txChain w2]] eqn:Hb; [reflexivity |].
      apply buildSingleUtxoChain_ok in Hb as (fees & Hsh & Hlf & Hw).
      2:{ intros E. rewrite E in Hlen. cbn [length] in Hlen.
          unfold inscriptionsInChain in Hlen. lia. }
      rewrite (chainShape_length Hsh), Hlen. cbn [Nat.add Nat.ltb Nat.leb].
      rewrite !bind_modify.
      replace (24 * k + inscriptionsInChain n k) with (Nat.min (24 * S k) n)
        by (unfold inscriptionsInChain; lia).
      apply IH; [| exact Hsk' | lia].
      cbn [this]. rewrite Hw. exact Hn.
Qed.

Local Notation "'extend'" := (extendWith n).
Local Notation "'built_ok'" :=
  (chainsBuilt network commitTxPrevOutputList revealOutValue changeAddress minChangeValue n).

Lemma extendWith_contexts : forall built t k,
  Tool.inscriptionTxCtxDataList (extend t k built) = Tool.inscriptionTxCtxDataList t
  /\ Tool.network (extend t k built) = Tool.network t
  /\ Tool.utxoMap (extend t k built) = Tool.utxoMap t
  /\ Tool.txChains (extend t k built) = Tool.txChains t ++ map fst built.
Proof.
  induction built as [| [txChain fees] built IH]; intros t k; cbn [extendWith map fst].
  - rewrite app_nil_r. auto.
  - destruct (IH (Tool.set_txChains (Tool.txChains t ++ [txChain])
                    (withLedger t (sumZ fees)
                       (chainMappings (length (Tool.txChains t)) (24 * k)
                          (inscriptionsInChain n k))
                       (feeEntries (length (Tool.txChains t)) 0 fees))) (S k))
      as (H1 & H2 & H3 & H4).
    rewrite H1, H2, H3, H4. cbn. rewrite <- app_assoc. auto.
Qed.

(** What a successful run of the layout has built. *)
Lemma assembleChains_ok : forall count k w u w1,
  length (Tool.inscriptionTxCtxDataList (this w)) = n ->
  k + count <= chainCount n ->
  chains k count w = inr (u, w1) ->
  exists built,
    length built = count
    /\ built_ok (Tool.inscriptionTxCtxDataList (this w)) k built
    /\ this w1 = extend (this w) k built.
Proof.
  induction count as [| count IH]; intros k w u w1 Hn Hk H.
  - cbn in H. inversion H. subst. exists []. cbn. auto.
  - cbn [assembleChains] in H. apply bind_ok in H as ([] & w2 & Hc & H).
    assert (Hlt : 24 * k < n) by (apply chainCount_lt; lia).
    pose proof Hc as Hc'.
    apply assembleChain_ok in Hc as (utxo & txChain & fees & Hu & Hsh & Hl & Hlf & Hw);
      [| exact Hn | exact Hlt].
    assert (Hctx : Tool.inscriptionTxCtxDataList (this w2)
                   = Tool.inscriptionTxCtxDataList (this w)) by (rewrite Hw; reflexivity).
    apply IH in H as (built & Hlen & Hb & Hw1); [| rewrite Hctx; exact Hn | lia].
    exists ((txChain, fees) :: built). cbn [length chainsBuilt extendWith].
    split; [lia |]. split.
    + split; [| rewrite <- Hctx; exact Hb].
      exists utxo. auto.
    + rewrite Hw1, Hw. reflexivity.
Qed.

(** The layout fails when it runs out of funding outputs. *)
Lemma assembleChains_short : forall count k w,
  length commitTxPrevOutputList <= k -> 0 < count ->
  chains k count w
  = inl (mkError (utxoCountInsufficient (length commitTxPrevOutputList) n)).
Proof.
  intros [| count] k w Hk Hc; [lia |].
  cbn [assembleChains]. apply bind_fail. unfold assembleChain.
  replace (nth_error commitTxPrevOutputList k) with (@None PrevOutput.t)
    by (symmetry; apply nth_error_None; exact Hk).
  reflexivity.
Qed.

Lemma assembleChains_app : forall a k b w,
  chains k (a + b) w = bind (chains k a) (fun _ => chains (a + k) b) w.
Proof.
  induction a as [| a IH]; intros k b w.
  - reflexivity.
  - cbn [Nat.add assembleChains]. rewrite bind_bind.
    apply bind_ext. intros [] w2.
    rewrite IH. replace (a + S k) with (S (a + k)) by lia. reflexivity.
Qed.

End Loop.

(** The planner is the layout in closed form, whenever there is
    something to plan and something to fund it with. *)
Lemma buildEnhancedInscriptionChains_layout network commitTxPrevOutputList
  revealOutValue revealFeeRate changeAddress minChangeValue commitFeeRate w :
  1 <= length (Tool.inscriptionTxCtxDataList (this w)) ->
  1 <= length commitTxPrevOutputList ->
  buildEnhancedInscriptionChains network commitTxPrevOutputList revealOutValue
    revealFeeRate changeAddress minChangeValue commitFeeRate w
  = layoutSpec network commitTxPrevOutputList revealOutValue revealFeeRate changeAddress
      minChangeValue commitFeeRate (length (Tool.inscriptionTxCtxDataList (this w))) w.
Proof.
  intros Hn Hm. unfold buildEnhancedInscriptionChains. rewrite bind_gets.
  replace (length commitTxPrevOutputList =? 0) with false
    by (symmetry; apply Nat.eqb_neq; lia).
  replace (length (Tool.inscriptionTxCtxDataList (this w)) =? 0) with false
    by (symmetry; apply Nat.eqb_neq; lia).
  unfold layoutSpec.
  exact (@chainLoop_layout network commitTxPrevOutputList revealOutValue revealFeeRate
           changeAddress minChangeValue commitFeeRate
           (length (Tool.inscriptionTxCtxDataList (this w)))
           (chainCount (length (Tool.inscriptionTxCtxDataList (this w))))
           0 commitTxPrevOutputList w eq_refl eq_refl eq_refl).
Qed.


Lemma chainsBuilt_nth network utxos revealOutValue changeAddress minChangeValue n contexts :
  forall built k j,
    chainsBuilt network utxos revealOutValue changeAddress minChangeValue n contexts k built ->
    j < length built ->
    exists txChain fees,
      nth_error built j = Some (txChain, fees)
      /\ chainBuilt network utxos revealOutValue changeAddress minChangeValue n contexts
           (k + j) txChain fees.
Proof.
  induction built as [| [txChain fees] built IH]; intros k j Hb Hj; [cbn in Hj; lia |].
  destruct Hb as [H1 H2]. destruct j as [| j].
  - exists txChain, fees. rewrite Nat.add_0_r. auto.
  - cbn [length] in Hj. destruct (IH (S k) j H2 ltac:(lia)) as (c & f & Hn & Hc).
    exists c, f. replace (k + S j) with (S k + j) by lia. auto.
Qed.

(** What a successful run of the planner has built. *)
Lemma buildEnhancedInscriptionChains_ok network commitTxPrevOutputList
  revealOutValue revealFeeRate changeAddress minChangeValue commitFeeRate w u w1 :
  1 <= length (Tool.inscriptionTxCtxDataList (this w)) ->
  1 <= length commitTxPrevOutputList ->
  buildEnhancedInscriptionChains network commitTxPrevOutputList revealOutValue
    revealFeeRate changeAddress minChangeValue commitFeeRate w = inr (u, w1) ->
  exists built,
    length built = chainCount (length (Tool.inscriptionTxCtxDataList (this w)))
    /\ length built <= length commitTxPrevOutputList
    /\ chainsBuilt network commitTxPrevOutputList revealOutValue changeAddress
         minChangeValue (length (Tool.inscriptionTxCtxDataList (this w)))
         (Tool.inscriptionTxCtxDataList (this w)) 0 built
    /\ this w1
       = extendWith (length (Tool.inscriptionTxCtxDataList (this w))) (this w) 0 built.
Proof.
  intros Hn Hm H. rewrite buildEnhancedInscriptionChains_layout in H by assumption.
  unfold layoutSpec in H.
  apply assembleChains_ok in H as (built & Hlen & Hb & Hw1); [| reflexivity | lia].
  exists built. split; [exact Hlen |]. split; [| split; [exact Hb | exact Hw1]].
  destruct built as [| b built]; [cbn; lia |].
  destruct (@chainsBuilt_nth _ _ _ _ _ _ _ (b :: built) 0 (length built) Hb
              ltac:(cbn; lia)) as (c & f & _ & (utxo & Hu & _)).
  assert (0 + length built < length commitTxPrevOutputList)
    by (apply nth_error_Some; congruence).
  cbn [length]. lia.
Qed.

End PlannerLemmas.

(** * From the shape of a chain to its properties *)

Section ChainPropertyLemmas.
Context {ext : Externals}.
Variables (network : Network) (inscriptions : list InscriptionTxCtxData.t)
  (revealOutValue : Z) (finalChangeAddress : string) (minChangeValue : Z).

Local Notation "'shape'" :=
  (revealShape network inscriptions revealOutValue finalChangeAddress minChangeValue).
Local Notation "'shapes'" :=
  (revealsShape network inscriptions revealOutValue finalChangeAddress minChangeValue).

(** Reveal [j] of a run of reveals, with what it spends. *)
Lemma revealsShape_nth : forall txs fees i prev idx available,
  shapes i prev idx available txs fees ->
  forall j tx,
    nth_error txs j = Some tx ->
    exists fee prev' idx' available',
      nth_error fees j = Some fee
      /\ shape (i + j) prev' idx' available' tx fee
      /\ ((j = 0 /\ prev' = prev /\ idx' = idx /\ available' = available)
          \/ (exists j', j = S j' /\ nth_error txs j' = Some prev' /\ idx' = 1
                         /\ available' = changeValueOf prev')).
Proof.
  induction txs as [| tx0 txs IH]; intros fees i prev idx available H j tx Hj.
  - destruct j; discriminate.
  - destruct fees as [| fee0 fees]; [contradiction |]. destruct H as [H0 H].
    destruct j as [| j].
    + cbn in Hj. inversion Hj. subst tx0. exists fee0, prev, idx, available.
      rewrite Nat.add_0_r. split; [reflexivity |]. split; [exact H0 |]. left. auto.
    + cbn [nth_error] in Hj.
      destruct (IH fees (S i) tx0 1 (changeValueOf tx0) H j tx Hj)
        as (fee & prev' & idx' & av' & Hf & Hs & Hp).
      exists fee, prev', idx', av'. split; [exact Hf |].
      split; [replace (i + S j) with (S i + j) by lia; exact Hs |].
      right. exists j. split; [reflexivity |].
      destruct Hp as [(-> & -> & -> & ->) | (j' & -> & Hn & -> & ->)]; cbn [nth_error]; auto.
Qed.

Lemma shape_last_or_kept i prev idx available tx fee :
  shape i prev idx available tx fee ->
  i < length inscriptions
  /\ (S i < length inscriptions ->
      exists dust change, outs tx = [dust; change]
                          /\ (minChangeValue <= Output.value change)%Z).
Proof.
  intros (ctx & pk & Hn & _ & _ & _ & [(c & Ho & Hm & _) | (Hi & _)]).
  - split; [apply nth_error_Some; congruence |]. intros _. eauto.
  - assert (i < length inscriptions) by (apply nth_error_Some; congruence).
    split; [assumption | lia].
Qed.

Section OneChain.
Variables (utxo : PrevOutput.t) (chain : list Transaction) (fees : list Z).
Hypothesis Hshape :
  chainShape network inscriptions revealOutValue finalChangeAddress minChangeValue
    utxo chain fees.

Lemma chainShape_change_kept_or_final :
  change_kept_or_final inscriptions minChangeValue chain.
Proof.
  destruct Hshape as (first & v & reveals & cf & rf & _ & -> & _ & _ & _ & Hlen & Hs).
  intros j tx Hj Hn. destruct j as [| j]; [lia |]. cbn [nth_error] in Hn.
  destruct (revealsShape_nth _ _ _ _ _ _ Hs j Hn) as (fee & prev' & idx' & av' & _ & Hsh & _).
  cbn [Nat.add] in Hsh.
  destruct Hsh as (ctx & pk & Hc & _ & _ & _ & [(c & Ho & Hm & _) | (Hi & Ho & _)]).
  - left. eexists _, _. split; [exact Ho | exact Hm].
  - right. assert (j < length inscriptions) by (apply nth_error_Some; congruence).
    split; [lia | eauto].
Qed.

Lemma chainShape_reveals_linked :
  reveals_linked network inscriptions revealOutValue finalChangeAddress chain.
Proof.
  destruct Hshape as (first & v & reveals & cf & rf & _ & -> & _ & _ & _ & Hlen & Hs).
  intros j tx Hj Hn. destruct j as [| j]; [lia |]. cbn [nth_error] in Hn.
  destruct (revealsShape_nth _ _ _ _ _ _ Hs j Hn) as (fee & prev' & idx' & av' & _ & Hsh & Hp).
  cbn [Nat.add] in Hsh.
  pose proof (shape_last_or_kept Hsh) as [Hlt _].
  destruct Hsh as (ctx & pk & Hc & Hpk & _ & Hins & Houts).
  exists prev', ctx.
  replace (S j - 1) with j by lia.
  assert (Hprev : nth_error
                    (commitOf utxo (InscriptionTxCtxData.commitTxAddressPkScript first) v
                     :: reveals) j = Some prev'
                  /\ idx' = (if S j =? 1 then 0 else 1)
                  /\ (if S j =? 1 then exists o, outs prev' = [o]
                      else exists dust change, outs prev' = [dust; change])).
  { destruct Hp as [(-> & -> & -> & _) | (j' & -> & Hn' & -> & _)].
    - cbn. split; [reflexivity |]. split; [reflexivity |]. eauto.
    - cbn [nth_error]. split; [exact Hn' |]. split; [reflexivity |].
      change (S (S j') =? 1) with false. cbn iota.
      destruct (revealsShape_nth _ _ _ _ _ _ Hs j' Hn')
        as (fee' & p'' & i'' & a'' & _ & Hsh' & _).
      cbn [Nat.add] in Hsh'.
      destruct (shape_last_or_kept Hsh') as [_ Hk].
      destruct (Hk Hlt) as (d & c & Ho & _). eauto. }
  destruct Hprev as (Hprev & -> & Hpo).
  split; [exact Hprev |]. split; [exact Hc |]. split; [exact Hins |]. split; [exact Hpo |].
  unfold changeAddressOf in Hpk.
  destruct Houts as [(c & Ho & _) | (Hi & Ho & _)].
  - left. exists pk, c. split; [exact Ho |]. split.
    + intros Hj'. replace (j =? length inscriptions - 1) with false in Hpk
        by (symmetry; apply Nat.eqb_neq; lia).
      replace (j + 1) with (S j) in Hpk by lia.
      destruct (nth_error inscriptions (S j)) as [next |] eqn:Hnext.
      * exists next. split; [reflexivity |]. split; [exact Hpk |].
        unfold coherent. intros Hco. congruence.
      * apply nth_error_None in Hnext. lia.
    + intros Hj'. replace (j =? length inscriptions - 1) with true in Hpk
        by (symmetry; apply Nat.eqb_eq; lia).
      exact Hpk.
  - right. split; [lia | exact Ho].
Qed.

Lemma chainShape_dropped_change_covered :
  (0 <= minChangeValue)%Z ->
  dropped_change_covered inscriptions revealOutValue chain fees.
Proof.
  intros Hmin.
  destruct Hshape as (first & v & reveals & cf & rf & Hfirst & -> & -> & _ & _ & Hlen & Hs).
  intros last prev dust fee Hl Hp Ho Hf.
  assert (Hpos : 0 < length inscriptions).
  { apply nth_error_Some. congruence. }
  destruct (length inscriptions) as [| j] eqn:Hn; [lia |].
  cbn [nth_error] in Hl, Hf. replace (S j - 1) with j in Hp by lia.
  destruct (revealsShape_nth _ _ _ _ _ _ Hs j Hl) as (fee' & prev' & idx' & av' & Hf' & Hsh & Hpp).
  rewrite Hf in Hf'. inversion Hf'. subst fee'. cbn [Nat.add] in Hsh.
  destruct Hsh as (ctx & pk & Hc & _ & _ & Hins & [(c & Ho' & _) | (_ & Ho' & Hcov)]);
    [rewrite Ho in Ho'; discriminate |].
  rewrite Ho in Ho'. inversion Ho'. subst dust.
  exists av'. split; [| split; [reflexivity | exact (Hcov Hmin)]].
  unfold inputValueOf. rewrite Hins. cbn [Input.index].
  destruct Hpp as [(-> & -> & -> & ->) | (j' & -> & Hn' & -> & ->)].
  - cbn in Hp. inversion Hp. subst prev. reflexivity.
  - cbn [nth_error] in Hp. rewrite Hn' in Hp. inversion Hp. subst prev'.
    destruct (revealsShape_nth _ _ _ _ _ _ Hs j' Hn') as (f'' & p'' & i'' & a'' & _ & Hsh' & _).
    cbn [Nat.add] in Hsh'.
    destruct (shape_last_or_kept Hsh') as [_ Hk].
    destruct (Hk ltac:(lia)) as (d & c & Hoo & _).
    unfold changeValueOf. rewrite Hoo. reflexivity.
Qed.

End OneChain.

End ChainPropertyLemmas.

(** * The phases of the factory *)

Section PhaseLemmas.
Context {ext : Externals}.

Lemma initialize_phases network request w :
  initialize network request w
  = bind (prepare network request)
         (fun _ => bind (buildPhase network request) (fun _ => signPhase request)) w.
Proof.
  unfold initialize, prepare, buildPhase, signPhase.
  rewrite bind_bind. apply bind_ext. intros [] w1.
  destruct (InscriptionRequest.commitTxPrevOutputList request) as [| firstUtxo rest];
    [reflexivity |].
  destruct (length (InscriptionRequest.inscriptionDataList request) =? 0); [reflexivity |].
  rewrite bind_bind. apply bind_ext. intros [] w2.
  rewrite bind_bind. apply bind_ext. intros contexts w3.
  rewrite bind_bind. apply bind_ext. intros [] w4.
  reflexivity.
Qed.

Lemma checkPrivateKeys_ok : forall utxos index w u w1,
  checkPrivateKeys utxos index w = inr (u, w1) ->
  w1 = w /\ Forall (fun utxo => String.eqb (PrevOutput.privateKey utxo) "" = false) utxos.
Proof.
  induction utxos as [| utxo utxos IH]; intros index w u w1 H.
  - inversion H. auto.
  - cbn [checkPrivateKeys] in H.
    destruct (String.eqb (PrevOutput.privateKey utxo) "") eqn:E; [discriminate |].
    apply IH in H as [-> H]. auto.
Qed.

(** What a successful preparation leaves behind. *)
Lemma prepare_ok network request seed u w :
  prepare network request (mkWorld Tool.new seed) = inr (u, w) ->
  exists firstUtxo rest contexts,
    InscriptionRequest.commitTxPrevOutputList request = firstUtxo :: rest
    /\ InscriptionRequest.inscriptionDataList request <> []
    /\ Forall (fun utxo => String.eqb (PrevOutput.privateKey utxo) "" = false)
         (firstUtxo :: rest)
    /\ rmap (fun inscriptionData =>
               createInscriptionTxCtxData network inscriptionData
                 (PrevOutput.privateKey firstUtxo))
            (InscriptionRequest.inscriptionDataList request) = inr contexts
    /\ draws w = seed
    /\ Tool.network (this w) = network
    /\ Tool.inscriptionTxCtxDataList (this w) = contexts
    /\ Tool.txChains (this w) = []
    /\ Tool.chainContextMapping (this w) = []
    /\ Tool.txFees (this w) = []
    /\ Tool.totalEstimatedFee (this w) = 0%Z.
Proof.
  unfold prepare. rewrite bind_modify. intros H.
  destruct (InscriptionRequest.commitTxPrevOutputList request) as [| firstUtxo rest];
    [discriminate |].
  destruct (length (InscriptionRequest.inscriptionDataList request) =? 0) eqn:En;
    [discriminate |].
  apply bind_ok in H as ([] & w1 & Hk & H). apply checkPrivateKeys_ok in Hk as [-> Hk].
  apply bind_ok in H as (contexts & w2 & Hc & H). apply lift_ok in Hc as [Hc ->].
  rewrite bind_modify in H. inversion H. subst. clear H.
  exists firstUtxo, rest, contexts. cbn.
  split; [reflexivity |]. split.
  { intros E. rewrite E in En. discriminate. }
  split; [exact Hk |]. split; [exact Hc |]. repeat split.
Qed.

End PhaseLemmas.

(** * The signer *)

Section SignerLemmas.
Context {ext : Externals}.

Lemma pure_signReveal chainIndex txIndex tx prevTxOutputs :
  pure_run (signReveal chainIndex txIndex tx prevTxOutputs).
Proof.
  unfold signReveal. destruct (nth_error (ins tx) 0); [| apply pure_throw].
  destruct (_ <=? _); [apply pure_throw |].
  destruct (nth_error prevTxOutputs _); [| apply pure_throw].
  apply pure_bind; [apply pure_gets | intros mappings].
  destruct (findMapping _ _ _) as [m |]; [| apply pure_throw].
  destruct (Mapping.contextIndex m); [| apply pure_throw].
  apply pure_bind; [apply pure_gets | intros contexts].
  destruct (nth_error contexts _); [| apply pure_throw].
  destruct (negb _); [apply pure_throw |].
  apply pure_bind; [apply pure_draw | intros; apply pure_ret].
Qed.

Lemma pure_signChainTxs initialUtxo chainIndex : forall txs txIndex prevTxOutputs,
  pure_run (signChainTxs initialUtxo chainIndex txs txIndex prevTxOutputs).
Proof.
  induction txs as [| tx txs IH]; intros txIndex prevTxOutputs; cbn [signChainTxs].
  - apply pure_ret.
  - apply pure_bind.
    + apply pure_rethrow. destruct (txIndex =? 0).
      * apply pure_bind; [apply pure_gets | intros; apply pure_signTx].
      * apply pure_signReveal.
    + intros tx'. apply pure_bind; [apply IH | intros; apply pure_ret].
Qed.

Lemma pure_signChains utxos : forall chains chainIndex,
  pure_run (signChains utxos chains chainIndex).
Proof.
  induction chains as [| chain chains IH]; intros chainIndex; cbn [signChains].
  - apply pure_ret.
  - apply pure_bind.
    + destruct (_ <=? _); [apply pure_ret |].
      destruct (nth_error utxos chainIndex); [| apply pure_ret].
      destruct (String.eqb _ _); [apply pure_ret | apply pure_signChainTxs].
    + intros chain'. apply pure_bind; [apply IH | intros; apply pure_ret].
Qed.

Lemma Buffer_equals_spec : forall a b, Buffer_.equals a b = true <-> a = b.
Proof.
  induction a as [| x a IH]; intros [| y b]; cbn [Buffer_.equals];
    try (split; [discriminate | congruence]); [split; reflexivity |].
  rewrite andb_true_iff, IH. split.
  - intros [Hx ->]. apply Byte.byte_dec_bl in Hx. congruence.
  - intros H. inversion H. subst. split; [apply Byte.byte_dec_lb |]; reflexivity.
Qed.

(** What a successful signature of a reveal went through. *)
Lemma signReveal_ok chainIndex txIndex tx prevTxOutputs w tx' w' :
  signReveal chainIndex txIndex tx prevTxOutputs w = inr (tx', w') ->
  exists input prevOut mapping contextIndex ctx,
    nth_error (ins tx) 0 = Some input
    /\ nth_error prevTxOutputs (Input.index input) = Some prevOut
    /\ findMapping chainIndex txIndex (Tool.chainContextMapping (this w)) = Some mapping
    /\ Mapping.contextIndex mapping = Some contextIndex
    /\ nth_error (Tool.inscriptionTxCtxDataList (this w)) contextIndex = Some ctx
    /\ InscriptionTxCtxData.commitTxAddressPkScript ctx = Output.script prevOut
    /\ tx' = signedReveal ctx prevOut tx (randomBytes (draws w) 32)
    /\ w' = mkWorld (this w) (S (draws w)).
Proof.
  unfold signReveal. intros H.
  destruct (nth_error (ins tx) 0) as [input |] eqn:Hi; [| discriminate].
  destruct (length prevTxOutputs <=? Input.index input); [discriminate |].
  destruct (nth_error prevTxOutputs (Input.index input)) as [prevOut |] eqn:Hp;
    [| discriminate].
  rewrite bind_gets in H.
  destruct (findMapping chainIndex txIndex (Tool.chainContextMapping (this w)))
    as [mapping |] eqn:Hm; [| discriminate].
  destruct (Mapping.contextIndex mapping) as [contextIndex |] eqn:Hc; [| discriminate].
  rewrite bind_gets in H.
  destruct (nth_error (Tool.inscriptionTxCtxDataList (this w)) contextIndex) as [ctx |]
    eqn:Hx; [| discriminate].
  destruct (Buffer_.equals _ _) eqn:Heq; cbn [negb] in H; [| discriminate].
  apply Buffer_equals_spec in Heq.
  apply bind_ok in H as (aux & w1 & Hd & H). inversion Hd. subst aux w1. clear Hd.
  inversion H. subst tx' w'. clear H.
  exists input, prevOut, mapping, contextIndex, ctx.
  split; [reflexivity |]. split; [exact Hp |]. split; [reflexivity |].
  split; [exact Hc |]. split; [exact Hx |]. split; [exact Heq |].
  split; reflexivity.
Qed.

(** The signer refuses a reveal whose context has another commit script
    than the output it spends, and one that has no context. *)
Lemma signReveal_mismatch chainIndex txIndex tx prevTxOutputs w
  input prevOut mapping contextIndex ctx :
  nth_error (ins tx) 0 = Some input ->
  nth_error prevTxOutputs (Input.index input) = Some prevOut ->
  findMapping chainIndex txIndex (Tool.chainContextMapping (this w)) = Some mapping ->
  Mapping.contextIndex mapping = Some contextIndex ->
  nth_error (Tool.inscriptionTxCtxDataList (this w)) contextIndex = Some ctx ->
  InscriptionTxCtxData.commitTxAddressPkScript ctx <> Output.script prevOut ->
  signReveal chainIndex txIndex tx prevTxOutputs w
  = inl (mkError "签名错误：花费脚本与预期上下文不匹配").
Proof.
  intros Hi Hp Hm Hc Hx Hne. unfold signReveal. rewrite Hi.
  assert (Hlt : Input.index input < length prevTxOutputs)
    by (apply nth_error_Some; congruence).
  replace (length prevTxOutputs <=? Input.index input) with false
    by (symmetry; apply Nat.leb_gt; exact Hlt).
  rewrite Hp, bind_gets, Hm, Hc, bind_gets, Hx.
  destruct (Buffer_.equals _ _) eqn:Heq; [| reflexivity].
  apply Buffer_equals_spec in Heq. contradiction.
Qed.

Lemma signReveal_no_context chainIndex txIndex tx prevTxOutputs w :
  findMapping chainIndex txIndex (Tool.chainContextMapping (this w)) = None
  \/ (exists mapping,
        findMapping chainIndex txIndex (Tool.chainContextMapping (this w)) = Some mapping
        /\ Mapping.contextIndex mapping = None) ->
  exists e, signReveal chainIndex txIndex tx prevTxOutputs w = inl e.
Proof.
  intros H. unfold signReveal.
  destruct (nth_error (ins tx) 0) as [input |]; [| unfold typeError, throw; eauto].
  destruct (length prevTxOutputs <=? Input.index input); [unfold throw; eauto |].
  destruct (nth_error prevTxOutputs (Input.index input)) as [prevOut |];
    [| unfold typeError, throw; eauto].
  rewrite bind_gets.
  destruct H as [-> | (mapping & -> & ->)]; unfold throw; eauto.
Qed.

(** Signing leaves the outputs alone. *)
Lemma outs_signInput utxos network tx i w tx' w' :
  signInput utxos network tx i w = inr (tx', w') -> outs tx' = outs tx.
Proof.
  unfold signInput. intros H.
  destruct (nth_error utxos i) as [utxo |]; [| discriminate].
  apply bind_ok in H as (ty & w1 & _ & H).
  apply bind_ok in H as (hex & w2 & _ & H).
  destruct ty.
  - apply bind_ok in H as (s & w3 & _ & H). inversion H. reflexivity.
  - inversion H. reflexivity.
  - inversion H. reflexivity.
  - apply bind_ok in H as (s & w3 & _ & H).
    apply bind_ok in H as (a & w4 & _ & H). inversion H. reflexivity.
Qed.

Lemma outs_signInputs utxos network : forall n i tx w tx' w',
  signInputs utxos network n i tx w = inr (tx', w') -> outs tx' = outs tx.
Proof.
  induction n as [| n IH]; intros i tx w tx' w' H; cbn [signInputs] in H.
  - inversion H. reflexivity.
  - apply bind_ok in H as (tx1 & w1 & H1 & H).
    apply IH in H. apply outs_signInput in H1. congruence.
Qed.

Lemma outs_signedReveal ctx prevOut tx aux : outs (signedReveal ctx prevOut tx aux) = outs tx.
Proof. reflexivity. Qed.

(** What a successfully signed chain went through: every transaction
    after the commit was signed as a reveal, against the outputs of the
    transaction before it. *)
Lemma signChainTxs_ok initialUtxo chainIndex : forall txs txIndex prevTxOutputs w txs' w',
  signChainTxs initialUtxo chainIndex txs txIndex prevTxOutputs w = inr (txs', w') ->
  this w' = this w
  /\ map outs txs' = map outs txs
  /\ forall i tx',
       nth_error txs' i = Some tx' ->
       1 <= txIndex + i ->
       exists tx wi,
         nth_error txs i = Some tx
         /\ this wi = this w
         /\ signReveal chainIndex (txIndex + i) tx (prevOutputsAt prevTxOutputs txs i) wi
            = inr (tx', mkWorld (this wi) (S (draws wi))).
Proof.
  induction txs as [| tx txs IH]; intros txIndex prevTxOutputs w txs' w' H;
    cbn [signChainTxs] in H.
  - inversion H. subst. split; [reflexivity |]. split; [reflexivity |].
    intros i tx' Hi. destruct i; discriminate.
  - apply bind_ok in H as (tx1 & w1 & H1 & H). apply rethrow_ok in H1.
    apply bind_ok in H as (rest & w2 & H2 & H). inversion H. subst txs' w2. clear H.
    apply IH in H2 as (Hw & Ho & Hall).
    assert (H1' : this w1 = this w /\ outs tx1 = outs tx
                  /\ (1 <= txIndex ->
                      signReveal chainIndex txIndex tx prevTxOutputs w
                      = inr (tx1, mkWorld (this w) (S (draws w))))).
    { destruct (Nat.eqb_spec txIndex 0) as [-> | Hne].
      - rewrite bind_gets in H1. split; [eapply pure_signTx; eassumption |].
        split; [eapply outs_signInputs; exact H1 | lia].
      - pose proof H1 as H1''.
        apply signReveal_ok in H1 as (? & ? & ? & ? & ? & _ & _ & _ & _ & _ & _ & -> & ->).
        split; [reflexivity |]. split; [reflexivity |]. intros _. exact H1''. }
    destruct H1' as (Hw1 & Ho1 & Hs1).
    split; [congruence |]. split; [cbn [map]; congruence |].
    intros i tx' Hi Hpos. destruct i as [| i].
    + cbn in Hi. inversion Hi. subst tx'. exists tx, w.
      rewrite Nat.add_0_r in *. split; [reflexivity |]. split; [reflexivity |].
      apply Hs1. exact Hpos.
    + cbn [nth_error] in Hi.
      destruct (Hall i tx' Hi ltac:(lia)) as (tx0 & wi & Hn & Hwi & Hs).
      exists tx0, wi. split; [exact Hn |]. split; [congruence |].
      replace (txIndex + S i) with (S txIndex + i) by lia.
      replace (prevOutputsAt prevTxOutputs (tx :: txs) (S i))
        with (prevOutputsAt (outs tx1) txs i); [exact Hs |].
      destruct i as [| i]; cbn [prevOutputsAt map nth]; [exact Ho1 | reflexivity].
Qed.

(** Signing replaces the chains of the instance by the signed chains and
    touches nothing else of it. *)
Lemma signAllTransactions_ok utxos w u w1 :
  signAllTransactions utxos w = inr (u, w1) ->
  exists chains' w',
    signChains utxos (Tool.txChains (this w)) 0 w = inr (chains', w')
    /\ this w' = this w
    /\ this w1 = Tool.set_txChains chains' (this w).
Proof.
  unfold signAllTransactions. rewrite bind_gets. intros H.
  destruct (Tool.txChains (this w)) as [| c cs] eqn:E.
  - cbn in H. inversion H. subst. exists [], w1. cbn [signChains].
    split; [reflexivity |]. split; [reflexivity |].
    destruct (this w1); cbn in *; subst; reflexivity.
  - cbn [length Nat.eqb] in H.
    apply bind_ok in H as (chains' & w' & Hs & H). inversion H. subst. clear H.
    exists chains', w'. split; [exact Hs |].
    assert (Hw : this w' = this w) by (eapply pure_signChains; eassumption).
    split; [exact Hw |]. cbn [this]. rewrite Hw. reflexivity.
Qed.

(** What a successful run of the factory went through. *)
Lemma newChainInscriptionTool_ok network request seed w :
  newChainInscriptionTool network request seed = inr w ->
  exists w0 w1 chains' w',
    prepare network request (mkWorld Tool.new seed) = inr (tt, w0)
    /\ buildPhase network request w0 = inr (tt, w1)
    /\ signChains (InscriptionRequest.commitTxPrevOutputList request)
         (Tool.txChains (this w1)) 0 w1 = inr (chains', w')
    /\ this w' = this w1
    /\ this w = Tool.set_txChains chains' (this w1).
Proof.
  unfold newChainInscriptionTool.
  destruct (initialize network request (mkWorld Tool.new seed)) as [e | [u w2]] eqn:H;
    [discriminate |].
  intros Hw. inversion Hw. subst w2. clear Hw.
  rewrite initialize_phases in H.
  apply bind_ok in H as ([] & w0 & Hp & H).
  apply bind_ok in H as ([] & w1 & Hb & H).
  apply signAllTransactions_ok in H as (chains' & w' & Hs & Hw' & Hw).
  exists w0, w1, chains', w'. auto.
Qed.

(** The contexts are those of the preparation to the end. *)
Lemma newChainInscriptionTool_contexts network request seed w :
  newChainInscriptionTool network request seed = inr w ->
  exists firstUtxo rest,
    InscriptionRequest.commitTxPrevOutputList request = firstUtxo :: rest
    /\ rmap (fun inscriptionData =>
               createInscriptionTxCtxData network inscriptionData
                 (PrevOutput.privateKey firstUtxo))
            (InscriptionRequest.inscriptionDataList request)
       = inr (Tool.inscriptionTxCtxDataList (this w)).
Proof.
  intros H. apply newChainInscriptionTool_ok in H as (w0 & w1 & chains' & w' & Hp & Hb & _ & _ & Hw).
  apply prepare_ok in Hp
    as (firstUtxo & rest & contexts & Hu & Hd & _ & Hc & _ & _ & Hctx & _).
  exists firstUtxo, rest. split; [exact Hu |].
  rewrite Hw. cbn [Tool.inscriptionTxCtxDataList Tool.set_txChains].
  unfold buildPhase in Hb.
  assert (Hn : 1 <= length (Tool.inscriptionTxCtxDataList (this w0))).
  { rewrite Hctx.
    assert (length contexts = length (InscriptionRequest.inscriptionDataList request)).
    { clear - Hc. revert contexts Hc.
      induction (InscriptionRequest.inscriptionDataList request) as [| d ds IH];
        intros contexts Hc; cbn [rmap] in Hc.
      - inversion Hc. reflexivity.
      - destruct (createInscriptionTxCtxData _ _ _); [discriminate |].
        destruct (rmap _ ds) as [| l]; [discriminate |].
        inversion Hc. cbn [length]. rewrite (IH l eq_refl). reflexivity. }
    destruct (InscriptionRequest.inscriptionDataList request); [congruence |].
    cbn [length] in *. lia. }
  apply buildEnhancedInscriptionChains_ok in Hb as (built & _ & _ & _ & Hw1);
    [| exact Hn | rewrite Hu; cbn; lia].
  rewrite Hw1.
  destruct (extendWith_contexts (length (Tool.inscriptionTxCtxDataList (this w0)))
              built (this w0) 0) as (Hx & _).
  rewrite Hx, Hctx. exact Hc.
Qed.

End SignerLemmas.

(** * Looking up the context of a transaction *)

Section LedgerLemmas.
Context {ext : Externals}.

Lemma find_app {A} (p : A -> bool) (l1 l2 : list A) :
  find p (l1 ++ l2) = match find p l1 with Some x => Some x | None => find p l2 end.
Proof.
  induction l1 as [| a l1 IH]; [reflexivity |]. cbn [app find].
  destruct (p a); [reflexivity | exact IH].
Qed.

Lemma findMapping_reveal_other c c' txIndex : forall count t s,
  c <> c' ->
  findMapping c txIndex (revealMappings c' t s count) = None.
Proof.
  induction count as [| count IH]; intros t s Hc; [reflexivity |].
  cbn [revealMappings]. unfold findMapping. cbn [find Mapping.chainIndex].
  replace (c' =? c) with false by (symmetry; apply Nat.eqb_neq; lia).
  cbn [andb]. apply IH. exact Hc.
Qed.

Lemma findMapping_reveal c : forall count t s j,
  j < count ->
  findMapping c (t + j) (revealMappings c t s count)
  = Some (Mapping.mk c (t + j) (Some (s + j))).
Proof.
  induction count as [| count IH]; intros t s j Hj; [lia |].
  cbn [revealMappings]. unfold findMapping. cbn [find Mapping.chainIndex Mapping.txIndex].
  rewrite Nat.eqb_refl. cbn [andb].
  destruct j as [| j].
  - rewrite !Nat.add_0_r, Nat.eqb_refl. reflexivity.
  - replace (t =? t + S j) with false by (symmetry; apply Nat.eqb_neq; lia).
    replace (t + S j) with (S t + j) by lia.
    replace (s + S j) with (S s + j) by lia.
    apply IH. lia.
Qed.

Lemma findMapping_chain c start count j :
  j < count ->
  findMapping c (S j) (chainMappings c start count)
  = Some (Mapping.mk c (S j) (Some (start + j))).
Proof.
  intros Hj. unfold chainMappings, findMapping.
  cbn [find Mapping.chainIndex Mapping.txIndex]. rewrite Nat.eqb_refl. cbn [Nat.eqb andb].
  exact (@findMapping_reveal c count 1 start j Hj).
Qed.

Lemma findMapping_chain_other c c' start count txIndex :
  c <> c' ->
  findMapping c txIndex (chainMappings c' start count) = None.
Proof.
  intros Hc. unfold chainMappings, findMapping. cbn [find Mapping.chainIndex].
  replace (c' =? c) with false by (symmetry; apply Nat.eqb_neq; lia).
  cbn [andb]. apply findMapping_reveal_other. exact Hc.
Qed.

Lemma findMapping_layout n : forall built c k i j,
  i < length built ->
  j < inscriptionsInChain n (k + i) ->
  findMapping (c + i) (S j) (layoutMappings n c k built)
  = Some (Mapping.mk (c + i) (S j) (Some (24 * (k + i) + j))).
Proof.
  induction built as [| b built IH]; intros c k i j Hi Hj; [cbn in Hi; lia |].
  cbn [layoutMappings]. unfold findMapping. rewrite find_app.
  destruct i as [| i].
  - rewrite !Nat.add_0_r in *.
    pose proof (@findMapping_chain c (24 * k) _ j Hj) as H. unfold findMapping in H.
    rewrite H. reflexivity.
  - pose proof (@findMapping_chain_other (c + S i) c (24 * k) (inscriptionsInChain n k)
                  (S j) ltac:(lia)) as H.
    unfold findMapping in H. rewrite H.
    replace (c + S i) with (S c + i) by lia.
    replace (k + S i) with (S k + i) in * by lia.
    apply IH; [cbn [length] in Hi; lia | exact Hj].
Qed.

Lemma extendWith_mappings n : forall built t k,
  Tool.chainContextMapping (extendWith n t k built)
  = Tool.chainContextMapping t ++ layoutMappings n (length (Tool.txChains t)) k built.
Proof.
  induction built as [| [txChain fees] built IH]; intros t k; cbn [extendWith layoutMappings].
  - rewrite app_nil_r. reflexivity.
  - rewrite IH. cbn. rewrite <- app_assoc, length_app. cbn [length].
    replace (length (Tool.txChains t) + 1) with (S (length (Tool.txChains t))) by lia.
    reflexivity.
Qed.

End LedgerLemmas.

(** * The chains after signing *)

Section SignedChains.
Context {ext : Externals}.

Lemma signChains_ok utxos : forall chains chainIndex w chains' w',
  signChains utxos chains chainIndex w = inr (chains', w') ->
  this w' = this w
  /\ forall i chain',
       nth_error chains' i = Some chain' ->
       exists chain,
         nth_error chains i = Some chain
         /\ ((chain' = chain
              /\ (length utxos <= chainIndex + i
                  \/ exists utxo,
                       nth_error utxos (chainIndex + i) = Some utxo
                       /\ String.eqb (PrevOutput.privateKey utxo) "" = true))
             \/ exists utxo wi wi',
                  nth_error utxos (chainIndex + i) = Some utxo
                  /\ this wi = this w
                  /\ signChainTxs utxo (chainIndex + i) chain 0 [] wi = inr (chain', wi')).
Proof.
  induction chains as [| chain chains IH]; intros chainIndex w chains' w' H;
    cbn [signChains] in H.
  - inversion H. subst. split; [reflexivity |]. intros i c Hi. destruct i; discriminate.
  - apply bind_ok in H as (chain1 & w1 & H1 & H).
    apply bind_ok in H as (rest & w2 & H2 & H). inversion H. subst chains' w2. clear H.
    apply IH in H2 as (Hw2 & Hall).
    assert (Hw1 : this w1 = this w).
    { revert H1. destruct (_ <=? _); [intros H1; inversion H1; reflexivity |].
      destruct (nth_error utxos chainIndex); [| intros H1; inversion H1; reflexivity].
      destruct (String.eqb _ _); [intros H1; inversion H1; reflexivity |].
      intros H1. eapply pure_signChainTxs. exact H1. }
    split; [congruence |].
    intros i chain' Hi. destruct i as [| i].
    + cbn in Hi. inversion Hi. subst chain'. exists chain. split; [reflexivity |].
      rewrite Nat.add_0_r.
      destruct (Nat.leb_spec (length utxos) chainIndex) as [Hle | Hlt].
      { inversion H1. left. split; [reflexivity | left; exact Hle]. }
      destruct (nth_error utxos chainIndex) as [utxo |] eqn:Hu.
      2:{ apply nth_error_None in Hu. lia. }
      destruct (String.eqb (PrevOutput.privateKey utxo) "") eqn:Hk.
      { inversion H1. left. split; [reflexivity |]. right. exists utxo. auto. }
      right. exists utxo, w, w1. auto.
    + cbn [nth_error] in Hi. destruct (Hall i chain' Hi) as (chain0 & Hn & Hcase).
      exists chain0. split; [exact Hn |].
      replace (chainIndex + S i) with (S chainIndex + i) by lia.
      destruct Hcase as [Hskip | (utxo & wi & wi' & Hu & Hwi & Hs)]; [left; exact Hskip |].
      right. exists utxo, wi, wi'. split; [exact Hu |]. split; [congruence | exact Hs].
Qed.

Section Layout.
Variables (network : Network) (utxos : list PrevOutput.t)
  (revealOutValue : Z) (changeAddress : string) (minChangeValue : Z) (n : nat)
  (contexts : list InscriptionTxCtxData.t)
  (built : list (list Transaction * list Z)).
Hypothesis Hbuilt :
  chainsBuilt network utxos revealOutValue changeAddress minChangeValue n contexts 0 built.
Hypothesis Hfunded : length built <= length utxos.
Hypothesis Hkeys :
  Forall (fun utxo => String.eqb (PrevOutput.privateKey utxo) "" = false) utxos.

(** The signed chains of a layout: reveal [j] of chain [k] is the built
    reveal with the signature for context [24 k + (j - 1)], whose commit
    script is the script of the output it spends. *)
Lemma signed_layout w chains' w' :
  Tool.chainContextMapping (this w) = layoutMappings n 0 0 built ->
  signChains utxos (map fst built) 0 w = inr (chains', w') ->
  forall k chain',
    nth_error chains' k = Some chain' ->
    exists chain fees,
      nth_error built k = Some (chain, fees)
      /\ map outs chain' = map outs chain
      /\ forall j tx',
           nth_error chain' j = Some tx' ->
           1 <= j ->
           exists tx input prevOut ctx aux,
             nth_error chain j = Some tx
             /\ nth_error (ins tx) 0 = Some input
             /\ nth_error (nth (j - 1) (map outs chain) []) (Input.index input)
                = Some prevOut
             /\ nth_error (Tool.inscriptionTxCtxDataList (this w)) (24 * k + (j - 1))
                = Some ctx
             /\ InscriptionTxCtxData.commitTxAddressPkScript ctx = Output.script prevOut
             /\ tx' = signedReveal ctx prevOut tx aux.
Proof.
  intros Hmap Hs k chain' Hk.
  apply signChains_ok in Hs as (_ & Hall).
  destruct (Hall k chain' Hk) as (chain & Hn & Hcase). cbn [Nat.add] in Hcase.
  rewrite nth_error_map in Hn.
  destruct (nth_error built k) as [[chain0 fees] |] eqn:Hb; [| discriminate].
  cbn in Hn. inversion Hn. subst chain0. clear Hn.
  assert (Hlt : k < length built) by (apply nth_error_Some; congruence).
  destruct (@chainsBuilt_nth _ _ _ _ _ _ _ _ built 0 k Hbuilt Hlt)
    as (c0 & f0 & Hb' & (utxo0 & Hu0 & Hshape & Hlen & _)).
  rewrite Hb in Hb'. inversion Hb'. subst c0 f0. clear Hb'. cbn [Nat.add] in *.
  exists chain, fees. split; [reflexivity |].
  destruct Hcase as [(-> & [Hle | (utxo & Hu & Hempty)]) | (utxo & wi & wi' & Hu & Hwi & Hsign)].
  - lia.
  - rewrite Forall_forall in Hkeys.
    rewrite (Hkeys utxo (nth_error_In _ _ Hu)) in Hempty. discriminate.
  - apply signChainTxs_ok in Hsign as (_ & Houts & Htxs).
    split; [exact Houts |].
    intros j tx' Hj Hpos. cbn [Nat.add] in Htxs.
    destruct (Htxs j tx' Hj Hpos) as (tx & wj & Hntx & Hwj & Hrev).
    apply signReveal_ok in Hrev
      as (input & prevOut & mapping & contextIndex & ctx & Hi & Hp & Hm & Hc & Hx & Heq & Htx' & _).
    assert (Hjlt : j - 1 < inscriptionsInChain n k).
    { assert (j < length chain) by (apply nth_error_Some; congruence). lia. }
    rewrite Hwj, Hwi in Hm, Hx. rewrite Hmap in Hm.
    pose proof (@findMapping_layout n built 0 0 k (j - 1) Hlt Hjlt) as Hfind.
    cbn [Nat.add] in Hfind. replace (S (j - 1)) with j in Hfind by lia.
    rewrite Hfind in Hm. inversion Hm. subst mapping. cbn in Hc. inversion Hc. subst contextIndex.
    exists tx, input, prevOut, ctx, (randomBytes (draws wj) 32).
    split; [exact Hntx |]. split; [exact Hi |]. split.
    + destruct j as [| j]; [lia |]. cbn [prevOutputsAt] in Hp.
      replace (S j - 1) with j by lia. exact Hp.
    + split; [exact Hx |]. split; [exact Heq | exact Htx'].
Qed.

End Layout.

End SignedChains.

(** * The envelope builder *)

Section EnvelopeLemmas.
Context {ext : Externals}.

Lemma rmap_Forall2 {A B} (f : A -> Result B) : forall l l',
  rmap f l = inr l' -> Forall2 (fun x y => f x = inr y) l l'.
Proof.
  induction l as [| x l IH]; intros l' H; cbn [rmap] in H.
  - inversion H. constructor.
  - destruct (f x) as [e | y] eqn:E; [discriminate |].
    destruct (rmap f l) as [e | ys]; [discriminate |].
    inversion H. constructor; [exact E | apply IH; reflexivity].
Qed.

(** The loop over the body pushes a split of what is left of it. *)
Lemma pushBodyChunks_split body : forall fuel i,
  length body - i <= fuel ->
  exists chunks,
    pushBodyChunks fuel body i = map Data chunks
    /\ splitsBody (skipn i body) chunks.
Proof.
  induction fuel as [| fuel IH]; intros i Hfuel.
  - exists []. cbn. split; [reflexivity |].
    rewrite skipn_all2 by lia. repeat split; constructor.
  - cbn [pushBodyChunks]. destruct (Nat.ltb_spec i (length body)) as [Hlt | Hge].
    + destruct (IH (i + maxChunkSize) ltac:(unfold maxChunkSize; lia)) as (chunks & Hc & Hs).
      rewrite Hc. unfold maxChunkSize in *.
      destruct (Nat.ltb_spec (length body) (i + 520)) as [Hshort | Hlong].
      * (* the last chunk *)
        assert (chunks = []) as ->.
        { destruct Hs as (Hcat & Hall & _). rewrite skipn_all2 in Hcat by lia.
          destruct chunks as [| c cs]; [reflexivity |].
          inversion Hall; subst. destruct c; cbn in *; [lia | discriminate]. }
        exists [Buffer_.slice body i (length body)]. split; [reflexivity |].
        unfold Buffer_.slice.
        assert (Hl : length (skipn i body) = length body - i) by apply length_skipn.
        rewrite firstn_all2 by lia.
        split; [cbn; apply app_nil_r |].
        split; [constructor; [lia | constructor] | cbn; lia].
      * exists (Buffer_.slice body i (i + 520) :: chunks). split; [reflexivity |].
        destruct Hs as (Hcat & Hall & Hfull). unfold Buffer_.slice.
        replace (i + 520 - i) with 520 by lia.
        assert (Hl : length (firstn 520 (skipn i body)) = 520).
        { rewrite length_firstn, length_skipn. lia. }
        split; [| split].
        -- cbn [concat]. rewrite Hcat.
           replace (i + 520) with (520 + i) by lia.
           rewrite <- skipn_skipn. apply firstn_skipn.
        -- constructor; [lia | exact Hall].
        -- cbn [fullButLast]. destruct chunks; [lia | auto].
    + exists []. split; [reflexivity |].
      rewrite skipn_all2 by lia. repeat split; constructor.
Qed.

(** What a context is made of. *)
Lemma createInscriptionTxCtxData_ok network inscriptionData privateKeyWif ctx :
  createInscriptionTxCtxData network inscriptionData privateKeyWif = inr ctx ->
  exists privateKeyHex publicKey chunks payment,
    privateKeyFromWIF privateKeyWif network = inr privateKeyHex
    /\ wif2Public privateKeyWif network = inr publicKey
    /\ splitsBody (bodyBuffer (InscriptionData.body inscriptionData)) chunks
    /\ let internalPubKey := skipn 1 publicKey in
       let script :=
         script_compile
           (envelope internalPubKey (InscriptionData.contentType inscriptionData)
              chunks) in
       InscriptionTxCtxData.inscriptionScript ctx = script
       /\ p2tr internalPubKey script (script, 0xc0%Z) network = inr payment
       /\ InscriptionTxCtxData.privateKey ctx = fromHex privateKeyHex
       /\ InscriptionTxCtxData.commitTxAddress ctx = Payment.address payment
       /\ InscriptionTxCtxData.commitTxAddressPkScript ctx = Payment.output payment
       /\ InscriptionTxCtxData.witness ctx = Payment.witness payment
       /\ InscriptionTxCtxData.hash ctx = Payment.hash payment.
Proof.
  intros H. unfold createInscriptionTxCtxData in H.
  destruct (privateKeyFromWIF privateKeyWif network) as [e | privateKeyHex];
    [discriminate |].
  destruct (wif2Public privateKeyWif network) as [e | publicKey]; [discriminate |].
  cbn [rbind] in H.
  destruct (@pushBodyChunks_split (bodyBuffer (InscriptionData.body inscriptionData))
              (length (bodyBuffer (InscriptionData.body inscriptionData))) 0
              ltac:(lia)) as (chunks & Hc & Hs).
  unfold inscriptionBuilder in H. rewrite Hc in H.
  fold (envelope (skipn 1 publicKey) (InscriptionData.contentType inscriptionData) chunks)
    in H.
  destruct (p2tr _ _ _ _) as [e | payment] eqn:Hp; [discriminate |].
  cbn [rbind] in H.
  destruct (toOutputScript _ _) as [e | revealPkScript]; [discriminate |].
  cbn [rbind ok] in H. inversion H. subst ctx. clear H.
  exists privateKeyHex, publicKey, chunks, payment.
  split; [reflexivity |]. split; [reflexivity |]. split; [exact Hs |].
  cbv zeta. cbn. split; [reflexivity |]. split; [exact Hp |]. repeat split.
Qed.

End EnvelopeLemmas.

(** * The chains of a tool *)

Section FactoryLemmas.
Context {ext : Externals}.

Lemma nth_error_slice {A} (l : list A) a b i :
  i < b - a -> nth_error (slice l a b) i = nth_error l (a + i).
Proof.
  intros Hi. unfold slice. rewrite nth_error_firstn.
  replace (i <? b - a) with true by (symmetry; apply Nat.ltb_lt; exact Hi).
  apply nth_error_skipn.
Qed.

Lemma signChains_length utxos : forall chains chainIndex w chains' w',
  signChains utxos chains chainIndex w = inr (chains', w') ->
  length chains' = length chains.
Proof.
  induction chains as [| chain chains IH]; intros chainIndex w chains' w' H;
    cbn [signChains] in H.
  - inversion H. reflexivity.
  - apply bind_ok in H as (chain1 & w1 & _ & H).
    apply bind_ok in H as (rest & w2 & H2 & H). inversion H. cbn [length].
    erewrite IH by exact H2. reflexivity.
Qed.

Lemma rmap_length {A B} (f : A -> Result B) : forall l l',
  rmap f l = inr l' -> length l' = length l.
Proof.
  intros l l' H. apply rmap_Forall2 in H. symmetry. eapply Forall2_length. exact H.
Qed.

Lemma Forall2_nth_error_r {A B} (P : A -> B -> Prop) : forall l l' i y,
  Forall2 P l l' -> nth_error l' i = Some y ->
  exists x, nth_error l i = Some x /\ P x y.
Proof.
  intros l l' i y H. revert i. induction H as [| x y' l l' Hxy _ IH]; intros i Hi.
  - destruct i; discriminate.
  - destruct i as [| i]; cbn in Hi.
    + inversion Hi. subst y'. exists x. auto.
    + destruct (IH i Hi) as (x' & Hx & Hp). exists x'. auto.
Qed.

Lemma beforeSigning_signedReveal ctx prevOut tx aux hash index sequence :
  ins tx = [Input.mk hash index [] sequence []] ->
  beforeSigning (signedReveal ctx prevOut tx aux) = tx.
Proof.
  intros H. destruct tx as [v l i o]. cbn in H. subst i. reflexivity.
Qed.

(** In a chain of the given shape, the output a reveal spends carries
    the commit script of the inscription it reveals, when address and
    script of that context belong together. *)
Lemma chainShape_spent_script network inscriptions revealOutValue finalChangeAddress
  minChangeValue utxo chain fees :
  chainShape network inscriptions revealOutValue finalChangeAddress minChangeValue
    utxo chain fees ->
  forall j tx input prevOut ctx,
    1 <= j ->
    nth_error chain j = Some tx ->
    nth_error (ins tx) 0 = Some input ->
    nth_error (nth (j - 1) (map outs chain) []) (Input.index input) = Some prevOut ->
    nth_error inscriptions (j - 1) = Some ctx ->
    coherent network ctx ->
    Output.script prevOut = InscriptionTxCtxData.commitTxAddressPkScript ctx.
Proof.
  intros Hshape j tx input prevOut ctx Hj Htx Hin Hprev Hctx Hco.
  pose proof (chainShape_reveals_linked Hshape) as Hlinked.
  destruct (Hlinked j tx Hj Htx) as (prev & ctx0 & Hp & Hc0 & Hins & Hpo & _).
  rewrite Hins in Hin. cbn in Hin. inversion Hin. subst input. cbn [Input.index] in Hprev.
  assert (Hnth : nth (j - 1) (map outs chain) [] = outs prev).
  { erewrite nth_error_nth; [reflexivity |]. rewrite nth_error_map, Hp. reflexivity. }
  rewrite Hnth in Hprev.
  destruct (Nat.eqb_spec j 1) as [-> | Hne].
  - destruct Hshape as (first & v & reveals & cf & rf & Hfirst & -> & _).
    cbn in Hp. inversion Hp. subst prev. cbn in Hprev. inversion Hprev. subst prevOut.
    change (1 - 1) with 0 in Hctx. rewrite Hfirst in Hctx. inversion Hctx. reflexivity.
  - destruct (Hlinked (j - 1) prev ltac:(lia) Hp)
      as (prev2 & ctx2 & _ & _ & _ & _ & [(pk & c & Ho & Hnext & _) | (Hlast & Ho)]).
    + rewrite Ho in Hprev. cbn in Hprev. inversion Hprev. subst prevOut. cbn [Output.script].
      assert (Hlt : j - 1 < length inscriptions) by (apply nth_error_Some; congruence).
      destruct (Hnext Hlt) as (next & Hn & _ & Heq).
      rewrite Hctx in Hn. inversion Hn. subst next. apply Heq. exact Hco.
    + assert (j - 1 < length inscriptions) by (apply nth_error_Some; congruence). lia.
Qed.

(** What the chains of a freshly made tool are. *)
Lemma newChainInscriptionTool_signed network request seed w :
  newChainInscriptionTool network request seed = inr w ->
  let utxos := InscriptionRequest.commitTxPrevOutputList request in
  let revealOutValue :=
    orDefault (InscriptionRequest.revealOutValue request) DEFAULT_REVEAL_OUT_VALUE in
  let minChangeValue :=
    orDefaultOpt (InscriptionRequest.minChangeValue request) DEFAULT_MIN_CHANGE_VALUE in
  let contexts := Tool.inscriptionTxCtxDataList (this w) in
  exists firstUtxo rest built,
    utxos = firstUtxo :: rest
    /\ contexts <> []
    /\ Forall2
         (fun inscriptionData ctx =>
            createInscriptionTxCtxData network inscriptionData
              (PrevOutput.privateKey firstUtxo) = inr ctx)
         (InscriptionRequest.inscriptionDataList request) contexts
    /\ chainsBuilt network utxos revealOutValue (InscriptionRequest.changeAddress request)
         minChangeValue (length contexts) contexts 0 built
    /\ length (Tool.txChains (this w)) = length built
    /\ forall k chain',
         nth_error (Tool.txChains (this w)) k = Some chain' ->
         exists chain fees,
           nth_error built k = Some (chain, fees)
           /\ map outs chain' = map outs chain
           /\ forall j tx',
                nth_error chain' j = Some tx' ->
                1 <= j ->
                exists tx input prevOut ctx aux,
                  nth_error chain j = Some tx
                  /\ nth_error (ins tx) 0 = Some input
                  /\ nth_error (nth (j - 1) (map outs chain) []) (Input.index input)
                     = Some prevOut
                  /\ nth_error contexts (24 * k + (j - 1)) = Some ctx
                  /\ InscriptionTxCtxData.commitTxAddressPkScript ctx = Output.script prevOut
                  /\ tx' = signedReveal ctx prevOut tx aux.
Proof.
  intros H utxos revealOutValue minChangeValue contexts.
  apply newChainInscriptionTool_ok in H as (w0 & w1 & chains' & w' & Hp & Hb & Hs & Hw' & Hw).
  apply prepare_ok in Hp
    as (firstUtxo & rest & ctxs & Hu & Hd & Hkeys & Hc & _ & _ & Hctx & Hchains & Hmap & _).
  assert (Hlen : length ctxs = length (InscriptionRequest.inscriptionDataList request))
    by (eapply rmap_length; exact Hc).
  assert (Hn : 1 <= length (Tool.inscriptionTxCtxDataList (this w0))).
  { rewrite Hctx, Hlen.
    destruct (InscriptionRequest.inscriptionDataList request); [congruence | cbn; lia]. }
  unfold buildPhase in Hb.
  apply buildEnhancedInscriptionChains_ok in Hb as (built & Hbl & Hbm & Hbuilt & Hw1);
    [| exact Hn | rewrite Hu; cbn; lia].
  destruct (extendWith_contexts (length (Tool.inscriptionTxCtxDataList (this w0)))
              built (this w0) 0) as (Hx1 & _ & _ & Hx4).
  pose proof (extendWith_mappings (length (Tool.inscriptionTxCtxDataList (this w0)))
                built (this w0) 0) as Hx5.
  rewrite <- Hw1 in Hx1, Hx4, Hx5. rewrite Hchains in Hx4, Hx5. rewrite Hmap in Hx5.
  cbn [app length] in Hx4, Hx5.
  assert (Hcontexts : contexts = ctxs).
  { subst contexts. rewrite Hw. cbn. rewrite Hx1. exact Hctx. }
  rewrite Hctx in Hbuilt, Hx5.
  exists firstUtxo, rest, built. rewrite Hcontexts.
  split; [exact Hu |]. split.
  { intros E. rewrite E in Hlen.
    destruct (InscriptionRequest.inscriptionDataList request); [congruence | discriminate]. }
  split; [apply rmap_Forall2; exact Hc |].
  split; [exact Hbuilt |].
  rewrite Hx4 in Hs.
  assert (Hchains' : Tool.txChains (this w) = chains') by (rewrite Hw; reflexivity).
  split.
  { rewrite Hchains'. erewrite signChains_length by exact Hs. apply length_map. }
  intros k chain' Hk. rewrite Hchains' in Hk.
  fold utxos in Hbuilt, Hs, Hbm, Hkeys.
  rewrite <- Hu in Hkeys. fold utxos in Hkeys.
  destruct (@signed_layout _ _ _ _ _ _ _ _ _ Hbuilt Hbm Hkeys w1 _ _ Hx5 Hs k _ Hk) as (chain & fees & Hnb & Hout & Htxs).
  exists chain, fees. split; [exact Hnb |]. split; [exact Hout |].
  intros j tx' Hj Hpos.
  destruct (Htxs j tx' Hj Hpos) as (tx & input & prevOut & ctx & aux & H1 & H2 & H3 & H4 & H5 & H6).
  exists tx, input, prevOut, ctx, aux.
  rewrite Hx1, Hctx in H4. auto 10.
Qed.

End FactoryLemmas.

(** * Signing with a context that was changed after the build *)

Section Corruption.
Context {ext : Externals}.

(** After a successful build, the signer does not get through when the
    context at some position [c] has another commit script than the one
    the chains were built with. *)
Lemma corrupted_context_stops_signing network request seed u0 w0 u1 w1
  c ctx ctx' contexts' d :
  prepare network request (mkWorld Tool.new seed) = inr (u0, w0) ->
  buildPhase network request w0 = inr (u1, w1) ->
  nth_error (Tool.inscriptionTxCtxDataList (this w1)) c = Some ctx ->
  coherent network ctx ->
  nth_error contexts' c = Some ctx' ->
  InscriptionTxCtxData.commitTxAddressPkScript ctx'
  <> InscriptionTxCtxData.commitTxAddressPkScript ctx ->
  exists e,
    signPhase request
      (mkWorld (Tool.set_inscriptionTxCtxDataList contexts' (this w1)) d) = inl e.
Proof.
  intros Hp Hb Hc Hco Hc' Hne.
  apply prepare_ok in Hp
    as (firstUtxo & rest & ctxs & Hu & Hd & Hkeys & Hr & _ & _ & Hctx & Hchains & Hmap & _).
  assert (Hlen0 : length ctxs = length (InscriptionRequest.inscriptionDataList request))
    by (eapply rmap_length; exact Hr).
  assert (Hn : 1 <= length (Tool.inscriptionTxCtxDataList (this w0))).
  { rewrite Hctx, Hlen0.
    destruct (InscriptionRequest.inscriptionDataList request); [congruence | cbn; lia]. }
  unfold buildPhase in Hb.
  apply buildEnhancedInscriptionChains_ok in Hb as (built & Hbl & Hbm & Hbuilt & Hw1);
    [| exact Hn | rewrite Hu; cbn; lia].
  destruct (extendWith_contexts (length (Tool.inscriptionTxCtxDataList (this w0)))
              built (this w0) 0) as (Hx1 & _ & _ & Hx4).
  pose proof (extendWith_mappings (length (Tool.inscriptionTxCtxDataList (this w0)))
                built (this w0) 0) as Hx5.
  rewrite <- Hw1 in Hx1, Hx4, Hx5. rewrite Hchains in Hx4, Hx5. rewrite Hmap in Hx5.
  cbn [app length] in Hx4, Hx5.
  rewrite Hx1 in Hc. rewrite Hctx in *. clear Hr Hlen0 Hd.
  set (utxos := InscriptionRequest.commitTxPrevOutputList request) in *.
  set (n := length ctxs) in *.
  remember (mkWorld (Tool.set_inscriptionTxCtxDataList contexts' (this w1)) d) as wS
    eqn:HwS.
  destruct (signPhase request wS) as [e | [u wS']] eqn:Hs; [eauto |]. exfalso.
  unfold signPhase in Hs. fold utxos in Hs.
  apply signAllTransactions_ok in Hs as (chains' & w' & Hs & _ & _).
  assert (HchS : Tool.txChains (this wS) = map fst built)
    by (rewrite HwS; cbn; exact Hx4).
  assert (HmapS : Tool.chainContextMapping (this wS) = layoutMappings n 0 0 built)
    by (rewrite HwS; cbn; exact Hx5).
  assert (HctxS : Tool.inscriptionTxCtxDataList (this wS) = contexts')
    by (rewrite HwS; reflexivity).
  rewrite HchS in Hs.
  assert (Hcn : c < n) by (apply nth_error_Some; congruence).
  pose proof (Nat.div_mod_eq c 24) as Hdm.
  pose proof (Nat.mod_upper_bound c 24 ltac:(lia)) as Hmod.
  set (k := c / 24) in *. set (r := c mod 24) in *.
  assert (Hk : k < length built) by (rewrite Hbl; apply chainCount_lt; lia).
  assert (Hlen' : length chains' = length built).
  { erewrite signChains_length by exact Hs. apply length_map. }
  destruct (nth_error chains' k) as [chain' |] eqn:Hk';
    [| apply nth_error_None in Hk'; lia].
  rewrite <- Hu in Hkeys. fold utxos in Hkeys.
  destruct (@signed_layout _ _ _ _ _ _ _ _ _ Hbuilt Hbm Hkeys wS _ _ HmapS Hs k _ Hk')
    as (chain & fees & Hnb & Houts & Htxs).
  destruct (@chainsBuilt_nth _ _ _ _ _ _ _ _ built 0 k Hbuilt Hk)
    as (c0 & f0 & Hb' & (utxo0 & _ & Hshape & Hlen & _)).
  rewrite Hnb in Hb'. inversion Hb'. subst c0 f0. clear Hb'. cbn [Nat.add] in *.
  assert (Hin : r < inscriptionsInChain n k) by (unfold inscriptionsInChain; lia).
  assert (Hlc : length chain' = length chain).
  { rewrite <- (length_map outs chain'), Houts. apply length_map. }
  destruct (nth_error chain' (S r)) as [tx' |] eqn:Htx';
    [| apply nth_error_None in Htx'; lia].
  destruct (Htxs (S r) tx' Htx' ltac:(lia))
    as (tx & input & prevOut & ctxS & aux & Htx & Hinp & Hprev & Hfound & Heq & _).
  rewrite HctxS in Hfound. replace (24 * k + (S r - 1)) with c in Hfound by lia.
  rewrite Hc' in Hfound. inversion Hfound. subst ctxS. clear Hfound.
  apply Hne. rewrite Heq.
  pose proof (chainShape_spent_script Hshape) as Hspent.
  apply (Hspent (S r) tx input prevOut ctx);
    [lia | exact Htx | exact Hinp | exact Hprev | | exact Hco].
  rewrite nth_error_slice by lia.
  replace (24 * k + (S r - 1)) with c by lia. exact Hc.
Qed.

End Corruption.

(** * The claims *)

Section PlannerClaim.
Context {ext : Externals}.

(** What the planner does for [n >= 1] inscriptions held by the tool and
    the funding outputs [commitTxPrevOutputList]. *)
Definition planner_follows_layout (network : Network)
  (commitTxPrevOutputList : list PrevOutput.t)
  (revealOutValue : Z) (revealFeeRate : Q) (changeAddress : string)
  (minChangeValue : Z) (commitFeeRate : Q) (w : World) : Prop :=
  let n := length (Tool.inscriptionTxCtxDataList (this w)) in
  let m := length commitTxPrevOutputList in
  let build :=
    buildEnhancedInscriptionChains network commitTxPrevOutputList revealOutValue
      revealFeeRate changeAddress minChangeValue commitFeeRate in
  let layout :=
    assembleChains network commitTxPrevOutputList revealOutValue revealFeeRate
      changeAddress minChangeValue commitFeeRate n in
  (* the loop is the closed-form layout *)
  build w = layout 0 (chainCount n) w
  (* a successful build has emitted the chains of the layout *)
  /\ (forall u w1,
        build w = inr (u, w1) ->
        chainCount n <= m
        /\ exists emitted,
             Tool.txChains (this w1) = Tool.txChains (this w) ++ emitted
             /\ length emitted = chainCount n
             /\ forall k, k < chainCount n ->
                  exists txChain,
                    nth_error emitted k = Some txChain
                    /\ length txChain = 1 + Nat.min 24 (n - 24 * k))
  (* too few funding outputs: the build fails, after the chains that
     could be funded and before any further chain *)
  /\ (m < chainCount n ->
        build w = bind (layout 0 m)
                       (fun _ => throw (utxoCountInsufficient m n)) w
        /\ (exists e, build w = inl e)
        /\ (forall u wm,
              layout 0 m w = inr (u, wm) ->
              build w = inl (mkError (utxoCountInsufficient m n)))).

(** C1 (amended).  For [n >= 1] inscriptions and [m >= 1] funding
    outputs the planner runs the chains of the closed-form layout in
    order: chain [k] is assembled from funding output [k] over the
    [min 24 (n - 24 k)] inscriptions that start at [24 k].  A successful
    build has emitted exactly [ceil (n / 24)] chains, chain [k] of length
    [1 + min 24 (n - 24 k)], and then [m >= ceil (n / 24)].  With
    [m < ceil (n / 24)] the build always fails: it assembles the [m]
    chains it can fund and then throws the UTXO-count error, so that error
    is the result whenever those [m] assemblies succeed. *)
Theorem planner_layout_counts (network : Network)
  (commitTxPrevOutputList : list PrevOutput.t)
  (revealOutValue : Z) (revealFeeRate : Q) (changeAddress : string)
  (minChangeValue : Z) (commitFeeRate : Q) (w : World) :
  1 <= length (Tool.inscriptionTxCtxDataList (this w)) ->
  1 <= length commitTxPrevOutputList ->
  planner_follows_layout network commitTxPrevOutputList revealOutValue revealFeeRate
    changeAddress minChangeValue commitFeeRate w.
Proof.
  intros Hn Hm. unfold planner_follows_layout. cbv zeta.
  set (n := length (Tool.inscriptionTxCtxDataList (this w))) in *.
  set (m := length commitTxPrevOutputList) in *.
  pose proof (buildEnhancedInscriptionChains_layout network commitTxPrevOutputList
                revealOutValue revealFeeRate changeAddress minChangeValue commitFeeRate
                w Hn Hm) as Heq.
  unfold layoutSpec in Heq. fold n in Heq.
  assert (Hshort : m < chainCount n ->
            buildEnhancedInscriptionChains network commitTxPrevOutputList revealOutValue
              revealFeeRate changeAddress minChangeValue commitFeeRate w
            = bind (assembleChains network commitTxPrevOutputList revealOutValue
                      revealFeeRate changeAddress minChangeValue commitFeeRate n 0 m)
                   (fun _ => throw (utxoCountInsufficient m n)) w).
  { intros Hlt. rewrite Heq.
    replace (chainCount n) with (m + (chainCount n - m)) by lia.
    rewrite assembleChains_app. apply bind_ext. intros a w1.
    rewrite Nat.add_0_r. apply assembleChains_short; [fold m |]; lia. }
  split; [exact Heq |]. split.
  - intros u w1 Hok.
    assert (Hge : chainCount n <= m).
    { destruct (Nat.le_gt_cases (chainCount n) m) as [H | H]; [exact H |].
      rewrite (Hshort H) in Hok. apply bind_ok in Hok as (a & w2 & _ & Hok). discriminate. }
    split; [exact Hge |].
    rewrite Heq in Hok.
    apply assembleChains_ok in Hok as (built & Hlen & Hb & Hw1); [| reflexivity | lia].
    exists (map fst built).
    destruct (extendWith_contexts n built (this w) 0) as (_ & _ & _ & Hc).
    split; [rewrite Hw1; exact Hc |]. split; [rewrite length_map; exact Hlen |].
    intros k Hk.
    destruct (@chainsBuilt_nth _ _ _ _ _ _ _ _ built 0 k Hb ltac:(lia))
      as (txChain & fees & Hnth & (utxo & _ & _ & Hl & _)).
    exists txChain. split.
    + rewrite nth_error_map, Hnth. reflexivity.
    + exact Hl.
  - intros Hlt. split; [exact (Hshort Hlt) |]. split.
    + rewrite (Hshort Hlt). unfold bind.
      match goal with
      | |- context [match ?X with _ => _ end] => destruct X as [e | [a w1]]
      end; [| unfold throw]; eauto.
    + intros u wm Hm'. rewrite (Hshort Hlt). erewrite bind_run by exact Hm'. reflexivity.
Qed.

End PlannerClaim.

Section PlannerExamples.
#[local] Existing Instance Reference.externals.

(** The planner on one inscription and one funding output of the
    reference instance. *)
Lemma planner_layout_counts_witness :
  1 <= length (Tool.inscriptionTxCtxDataList (this (Reference.worldOf 1)))
  /\ 1 <= length [Reference.utxoOf "aa" 100000]
  /\ planner_follows_layout testnet [Reference.utxoOf "aa" 100000] 546 (5 # 2)
       "Qchange" 546 2 (Reference.worldOf 1).
Proof.
  split; [vm_compute; lia |]. split; [vm_compute; lia |].
  apply planner_layout_counts; vm_compute; lia.
Defined.

(** With no funding output at all the planner returns at once: it
    builds nothing and raises no error, although [0 < ceil (1 / 24)]; and
    the entry point rejects such a request for its empty funding list,
    not for the UTXO count. *)
Lemma planner_without_funding_counterexample :
  length (Tool.inscriptionTxCtxDataList (this (Reference.worldOf 1))) = 1
  /\ length (@nil PrevOutput.t) < chainCount 1
  /\ buildEnhancedInscriptionChains testnet [] 546 (5 # 2) "Qchange" 546 2
       (Reference.worldOf 1)
     = inr (tt, Reference.worldOf 1)
  /\ ChainInscribeResult.error (inscribeChain testnet (Reference.requestOf [] 1) 0)
     = Some "输入错误：commitTxPrevOutputList 不能为空"%string.
Proof.
  split; [reflexivity |]. split; [vm_compute; lia |]. split; reflexivity.
Qed.

End PlannerExamples.

Section EstimatorClaim.
Context {ext : Externals}.





End EstimatorClaim.

Section EstimatorExamples.
#[local] Existing Instance Reference.externals.


End EstimatorExamples.

Section ChainClaims.
Context {ext : Externals}.

(** The chains a successful run of the planner has added, one property
    at a time: what holds of every chain of the given shape holds of
    every emitted chain, for the inscriptions it carries. *)
Lemma emitted_chains_have network commitTxPrevOutputList revealOutValue revealFeeRate
  changeAddress minChangeValue commitFeeRate w u w1
  (P : list InscriptionTxCtxData.t -> list Transaction -> Prop) :
  (forall inscriptions utxo chain fees,
      chainShape network inscriptions revealOutValue changeAddress minChangeValue
        utxo chain fees -> P inscriptions chain) ->
  1 <= length (Tool.inscriptionTxCtxDataList (this w)) ->
  1 <= length commitTxPrevOutputList ->
  buildEnhancedInscriptionChains network commitTxPrevOutputList revealOutValue
    revealFeeRate changeAddress minChangeValue commitFeeRate w = inr (u, w1) ->
  let contexts := Tool.inscriptionTxCtxDataList (this w) in
  exists emitted,
    Tool.txChains (this w1) = Tool.txChains (this w) ++ emitted
    /\ forall k chain,
         nth_error emitted k = Some chain ->
         P (slice contexts (24 * k) (24 * k + inscriptionsInChain (length contexts) k))
           chain.
Proof.
  intros HP Hn Hm H contexts.
  apply buildEnhancedInscriptionChains_ok in H as (built & Hlen & _ & Hb & Hw1);
    [| assumption | assumption].
  exists (map fst built).
  destruct (extendWith_contexts (length contexts) built (this w) 0) as (_ & _ & _ & Hc).
  split; [rewrite Hw1; exact Hc |].
  intros k chain Hk. rewrite nth_error_map in Hk.
  destruct (nth_error built k) as [[c f] |] eqn:Hnth; [| discriminate].
  cbn in Hk. inversion Hk. subst c.
  assert (Hlt : k < length built) by (apply nth_error_Some; congruence).
  destruct (@chainsBuilt_nth _ _ _ _ _ _ _ _ built 0 k Hb Hlt)
    as (c' & f' & Hnth' & (utxo & _ & Hsh & _)).
  rewrite Hnth in Hnth'. inversion Hnth'. subst c' f'.
  eapply HP. exact Hsh.
Qed.

(** The rules on change outputs, for the chain assembled from [utxo]
    over [inscriptions]. *)
Definition change_rules (network : Network) (utxo : PrevOutput.t)
  (inscriptions : list InscriptionTxCtxData.t)
  (revealOutValue : Z) (revealFeeRate : Q) (finalChangeAddress : string)
  (minChangeValue : Z) (commitFeeRate : Q) (inscriptionCtxStartIndex chainIndex : nat)
  : Prop :=
  (* in a built chain a change output is worth at least the minimum, and
     only the final reveal can be without one *)
  (forall w chain w1,
      inscriptions <> [] ->
      buildSingleUtxoChain network utxo inscriptions revealOutValue revealFeeRate
        finalChangeAddress minChangeValue commitFeeRate inscriptionCtxStartIndex chainIndex w
      = inr (chain, w1) ->
      change_kept_or_final inscriptions minChangeValue chain)
  /\ (forall i ctx txChain prevTx available prevOutputIndex w w1 changePkScript est first,
        String.eqb (changeAddressOf inscriptions finalChangeAddress i) "" = false ->
        toOutputScript (changeAddressOf inscriptions finalChangeAddress i) network
        = inr changePkScript ->
        estimateFeeAndOutput
          (revealSkeleton prevTx prevOutputIndex (InscriptionTxCtxData.revealPkScript ctx)
             revealOutValue changePkScript)
          [simulatedInput utxo first available] revealFeeRate available
          revealOutValue minChangeValue false (Some ctx) w = inr (est, w1) ->
        Estimate.changeAmount est = CHANGE_DROPPED ->
        let step :=
          revealStep network utxo inscriptions revealOutValue revealFeeRate
            finalChangeAddress minChangeValue inscriptionCtxStartIndex chainIndex first
            i ctx txChain prevTx available prevOutputIndex in
        (* on a reveal that is not the last one: an error, and with it
           the loop over the remaining inscriptions ends *)
        (i <> length inscriptions - 1 ->
         exists e,
           step w = inl e
           /\ forall pending,
                revealLoop network utxo inscriptions revealOutValue revealFeeRate
                  finalChangeAddress minChangeValue inscriptionCtxStartIndex chainIndex
                  first (ctx :: pending) i txChain prevTx available prevOutputIndex w
                = inl e)
        (* on the last one: the change output is removed, the fee is
           estimated again and entered, nothing is left to spend *)
        /\ (i = length inscriptions - 1 ->
            forall est' w2,
              let revealTx :=
                set_outs
                  [Output.mk (InscriptionTxCtxData.revealPkScript ctx) revealOutValue]
                  (revealSkeleton prevTx prevOutputIndex
                     (InscriptionTxCtxData.revealPkScript ctx) revealOutValue
                     changePkScript) in
              estimateFeeAndOutput revealTx [simulatedInput utxo first available]
                revealFeeRate available revealOutValue 0 false (Some ctx) w1
              = inr (est', w2) ->
              step w
              = inr (LoopState.mk (txChain ++ [revealTx]) revealTx 0 None,
                     mkWorld (recorded chainIndex (length txChain) (Estimate.fee est')
                                (Some (inscriptionCtxStartIndex + i)) (this w2))
                             (draws w2)))).

(** C3.  In a successfully built chain every change output a reveal
    keeps is worth at least [min_change_value], and only the final reveal
    can be without one.  When the estimator answers CHANGE_DROPPED for a
    reveal that is not the final one, the round throws and the build of
    the chain ends with that error; for the final reveal the change
    output is removed, the fee estimated again for the smaller
    transaction is the one recorded, and the available balance becomes
    0.  The same holds of every chain the planner emits. *)
Theorem change_dropped_only_at_the_end (network : Network) (utxo : PrevOutput.t)
  (inscriptions : list InscriptionTxCtxData.t)
  (revealOutValue : Z) (revealFeeRate : Q) (finalChangeAddress : string)
  (minChangeValue : Z) (commitFeeRate : Q) (inscriptionCtxStartIndex chainIndex : nat) :
  change_rules network utxo inscriptions revealOutValue revealFeeRate finalChangeAddress
    minChangeValue commitFeeRate inscriptionCtxStartIndex chainIndex
  /\ (forall commitTxPrevOutputList w u w1,
        1 <= length (Tool.inscriptionTxCtxDataList (this w)) ->
        1 <= length commitTxPrevOutputList ->
        buildEnhancedInscriptionChains network commitTxPrevOutputList revealOutValue
          revealFeeRate finalChangeAddress minChangeValue commitFeeRate w = inr (u, w1) ->
        let contexts := Tool.inscriptionTxCtxDataList (this w) in
        exists emitted,
          Tool.txChains (this w1) = Tool.txChains (this w) ++ emitted
          /\ forall k chain,
               nth_error emitted k = Some chain ->
               change_kept_or_final
                 (slice contexts (24 * k)
                    (24 * k + inscriptionsInChain (length contexts) k))
                 minChangeValue chain).
Proof.
  split; [split |].
  - intros w chain w1 Hne H.
    apply buildSingleUtxoChain_ok in H as (fees & Hsh & _); [| exact Hne].
    eapply chainShape_change_kept_or_final. exact Hsh.
  - intros i ctx txChain prevTx available prevOutputIndex w w1 changePkScript est first
      Ha Hs He Hd step. split.
    + intros Hi.
      assert (Hfail : exists e, step w = inl e)
        by (subst step; eapply revealStep_dropped_nonfinal; eassumption).
      destruct Hfail as [e Hstep]. exists e. split; [exact Hstep |].
      intros pending. cbn [revealLoop]. apply bind_fail. exact Hstep.
    + intros Hi est' w2 revealTx He'.
      eapply revealStep_dropped_final; eassumption.
  - intros utxos w u w1 Hn Hm H contexts.
    eapply emitted_chains_have
      with (P := fun inscriptions chain =>
                   change_kept_or_final inscriptions minChangeValue chain);
      try eassumption.
    intros ins0 utxo0 chain fees Hsh.
    eapply chainShape_change_kept_or_final. exact Hsh.
Qed.

(** C4.  In a built chain every reveal has exactly one input, which
    spends the change-bearing output of the transaction before it:
    output 0 of the commit (its only output), output 1 of a reveal.  Its
    outputs are the dust for the recipient and then the change; the
    script of the change output is that of the next inscription's commit
    address for a reveal that is not the last one (the next context's
    commit script, where address and script of that context belong
    together) and that of the final change address for the last one. *)
Theorem reveals_spend_previous_change (network : Network) (utxo : PrevOutput.t)
  (inscriptions : list InscriptionTxCtxData.t)
  (revealOutValue : Z) (revealFeeRate : Q) (finalChangeAddress : string)
  (minChangeValue : Z) (commitFeeRate : Q) (inscriptionCtxStartIndex chainIndex : nat) :
  (forall w chain w1,
      inscriptions <> [] ->
      buildSingleUtxoChain network utxo inscriptions revealOutValue revealFeeRate
        finalChangeAddress minChangeValue commitFeeRate inscriptionCtxStartIndex chainIndex w
      = inr (chain, w1) ->
      reveals_linked network inscriptions revealOutValue finalChangeAddress chain)
  /\ (forall commitTxPrevOutputList w u w1,
        1 <= length (Tool.inscriptionTxCtxDataList (this w)) ->
        1 <= length commitTxPrevOutputList ->
        buildEnhancedInscriptionChains network commitTxPrevOutputList revealOutValue
          revealFeeRate finalChangeAddress minChangeValue commitFeeRate w = inr (u, w1) ->
        let contexts := Tool.inscriptionTxCtxDataList (this w) in
        exists emitted,
          Tool.txChains (this w1) = Tool.txChains (this w) ++ emitted
          /\ forall k chain,
               nth_error emitted k = Some chain ->
               reveals_linked network
                 (slice contexts (24 * k)
                    (24 * k + inscriptionsInChain (length contexts) k))
                 revealOutValue finalChangeAddress chain).
Proof.
  split.
  - intros w chain w1 Hne H.
    apply buildSingleUtxoChain_ok in H as (fees & Hsh & _); [| exact Hne].
    eapply chainShape_reveals_linked. exact Hsh.
  - intros utxos w u w1 Hn Hm H contexts.
    eapply emitted_chains_have
      with (P := fun inscriptions chain =>
                   reveals_linked network inscriptions revealOutValue finalChangeAddress
                     chain);
      try eassumption.
    intros ins0 utxo0 chain fees Hsh.
    eapply chainShape_reveals_linked. exact Hsh.
Qed.

Lemma feeEntries_nth chainIndex : forall fees txIndex j fee,
  nth_error fees j = Some fee ->
  nth_error (feeEntries chainIndex txIndex fees) j
  = Some (TxFee.mk chainIndex (txIndex + j) fee).
Proof.
  induction fees as [| f fees IH]; intros txIndex j fee H; [destruct j; discriminate |].
  destruct j as [| j]; cbn [feeEntries nth_error] in *.
  - inversion H. rewrite Nat.add_0_r. reflexivity.
  - rewrite (IH (S txIndex) j fee H). f_equal. f_equal. lia.
Qed.

(** C9 (amended).  With a minimum change that is not negative: when the
    final reveal of a built chain has no change output, the value its
    input spends is at least the dust plus the fee entered for that
    transaction in the fee ledger (entry [j] of the chain is the fee of
    transaction [j]); it need not be equal, the rest is left to the
    miners. *)
Theorem dropped_change_input_covers_dust_and_fee (network : Network) (utxo : PrevOutput.t)
  (inscriptions : list InscriptionTxCtxData.t)
  (revealOutValue : Z) (revealFeeRate : Q) (finalChangeAddress : string)
  (minChangeValue : Z) (commitFeeRate : Q) (inscriptionCtxStartIndex chainIndex : nat)
  (w : World) (chain : list Transaction) (w1 : World) :
  (0 <= minChangeValue)%Z ->
  inscriptions <> [] ->
  buildSingleUtxoChain network utxo inscriptions revealOutValue revealFeeRate
    finalChangeAddress minChangeValue commitFeeRate inscriptionCtxStartIndex chainIndex w
  = inr (chain, w1) ->
  exists fees,
    Tool.txFees (this w1) = Tool.txFees (this w) ++ feeEntries chainIndex 0 fees
    /\ length fees = length chain
    /\ (forall j fee,
          nth_error fees j = Some fee ->
          nth_error (feeEntries chainIndex 0 fees) j = Some (TxFee.mk chainIndex j fee))
    /\ dropped_change_covered inscriptions revealOutValue chain fees.
Proof.
  intros Hmin Hne H.
  apply buildSingleUtxoChain_ok in H as (fees & Hsh & Hlen & Hw); [| exact Hne].
  exists fees. split; [rewrite Hw; reflexivity |].
  split; [rewrite (chainShape_length Hsh), Hlen; reflexivity |].
  split; [intros j fee Hj; apply (feeEntries_nth chainIndex fees 0 j Hj) |].
  eapply chainShape_dropped_change_covered; eassumption.
Qed.

End ChainClaims.

Section ChainExamples.
#[local] Existing Instance Reference.externals.

(** A chain of one inscription funded with 1200 satoshi: its only
    reveal is the final one and drops the change. *)
Lemma change_dropped_only_at_the_end_witness :
  exists chain w1,
    Reference.contextsOf 1 <> []
    /\ buildSingleUtxoChain testnet (Reference.utxoOf "aa" 1200) (Reference.contextsOf 1)
         546 (5 # 2) "Qchange" 546 2 0 0 (Reference.worldOf 1) = inr (chain, w1)
    /\ change_kept_or_final (Reference.contextsOf 1) 546 chain
    /\ map (fun tx => map Output.value (outs tx)) chain = [[978%Z]; [546%Z]].
Proof.
  destruct (change_dropped_only_at_the_end testnet (Reference.utxoOf "aa" 1200)
              (Reference.contextsOf 1) 546 (5 # 2) "Qchange" 546 2 0 0)
    as [[Hchain _] _].
  eexists _, _. split; [vm_compute; discriminate |].
  split; [vm_compute; reflexivity |]. split.
  - eapply (Hchain (Reference.worldOf 1)); [vm_compute; discriminate | vm_compute; reflexivity].
  - vm_compute. reflexivity.
Defined.

(** A chain of two inscriptions funded with 100000 satoshi, whose
    contexts have matching addresses and scripts. *)
Lemma reveals_spend_previous_change_witness :
  exists chain w1,
    Reference.contextsOf 2 <> []
    /\ buildSingleUtxoChain testnet (Reference.utxoOf "aa" 100000) (Reference.contextsOf 2)
         546 (5 # 2) "Qchange" 546 2 0 0 (Reference.worldOf 2) = inr (chain, w1)
    /\ reveals_linked testnet (Reference.contextsOf 2) 546 "Qchange" chain
    /\ length chain = 3
    /\ Forall (coherent testnet) (Reference.contextsOf 2).
Proof.
  destruct (reveals_spend_previous_change testnet (Reference.utxoOf "aa" 100000)
              (Reference.contextsOf 2) 546 (5 # 2) "Qchange" 546 2 0 0)
    as [Hchain _].
  eexists _, _. split; [vm_compute; discriminate |].
  split; [vm_compute; reflexivity |]. split; [| split].
  - eapply (Hchain (Reference.worldOf 2)); [vm_compute; discriminate | vm_compute; reflexivity].
  - vm_compute. reflexivity.
  - repeat constructor.
Defined.

(** The chain funded with 1200 satoshi again: the final reveal spends
    978, pays the dust of 546 and has a fee of 345 in the ledger. *)
Lemma dropped_change_input_covers_dust_and_fee_witness :
  exists chain w1,
    (0 <= 546)%Z
    /\ Reference.contextsOf 1 <> []
    /\ buildSingleUtxoChain testnet (Reference.utxoOf "aa" 1200) (Reference.contextsOf 1)
         546 (5 # 2) "Qchange" 546 2 0 0 (Reference.worldOf 1) = inr (chain, w1)
    /\ exists fees,
         Tool.txFees (this w1)
         = Tool.txFees (this (Reference.worldOf 1)) ++ feeEntries 0 0 fees
         /\ length fees = length chain
         /\ (forall j fee,
               nth_error fees j = Some fee ->
               nth_error (feeEntries 0 0 fees) j = Some (TxFee.mk 0 j fee))
         /\ dropped_change_covered (Reference.contextsOf 1) 546 chain fees.
Proof.
  eexists _, _. split; [lia |]. split; [vm_compute; discriminate |].
  split; [vm_compute; reflexivity |].
  eapply dropped_change_input_covers_dust_and_fee
    with (network := testnet) (utxo := Reference.utxoOf "aa" 1200)
         (revealFeeRate := (5 # 2)%Q) (finalChangeAddress := "Qchange"%string)
         (minChangeValue := 546%Z) (commitFeeRate := 2%Q)
         (inscriptionCtxStartIndex := 0) (w := Reference.worldOf 1);
    [lia | vm_compute; discriminate | vm_compute; reflexivity].
Defined.

(** The request with one inscription and one funding output of 1200
    satoshi succeeds; its final reveal has the dust output only, spends
    978 and has a fee of 345 in the ledger, and 978 is not 546 + 345: the
    remaining 87 satoshi are paid to the miners as well. *)
Lemma dropped_change_not_exact_counterexample :
  let r := inscribeChain testnet (Reference.requestOf [Reference.utxoOf "aa" 1200] 1) 0 in
  ChainInscribeResult.success r = true
  /\ map (fun d => (LastTxInfo.inputValue d,
                    map OutputInfo.value (LastTxInfo.outputs d),
                    LastTxInfo.fee d))
         (ChainInscribeResult.lastTxDetails r)
     = [(978%Z, [546%Z], 345%Z)]
  /\ match newChainInscriptionTool testnet
             (Reference.requestOf [Reference.utxoOf "aa" 1200] 1) 0 with
     | inr w => Tool.txFees (this w) = [TxFee.mk 0 0 222; TxFee.mk 0 1 345]
     | inl _ => False
     end
  /\ (978 <> 546 + 345)%Z.
Proof.
  cbv zeta. split; [vm_compute; reflexivity |]. split; [vm_compute; reflexivity |].
  split; [vm_compute; reflexivity | lia].
Qed.

End ChainExamples.

Section ResultClaims.
Context {ext : Externals}.

Lemma checkPrivateKeys_fail : forall utxos index w,
  Exists (fun utxo => PrevOutput.privateKey utxo = ""%string) utxos ->
  exists e, checkPrivateKeys utxos index w = inl e.
Proof.
  induction utxos as [| utxo utxos IH]; intros index w H; [inversion H |].
  cbn [checkPrivateKeys].
  destruct (String.eqb_spec (PrevOutput.privateKey utxo) "") as [E | E].
  - unfold throw. eauto.
  - inversion H; subst; [contradiction | apply IH; assumption].
Qed.

Lemma inscribeChain_failure network request seed e :
  initialize network request (mkWorld Tool.new seed) = inl e ->
  inscribeChain network request seed = failureResult e.
Proof.
  intros H. unfold inscribeChain, inscribeChainTry, newChainInscriptionTool.
  rewrite H. reflexivity.
Qed.

(** What [inscribeChain] returns when a phase of the factory throws. *)
Definition failures_are_contained (network : Network) (request : InscriptionRequest.t)
  (seed : nat) : Prop :=
  let w0 := mkWorld Tool.new seed in
  let result := inscribeChain network request seed in
  (* whatever the [try] block throws *)
  (forall e, inscribeChainTry network request seed = inl e -> result = failureResult e)
  (* the factory throws what its phases throw *)
  /\ (forall e, prepare network request w0 = inl e -> result = failureResult e)
  /\ (forall e u w1,
        prepare network request w0 = inr (u, w1) ->
        buildPhase network request w1 = inl e -> result = failureResult e)
  /\ (forall e u w1 u' w2,
        prepare network request w0 = inr (u, w1) ->
        buildPhase network request w1 = inr (u', w2) ->
        signPhase request w2 = inl e -> result = failureResult e)
  (* the checks of the request *)
  /\ (InscriptionRequest.commitTxPrevOutputList request = [] ->
      result = failureResult (mkError "输入错误：commitTxPrevOutputList 不能为空"))
  /\ (InscriptionRequest.commitTxPrevOutputList request <> [] ->
      InscriptionRequest.inscriptionDataList request = [] ->
      result = failureResult (mkError "输入错误：inscriptionDataList 不能为空"))
  /\ (InscriptionRequest.inscriptionDataList request <> [] ->
      Exists (fun utxo => PrevOutput.privateKey utxo = ""%string)
        (InscriptionRequest.commitTxPrevOutputList request) ->
      exists e, result = failureResult e)
  (* the failure result *)
  /\ (forall e,
        ChainInscribeResult.success (failureResult e) = false
        /\ ChainInscribeResult.txChains (failureResult e) = []
        /\ ChainInscribeResult.txChainTxIds (failureResult e) = []
        /\ ChainInscribeResult.lastTxDetails (failureResult e) = []
        /\ ChainInscribeResult.totalEstimatedFee (failureResult e) = 0%Z
        /\ exists msg,
             ChainInscribeResult.error (failureResult e) = Some msg /\ msg <> ""%string).

(** C7.  Whenever validation, build or signing throws, [inscribeChain]
    returns [success = false], an error message that is not empty, no
    chains, no transaction ids, no details and a total fee of 0. *)
Theorem failures_return_empty_result (network : Network) (request : InscriptionRequest.t)
  (seed : nat) :
  failures_are_contained network request seed.
Proof.
  unfold failures_are_contained. cbv zeta.
  assert (Hinit : forall e, initialize network request (mkWorld Tool.new seed) = inl e ->
                    inscribeChain network request seed = failureResult e)
    by (intros e; apply inscribeChain_failure).
  split; [| split; [| split; [| split; [| split; [| split; [| split]]]]]].
  - intros e H. unfold inscribeChain. rewrite H. reflexivity.
  - intros e H. apply Hinit. rewrite initialize_phases. apply bind_fail. exact H.
  - intros e u w1 Hp Hb. apply Hinit. rewrite initialize_phases.
    erewrite bind_run by exact Hp. apply bind_fail. exact Hb.
  - intros e u w1 u' w2 Hp Hb Hs. apply Hinit. rewrite initialize_phases.
    erewrite bind_run by exact Hp. erewrite bind_run by exact Hb. exact Hs.
  - intros Hu. apply Hinit. unfold initialize. rewrite bind_modify, Hu. reflexivity.
  - intros Hu Hd. apply Hinit. unfold initialize. rewrite bind_modify.
    destruct (InscriptionRequest.commitTxPrevOutputList request); [congruence |].
    rewrite Hd. reflexivity.
  - intros Hd Hk.
    assert (Hfail : exists e, prepare network request (mkWorld Tool.new seed) = inl e).
    { unfold prepare. rewrite bind_modify.
      destruct (InscriptionRequest.commitTxPrevOutputList request) as [| u0 us];
        [inversion Hk |].
      destruct (InscriptionRequest.inscriptionDataList request) as [| d ds];
        [congruence |].
      cbn [length Nat.eqb].
      destruct (checkPrivateKeys_fail 0
                  (mkWorld (Tool.set_network network Tool.new) seed) Hk) as [e He].
      exists e. apply bind_fail. exact He. }
    destruct Hfail as [e He]. exists e. apply Hinit.
    rewrite initialize_phases. apply bind_fail. exact He.
  - intros e. cbn. repeat split. eexists. split; [reflexivity |].
    destruct (String.eqb_spec (message e) ""); [discriminate | assumption].
Qed.

Lemma packageChain_details tool request (P : LastTxInfo.t -> Prop) acc chainIndex chain acc' :
  (forall d, LastTxInfo.revealOutValue d
             = orDefault (InscriptionRequest.revealOutValue request) DEFAULT_REVEAL_OUT_VALUE ->
             LastTxInfo.minChangeValue d
             = orDefaultOpt (InscriptionRequest.minChangeValue request)
                 DEFAULT_MIN_CHANGE_VALUE ->
             P d) ->
  Forall P (snd acc) ->
  packageChain tool request acc chainIndex chain = inr acc' ->
  Forall P (snd acc').
Proof.
  intros HP Hacc H. destruct acc as [[hexes ids] details]. unfold packageChain in H.
  destruct (length chain <? 2); [inversion H; exact Hacc |].
  destruct (nth_error chain (length chain - 1)) as [lastTx |]; [| discriminate].
  destruct (nth_error chain (length chain - 1 - 1)) as [prevTx |]; [| discriminate].
  destruct (nth_error (ins lastTx) 0) as [inputInfo |]; [| discriminate].
  destruct (length (outs prevTx) <=? Input.index inputInfo); [inversion H; exact Hacc |].
  destruct (nth_error (outs prevTx) (Input.index inputInfo)) as [spent |]; [| discriminate].
  inversion H. cbn [snd]. apply Forall_app. split; [exact Hacc |].
  constructor; [| constructor]. apply HP; reflexivity.
Qed.

Lemma packageChains_details tool request (P : LastTxInfo.t -> Prop) :
  (forall d, LastTxInfo.revealOutValue d
             = orDefault (InscriptionRequest.revealOutValue request) DEFAULT_REVEAL_OUT_VALUE ->
             LastTxInfo.minChangeValue d
             = orDefaultOpt (InscriptionRequest.minChangeValue request)
                 DEFAULT_MIN_CHANGE_VALUE ->
             P d) ->
  forall chains acc chainIndex acc',
    Forall P (snd acc) ->
    packageChains tool request acc chainIndex chains = inr acc' ->
    Forall P (snd acc').
Proof.
  intros HP. induction chains as [| chain chains IH]; intros acc chainIndex acc' Hacc H.
  - inversion H. subst. exact Hacc.
  - cbn [packageChains] in H.
    destruct (packageChain tool request acc chainIndex chain) as [e | acc1] eqn:E;
      [discriminate |].
    eapply IH; [| exact H]. eapply packageChain_details; eassumption.
Qed.

Lemma inscribeChain_details network request seed (P : LastTxInfo.t -> Prop) :
  (forall d, LastTxInfo.revealOutValue d
             = orDefault (InscriptionRequest.revealOutValue request) DEFAULT_REVEAL_OUT_VALUE ->
             LastTxInfo.minChangeValue d
             = orDefaultOpt (InscriptionRequest.minChangeValue request)
                 DEFAULT_MIN_CHANGE_VALUE ->
             P d) ->
  Forall P (ChainInscribeResult.lastTxDetails (inscribeChain network request seed)).
Proof.
  intros HP. unfold inscribeChain, inscribeChainTry.
  destruct (newChainInscriptionTool network request seed) as [e | w]; [constructor |].
  cbn [rbind].
  destruct (packageChains (this w) request ([], [], []) 0 (Tool.txChains (this w)))
    as [e | [[hexes ids] details]] eqn:E; [constructor |].
  cbn [rbind ok ChainInscribeResult.lastTxDetails].
  change details with (snd (hexes, ids, details)).
  eapply packageChains_details; [exact HP | | exact E]. constructor.
Qed.

(** The packager reads three things of the request. *)
Lemma packageChains_request tool request request' :
  InscriptionRequest.changeAddress request = InscriptionRequest.changeAddress request' ->
  orDefault (InscriptionRequest.revealOutValue request) DEFAULT_REVEAL_OUT_VALUE
  = orDefault (InscriptionRequest.revealOutValue request') DEFAULT_REVEAL_OUT_VALUE ->
  orDefaultOpt (InscriptionRequest.minChangeValue request) DEFAULT_MIN_CHANGE_VALUE
  = orDefaultOpt (InscriptionRequest.minChangeValue request') DEFAULT_MIN_CHANGE_VALUE ->
  forall chains acc chainIndex,
    packageChains tool request acc chainIndex chains
    = packageChains tool request' acc chainIndex chains.
Proof.
  intros Ha Hr Hm. induction chains as [| chain chains IH]; intros acc chainIndex;
    [reflexivity |].
  cbn [packageChains].
  replace (packageChain tool request' acc chainIndex chain)
    with (packageChain tool request acc chainIndex chain).
  - destruct (packageChain tool request acc chainIndex chain); [reflexivity | apply IH].
  - unfold packageChain. rewrite Ha, Hr, Hm. reflexivity.
Qed.

Lemma inscribeChain_request network request request' seed :
  newChainInscriptionTool network request seed
  = newChainInscriptionTool network request' seed ->
  InscriptionRequest.changeAddress request = InscriptionRequest.changeAddress request' ->
  orDefault (InscriptionRequest.revealOutValue request) DEFAULT_REVEAL_OUT_VALUE
  = orDefault (InscriptionRequest.revealOutValue request') DEFAULT_REVEAL_OUT_VALUE ->
  orDefaultOpt (InscriptionRequest.minChangeValue request) DEFAULT_MIN_CHANGE_VALUE
  = orDefaultOpt (InscriptionRequest.minChangeValue request') DEFAULT_MIN_CHANGE_VALUE ->
  inscribeChain network request seed = inscribeChain network request' seed.
Proof.
  intros Ht Ha Hr Hm. unfold inscribeChain, inscribeChainTry. rewrite <- Ht.
  destruct (newChainInscriptionTool network request seed) as [e | w]; [reflexivity |].
  cbn [rbind]. rewrite (packageChains_request (this w) request request' Ha Hr Hm).
  reflexivity.
Qed.

(** C10.  A [revealOutValue] of 0, or a [minChangeValue] of 0, in the
    request is replaced by 546: the tool is built and the result is
    packaged exactly as for the request that says 546, the build phase
    runs with 546, and every [LastTxInfo] of the result reports 546. *)
Theorem zero_is_replaced_by_546 (network : Network) (request : InscriptionRequest.t)
  (seed : nat) :
  (InscriptionRequest.revealOutValue request = 0%Z ->
   newChainInscriptionTool network request seed
   = newChainInscriptionTool network (withRevealOutValue 546 request) seed
   /\ inscribeChain network request seed
      = inscribeChain network (withRevealOutValue 546 request) seed
   /\ buildPhase network request
      = buildEnhancedInscriptionChains network
          (InscriptionRequest.commitTxPrevOutputList request) 546
          (InscriptionRequest.revealFeeRate request)
          (InscriptionRequest.changeAddress request)
          (orDefaultOpt (InscriptionRequest.minChangeValue request) 546)
          (InscriptionRequest.commitFeeRate request)
   /\ Forall (fun d => LastTxInfo.revealOutValue d = 546%Z)
        (ChainInscribeResult.lastTxDetails (inscribeChain network request seed)))
  /\ (InscriptionRequest.minChangeValue request = Some 0%Z ->
      newChainInscriptionTool network request seed
      = newChainInscriptionTool network (withMinChangeValue (Some 546%Z) request) seed
      /\ inscribeChain network request seed
         = inscribeChain network (withMinChangeValue (Some 546%Z) request) seed
      /\ buildPhase network request
         = buildEnhancedInscriptionChains network
             (InscriptionRequest.commitTxPrevOutputList request)
             (orDefault (InscriptionRequest.revealOutValue request) 546)
             (InscriptionRequest.revealFeeRate request)
             (InscriptionRequest.changeAddress request) 546
             (InscriptionRequest.commitFeeRate request)
      /\ Forall (fun d => LastTxInfo.minChangeValue d = 546%Z)
           (ChainInscribeResult.lastTxDetails (inscribeChain network request seed))).
Proof.
  split; intros H0.
  - assert (Htool : newChainInscriptionTool network request seed
                    = newChainInscriptionTool network (withRevealOutValue 546 request) seed)
      by (destruct request; cbn in H0; subst; reflexivity).
    split; [exact Htool |]. split; [| split].
    + apply inscribeChain_request; [exact Htool | reflexivity | | reflexivity].
      cbn. rewrite H0. reflexivity.
    + unfold buildPhase. rewrite H0. reflexivity.
    + apply inscribeChain_details. intros d Hr _. rewrite Hr, H0. reflexivity.
  - assert (Htool : newChainInscriptionTool network request seed
                    = newChainInscriptionTool network
                        (withMinChangeValue (Some 546%Z) request) seed)
      by (destruct request; cbn in H0; subst; reflexivity).
    split; [exact Htool |]. split; [| split].
    + apply inscribeChain_request; [exact Htool | reflexivity | reflexivity |].
      cbn. rewrite H0. reflexivity.
    + unfold buildPhase. rewrite H0. reflexivity.
    + apply inscribeChain_details. intros d _ Hm. rewrite Hm, H0. reflexivity.
Qed.

End ResultClaims.

Section ResultExamples.
#[local] Existing Instance Reference.externals.

(** Thirty inscriptions and one funding output of 250000 satoshi: the
    build phase throws for the UTXO count, and the result is empty. *)
Lemma failures_return_empty_result_witness :
  let request := Reference.requestOf [Reference.utxoOf "aa" 250000] 30 in
  exists u w1,
    prepare testnet request (mkWorld Tool.new 0) = inr (u, w1)
    /\ buildPhase testnet request w1 = inl (mkError (utxoCountInsufficient 1 30))
    /\ inscribeChain testnet request 0
       = failureResult (mkError (utxoCountInsufficient 1 30)).
Proof.
  intros request.
  destruct (failures_return_empty_result testnet request 0) as (_ & _ & Hbuild & _).
  eexists _, _. split; [vm_compute; reflexivity |].
  split; [vm_compute; reflexivity |].
  eapply Hbuild; vm_compute; reflexivity.
Defined.

(** A request that asks for a reveal output of 0 and a minimum change
    of 0. *)
Lemma zero_is_replaced_by_546_witness :
  let request :=
    withMinChangeValue (Some 0%Z)
      (withRevealOutValue 0 (Reference.requestOf [Reference.utxoOf "aa" 100000] 2)) in
  InscriptionRequest.revealOutValue request = 0%Z
  /\ inscribeChain testnet request 0
     = inscribeChain testnet (withRevealOutValue 546 request) 0
  /\ Forall (fun d => LastTxInfo.revealOutValue d = 546%Z)
       (ChainInscribeResult.lastTxDetails (inscribeChain testnet request 0))
  /\ length (ChainInscribeResult.lastTxDetails (inscribeChain testnet request 0)) = 1.
Proof.
  intros request.
  destruct (zero_is_replaced_by_546 testnet request 0) as [Hreveal _].
  destruct (Hreveal eq_refl) as (_ & Hresult & _ & Hdetails).
  split; [reflexivity |]. split; [exact Hresult |]. split; [exact Hdetails |].
  vm_compute. reflexivity.
Defined.

End ResultExamples.

Section EnvelopeClaim.
Context {ext : Externals}.


End EnvelopeClaim.

Section EnvelopeExamples.
#[local] Existing Instance Reference.externals.


End EnvelopeExamples.

Section SigningClaim.
Context {ext : Externals}.

(** C5.  In the chains of a tool, the one input of every reveal has the
    witness [sig; inscription script; control block]: sig is the Schnorr
    signature over hashForWitnessV1 (0, [script of the spent output],
    [its value], SIGHASH_DEFAULT, leaf hash of the context), made with the
    primary private key as decoded from its WIF, with no tweak, and has 64
    bytes; the control block has 33 bytes.  The key-path signature of a
    taproot funding input is made with the tweaked key instead.  The two
    lengths are those of the libraries: Schnorr signatures of 64 bytes,
    and the witness of the payment of a single leaf. *)
Theorem reveal_witness_is_signature_script_control_block
  (network : Network) (request : InscriptionRequest.t) (seed : nat) (w : World) :
  single_leaf_witness ->
  schnorr_signatures_have_64_bytes ->
  newChainInscriptionTool network request seed = inr w ->
  (exists firstUtxo rest primaryKeyHex,
      InscriptionRequest.commitTxPrevOutputList request = firstUtxo :: rest
      /\ privateKeyFromWIF (PrevOutput.privateKey firstUtxo) network = inr primaryKeyHex
      /\ forall k chain j tx,
           nth_error (Tool.txChains (this w)) k = Some chain ->
           nth_error chain j = Some tx ->
           1 <= j ->
           exists input prevOut ctx aux controlBlock,
             ins tx = [input]
             /\ nth_error (nth (j - 1) (map outs chain) []) (Input.index input)
                = Some prevOut
             /\ nth_error (Tool.inscriptionTxCtxDataList (this w)) (24 * k + (j - 1))
                = Some ctx
             /\ length controlBlock = 33
             /\ let sig :=
                  schnorr_sign
                    (hashForWitnessV1 (beforeSigning tx) 0 [Output.script prevOut]
                       [Output.value prevOut] SIGHASH_DEFAULT
                       (Some (InscriptionTxCtxData.hash ctx)))
                    (fromHex primaryKeyHex) aux in
                length sig = 64
                /\ Input.witness input
                   = [sig; InscriptionTxCtxData.inscriptionScript ctx; controlBlock])
  /\ (forall utxos tx i utxo privateKeyHex prevOutScripts w0,
        nth_error utxos i = Some utxo ->
        getAddressType (PrevOutput.address utxo) network = inr segwit_taproot ->
        privateKeyFromWIF (PrevOutput.privateKey utxo) network = inr privateKeyHex ->
        rmap (fun o => toOutputScript (PrevOutput.address o) network) utxos
        = inr prevOutScripts ->
        signInput utxos network tx i w0
        = inr (set_ins
                 (update_nth i
                    (Input.set_witness
                       [schnorr_sign
                          (hashForWitnessV1 tx i prevOutScripts (map PrevOutput.amount utxos)
                             SIGHASH_DEFAULT None)
                          (taprootTweakPrivKey (fromHex privateKeyHex))
                          (randomBytes (draws w0) 32)])
                    (ins tx))
                 tx,
               mkWorld (this w0) (S (draws w0)))).
Proof.
  intros Hleaf Hschnorr H. split.
  - apply newChainInscriptionTool_signed in H
      as (firstUtxo & rest & built & Hu & Hne & Hcreated & Hbuilt & Hlen & Hsigned).
    set (contexts := Tool.inscriptionTxCtxDataList (this w)) in *.
    assert (Hkey : exists primaryKeyHex,
               privateKeyFromWIF (PrevOutput.privateKey firstUtxo) network
               = inr primaryKeyHex).
    { destruct contexts as [| ctx0 contexts0] eqn:E; [congruence |].
      inversion Hcreated as [| d0 c0 ds cs Hc0 _]. subst.
      apply createInscriptionTxCtxData_ok in Hc0 as (hex & _ & _ & _ & Hhex & _).
      exists hex. exact Hhex. }
    destruct Hkey as (primaryKeyHex & Hkey).
    exists firstUtxo, rest, primaryKeyHex. split; [exact Hu |]. split; [exact Hkey |].
    intros k chain' j tx' Hk Hj Hpos.
    destruct (Hsigned k chain' Hk) as (chain & fees & Hnb & Houts & Htxs).
    destruct (Htxs j tx' Hj Hpos)
      as (tx & input & prevOut & ctx & aux & Htx & Hin & Hprev & Hctx & _ & ->).
    assert (Hlt : k < length built) by (apply nth_error_Some; congruence).
    destruct (@chainsBuilt_nth _ _ _ _ _ _ _ _ built 0 k Hbuilt Hlt)
      as (c0 & f0 & Hb' & (utxo0 & _ & Hshape & _)).
    rewrite Hnb in Hb'. inversion Hb'. subst c0 f0. clear Hb'.
    destruct (chainShape_reveals_linked Hshape Hpos Htx)
      as (prev & ctx1 & _ & _ & Hins & _).
    rewrite Hins in Hin. cbn in Hin. inversion Hin. subst input. clear Hin.
    destruct (Forall2_nth_error_r _ Hcreated Hctx) as (inscriptionData & _ & Hmade).
    apply createInscriptionTxCtxData_ok in Hmade
      as (hex & publicKey & chunks & payment & Hhex & _ & _ & Hscript & Hpay & Hpriv
          & _ & _ & Hwit & _).
    rewrite Hkey in Hhex. inversion Hhex. subst hex.
    destruct (Hleaf _ _ _ _ _ Hpay) as (controlBlock & Hw & Hcb).
    cbn [fst] in Hw. rewrite <- Hscript in Hw.
    exists (Input.set_witness
              (revealSignature ctx prevOut tx aux :: InscriptionTxCtxData.witness ctx)
              (Input.mk (getHash prev) (if j =? 1 then 0 else 1) []
                 DEFAULT_SEQUENCE_NUM [])),
      prevOut, ctx, aux, controlBlock.
    split; [unfold signedReveal; rewrite Hins; reflexivity |].
    split; [rewrite Houts; exact Hprev |].
    split; [exact Hctx |]. split; [exact Hcb |].
    cbn zeta. split; [apply Hschnorr |].
    erewrite beforeSigning_signedReveal by exact Hins.
    cbn [Input.set_witness Input.witness]. unfold revealSignature.
    rewrite Hpriv, Hwit, Hw. reflexivity.
  - intros utxos tx i utxo privateKeyHex prevOutScripts w0 Hi Ht Hk Hs.
    unfold signInput. rewrite Hi.
    unfold bind, lift. rewrite Ht, Hk, Hs. reflexivity.
Qed.

End SigningClaim.

Section SigningExamples.
#[local] Existing Instance Reference.externals.

Lemma pad32_length (b : Buffer) : length (Reference.pad32 b) = 32.
Proof.
  unfold Reference.pad32. rewrite length_firstn, length_app, repeat_length. lia.
Qed.

Lemma reference_single_leaf_witness : single_leaf_witness.
Proof.
  intros internalPubkey scriptTree redeem network payment H.
  inversion H. subst payment.
  exists (Byte.xc0 :: Reference.pad32 internalPubkey).
  split; [reflexivity |]. cbn [length]. rewrite pad32_length. reflexivity.
Qed.

Lemma reference_schnorr_signatures : schnorr_signatures_have_64_bytes.
Proof.
  intros hash key aux.
  change (length (firstn 64 (hash ++ key ++ aux ++ repeat Byte.x00 64)) = 64).
  rewrite length_firstn, !length_app, repeat_length. lia.
Qed.

(** Two inscriptions on one funding output of 100000 satoshi: the second
    reveal of the chain carries a signature of 64 bytes, the script and a
    control block of 33 bytes. *)
Lemma reveal_witness_is_signature_script_control_block_witness :
  let request := Reference.requestOf [Reference.utxoOf "aa" 100000] 2 in
  exists w chain tx input sig script controlBlock,
    newChainInscriptionTool testnet request 0 = inr w
    /\ nth_error (Tool.txChains (this w)) 0 = Some chain
    /\ nth_error chain 2 = Some tx
    /\ ins tx = [input]
    /\ Input.witness input = [sig; script; controlBlock]
    /\ length sig = 64
    /\ length controlBlock = 33.
Proof.
  intros request.
  set (w := match newChainInscriptionTool testnet request 0 with
            | inr w => w
            | inl _ => mkWorld Tool.new 0
            end).
  assert (H : newChainInscriptionTool testnet request 0 = inr w)
    by (vm_compute; reflexivity).
  set (chain := nth 0 (Tool.txChains (this w)) []).
  set (tx := nth 2 chain newTransaction).
  assert (Hchain : nth_error (Tool.txChains (this w)) 0 = Some chain)
    by (vm_compute; reflexivity).
  assert (Htx : nth_error chain 2 = Some tx) by (vm_compute; reflexivity).
  destruct (@reveal_witness_is_signature_script_control_block _ testnet request 0 w
              reference_single_leaf_witness reference_schnorr_signatures H)
    as [(firstUtxo & rest & primaryKeyHex & _ & _ & Hall) _].
  destruct (Hall 0 chain 2 tx Hchain Htx ltac:(lia))
    as (input & prevOut & ctx & aux & controlBlock & Hins & _ & _ & Hcb & Hsig & Hwit).
  exists w, chain, tx, input. eexists _, _, controlBlock.
  split; [exact H |]. split; [exact Hchain |]. split; [exact Htx |].
  split; [exact Hins |]. split; [exact Hwit |]. split; [exact Hsig | exact Hcb].
Defined.

End SigningExamples.

Section MismatchClaim.
Context {ext : Externals}.

(** C6.  The signer throws for a reveal whose context has a commit
    script that is not byte for byte the script of the output the reveal
    spends, and for a reveal without an entry (or with an entry without a
    context) in the mapping; the throw ends the signing of the chain, so
    no signed transaction comes back.  Hence, when the commit script of
    any context is changed after the build, signing fails, whatever the
    random bytes; this needs that address and script of the context the
    chains were built with belong together. *)
Theorem mismatched_commit_script_stops_signing (network : Network) :
  (forall chainIndex txIndex tx prevTxOutputs w input prevOut mapping contextIndex ctx,
      nth_error (ins tx) 0 = Some input ->
      nth_error prevTxOutputs (Input.index input) = Some prevOut ->
      findMapping chainIndex txIndex (Tool.chainContextMapping (this w)) = Some mapping ->
      Mapping.contextIndex mapping = Some contextIndex ->
      nth_error (Tool.inscriptionTxCtxDataList (this w)) contextIndex = Some ctx ->
      Buffer_.equals (InscriptionTxCtxData.commitTxAddressPkScript ctx)
        (Output.script prevOut) = false ->
      signReveal chainIndex txIndex tx prevTxOutputs w
      = inl (mkError "签名错误：花费脚本与预期上下文不匹配")
      /\ forall initialUtxo txs,
           1 <= txIndex ->
           signChainTxs initialUtxo chainIndex (tx :: txs) txIndex prevTxOutputs w
           = inl (mkError ("签名错误 (链 " ++ show_nat chainIndex ++ ", TX "
                           ++ show_nat txIndex
                           ++ "): 签名错误：花费脚本与预期上下文不匹配")))
  /\ (forall chainIndex txIndex tx prevTxOutputs w,
        findMapping chainIndex txIndex (Tool.chainContextMapping (this w)) = None
        \/ (exists mapping,
              findMapping chainIndex txIndex (Tool.chainContextMapping (this w))
              = Some mapping
              /\ Mapping.contextIndex mapping = None) ->
        exists e, signReveal chainIndex txIndex tx prevTxOutputs w = inl e)
  /\ (forall a b, Buffer_.equals a b = true <-> a = b)
  /\ (forall request seed u0 w0 u1 w1 c ctx ctx' contexts' d,
        prepare network request (mkWorld Tool.new seed) = inr (u0, w0) ->
        buildPhase network request w0 = inr (u1, w1) ->
        nth_error (Tool.inscriptionTxCtxDataList (this w1)) c = Some ctx ->
        coherent network ctx ->
        nth_error contexts' c = Some ctx' ->
        InscriptionTxCtxData.commitTxAddressPkScript ctx'
        <> InscriptionTxCtxData.commitTxAddressPkScript ctx ->
        exists e,
          signPhase request
            (mkWorld (Tool.set_inscriptionTxCtxDataList contexts' (this w1)) d) = inl e).
Proof.
  split; [| split; [| split]].
  - intros chainIndex txIndex tx prevTxOutputs w input prevOut mapping contextIndex ctx
      Hi Hp Hm Hc Hx Hne.
    assert (Hstep : signReveal chainIndex txIndex tx prevTxOutputs w
                    = inl (mkError "签名错误：花费脚本与预期上下文不匹配")).
    { eapply signReveal_mismatch; try eassumption.
      intros E. apply Buffer_equals_spec in E. congruence. }
    split; [exact Hstep |].
    intros initialUtxo txs Hpos. cbn [signChainTxs].
    replace (txIndex =? 0) with false by (symmetry; apply Nat.eqb_neq; lia).
    apply bind_fail. unfold rethrow. rewrite Hstep. reflexivity.
  - intros chainIndex txIndex tx prevTxOutputs w H.
    apply signReveal_no_context. exact H.
  - apply Buffer_equals_spec.
  - intros request seed u0 w0 u1 w1 c ctx ctx' contexts' d Hp Hb Hc Hco Hc' Hne.
    eapply corrupted_context_stops_signing; eassumption.
Qed.

End MismatchClaim.

Section MismatchExamples.
#[local] Existing Instance Reference.externals.

(** Two inscriptions on one funding output: as built, the chain is
    signed; with the commit script of the second context emptied,
    signing fails. *)
Lemma mismatched_commit_script_stops_signing_witness :
  let request := Reference.requestOf [Reference.utxoOf "aa" 100000] 2 in
  exists w0 w1 ctx,
    prepare testnet request (mkWorld Tool.new 0) = inr (tt, w0)
    /\ buildPhase testnet request w0 = inr (tt, w1)
    /\ nth_error (Tool.inscriptionTxCtxDataList (this w1)) 1 = Some ctx
    /\ (exists r, signPhase request w1 = inr r)
    /\ exists e,
         signPhase request
           (mkWorld
              (Tool.set_inscriptionTxCtxDataList
                 [Reference.contextAt 2 0;
                  InscriptionTxCtxData.set_commitTxAddressPkScript [] ctx]
                 (this w1))
              7) = inl e.
Proof.
  intros request.
  set (w0 := match prepare testnet request (mkWorld Tool.new 0) with
             | inr (_, w) => w
             | inl _ => mkWorld Tool.new 0
             end).
  set (w1 := match buildPhase testnet request w0 with
             | inr (_, w) => w
             | inl _ => mkWorld Tool.new 0
             end).
  set (ctx := Reference.contextAt 2 1).
  assert (Hp : prepare testnet request (mkWorld Tool.new 0) = inr (tt, w0))
    by (vm_compute; reflexivity).
  assert (Hb : buildPhase testnet request w0 = inr (tt, w1))
    by (vm_compute; reflexivity).
  assert (Hc : nth_error (Tool.inscriptionTxCtxDataList (this w1)) 1 = Some ctx)
    by (vm_compute; reflexivity).
  exists w0, w1, ctx. split; [exact Hp |]. split; [exact Hb |]. split; [exact Hc |].
  split.
  { eexists. vm_compute. reflexivity. }
  destruct (mismatched_commit_script_stops_signing testnet) as (_ & _ & _ & Hcorrupt).
  eapply (Hcorrupt request 0 tt w0 tt w1 1 ctx); try eassumption.
  - vm_compute. reflexivity.
  - reflexivity.
  - intros E. vm_compute in E. discriminate.
Defined.

End MismatchExamples.

(** * Further properties of the builder, the signer and the packager *)

(** What a transaction spends and pays, as opposed to how its inputs
    are unlocked. *)
Definition outpoint (i : Input.t) : Buffer * nat * Z :=
  (Input.hash i, Input.index i, Input.sequence i).

Definition sameSpending (tx tx' : Transaction) : Prop :=
  version tx' = version tx
  /\ locktime tx' = locktime tx
  /\ outs tx' = outs tx
  /\ map outpoint (ins tx') = map outpoint (ins tx).

(** The fees entered in a fee ledger. *)
Definition ledgerFees (fees : list TxFee.t) : list Z := map TxFee.fee fees.

(** The fee entries of the chains of a layout, the first of which has
    the chain index [c]. *)
Fixpoint layoutFees (c : nat) (built : list (list Transaction * list Z)) : list TxFee.t :=
  match built with
  | [] => []
  | (_, fees) :: built' => feeEntries c 0 fees ++ layoutFees (S c) built'
  end.

Section Unlocking.
Context {ext : Externals}.

(** Input [input'] is [input] as [signTx] leaves it for a funding output
    of the given address type, whose key is [privateKey]: a key-path
    Schnorr signature with the tweaked key for taproot, a P2PKH input
    script for legacy, signature and public key in the witness for
    native segwit, and the same with the redeem script for nested
    segwit. *)
Definition unlocked (addressType : AddressType) (privateKey : Buffer)
  (input input' : Input.t) : Prop :=
  let publicKey := private2public (toHex privateKey) in
  outpoint input' = outpoint input
  /\ match addressType with
     | segwit_taproot =>
         Input.script input' = Input.script input
         /\ exists hash aux,
              Input.witness input'
              = [schnorr_sign hash (taprootTweakPrivKey privateKey) aux]
     | legacy =>
         Input.witness input' = Input.witness input
         /\ exists hash,
              Input.script input'
              = p2pkh_input
                  (signature_encode (sign hash (toHex privateKey)) SIGHASH_ALL) publicKey
     | segwit_native =>
         Input.script input' = Input.script input
         /\ exists hash,
              Input.witness input'
              = [signature_encode (sign hash (toHex privateKey)) SIGHASH_ALL; publicKey]
     | segwit_nested =>
         Input.script input' = [Byte.x16; Byte.x00; Byte.x14] ++ hash160 publicKey
         /\ exists hash,
              Input.witness input'
              = [signature_encode (sign hash (toHex privateKey)) SIGHASH_ALL; publicKey]
     end.

End Unlocking.

Section Laws.
Context {ext : Externals}.

(** The transaction hash the chain links by does not cover witnesses. *)
Definition hash_ignores_witnesses : Prop :=
  forall tx i witness,
    getHash (set_ins (update_nth i (Input.set_witness witness) (ins tx)) tx) = getHash tx.

End Laws.

Section PackagerNotions.
Context {ext : Externals}.

(** A chain the packager makes a [LastTxInfo] for: at least two
    transactions, the last with an input that names an output of the one
    before it. *)
Definition packable (chain : list Transaction) : Prop :=
  exists lastTx prevTx inputInfo spent,
    2 <= length chain
    /\ nth_error chain (length chain - 1) = Some lastTx
    /\ nth_error chain (length chain - 2) = Some prevTx
    /\ nth_error (ins lastTx) 0 = Some inputInfo
    /\ nth_error (outs prevTx) (Input.index inputInfo) = Some spent.

(** The context the packager finds for the last transaction of chain
    [chainIndex]. *)
Definition lastContext (tool : Tool.t) (chainIndex lastTxIndex : nat)
  : option InscriptionTxCtxData.t :=
  match findMapping chainIndex lastTxIndex (Tool.chainContextMapping tool) with
  | Some m =>
      match Mapping.contextIndex m with
      | Some c => nth_error (Tool.inscriptionTxCtxDataList tool) c
      | None => None
      end
  | None => None
  end.

(** [detail] describes the last transaction of [chain]. *)
Definition describesLastTx (tool : Tool.t) (request : InscriptionRequest.t)
  (chainIndex : nat) (chain : list Transaction) (detail : LastTxInfo.t) : Prop :=
  exists lastTx prevTx inputInfo spent,
    nth_error chain (length chain - 1) = Some lastTx
    /\ nth_error chain (length chain - 2) = Some prevTx
    /\ nth_error (ins lastTx) 0 = Some inputInfo
    /\ nth_error (outs prevTx) (Input.index inputInfo) = Some spent
    /\ LastTxInfo.txId detail = getId lastTx
    /\ LastTxInfo.hex detail = tx_toHex lastTx
    /\ LastTxInfo.inputTxId detail = getId prevTx
    /\ LastTxInfo.inputVout detail = Input.index inputInfo
    /\ LastTxInfo.inputValue detail = Output.value spent
    /\ LastTxInfo.outputs detail
       = map (fun o => OutputInfo.mk (toString_hex (Output.script o)) (Output.value o))
             (outs lastTx)
    /\ LastTxInfo.fee detail
       = match findFee chainIndex (length chain - 1) (Tool.txFees tool) with
         | Some f => TxFee.fee f
         | None => 0%Z
         end
    /\ LastTxInfo.finalChangeAddress detail = InscriptionRequest.changeAddress request
    /\ LastTxInfo.network detail = Tool.network tool
    /\ LastTxInfo.signingPrivateKeyWIF detail
       = match lastContext tool chainIndex (length chain - 1) with
         | Some c => private2Wif (InscriptionTxCtxData.privateKey c) (Tool.network tool)
         | None => ""%string
         end
    /\ LastTxInfo.prevInputPkScriptHex detail
       = match lastContext tool chainIndex (length chain - 1) with
         | Some c => toString_hex (InscriptionTxCtxData.commitTxAddressPkScript c)
         | None => ""%string
         end
    /\ LastTxInfo.tapScriptTreeHashHex detail
       = match lastContext tool chainIndex (length chain - 1) with
         | Some c => toString_hex (InscriptionTxCtxData.hash c)
         | None => ""%string
         end.

End PackagerNotions.

(** * [calculateSigHash]

    The function is kept in the file beside the builder; it needs three
    script classifiers and the P2WPKH payment of the transaction
    library. *)
Class ScriptKinds : Type := {
  isP2TR : Buffer -> bool;
  isP2PKH : Buffer -> bool;
  isP2SHScript : Buffer -> bool;
  p2wpkh_witness : Buffer -> Buffer -> list Buffer
}.

Section SigHash.
Context {ext : Externals} {kinds : ScriptKinds}.

Definition missingPublicKey (i : nat) : string :=
  ("计算签名哈希错误 (输入索引 " ++ show_nat i ++ "): PrevOutput 中缺少 publicKey")%string.

(** The body of [tx.ins.forEach ((input, i) => ...)]: the transaction
    with the placeholder of input [i], and the hash of input [i] in
    hex. *)
Definition sigHashInput (prevOutFetcher : list PrevOutput.t) (network : Network)
  (tx : Transaction) (i : nat) : Result (Transaction * string) :=
  match nth_error prevOutFetcher i with
  | None => fail "Cannot read properties of undefined (reading 'publicKey')"
  | Some entry =>
    let present :=
      match PrevOutput.publicKey entry with
      | None => false
      | Some hex => negb (String.eqb hex "")
      end in
    if negb present then fail (missingPublicKey i)
    else
      (let publicKey :=
         fromHex (match PrevOutput.publicKey entry with Some hex => hex | None => "" end) in
       pkScript <- toOutputScript (PrevOutput.address entry) network ;;
       let placeholderSignature := Buffer_.alloc 64 in
       if isP2TR pkScript then
         prevOutScripts <-
           rmap (fun o => toOutputScript (PrevOutput.address o) network) prevOutFetcher ;;
         let values := map PrevOutput.amount prevOutFetcher in
         let sigHash := hashForWitnessV1 tx i prevOutScripts values SIGHASH_DEFAULT None in
         ok (set_ins (update_nth i (Input.set_witness [placeholderSignature]) (ins tx)) tx,
             toHex sigHash)
       else if isP2PKH pkScript then
         let prevScript := pkScript in
         let sigHash := hashForSignature tx i prevScript SIGHASH_ALL in
         ok (set_ins
               (update_nth i
                  (Input.set_script
                     (p2pkh_input (signature_encode placeholderSignature SIGHASH_ALL)
                        publicKey))
                  (ins tx)) tx,
             toHex sigHash)
       else
         let pubKeyHash := hash160 publicKey in
         let prevOutScript :=
           [Byte.x19; Byte.x76; Byte.xa9; Byte.x14] ++ pubKeyHash ++ [Byte.x88; Byte.xac] in
         let sigHash :=
           hashForWitness tx i prevOutScript (PrevOutput.amount entry) SIGHASH_ALL in
         let tx1 :=
           set_ins
             (update_nth i
                (Input.set_witness
                   (p2wpkh_witness publicKey
                      (signature_encode placeholderSignature SIGHASH_ALL)))
                (ins tx)) tx in
         let redeemScript := [Byte.x16; Byte.x00; Byte.x14] ++ pubKeyHash in
         let tx2 :=
           if isP2SHScript pkScript
           then set_ins (update_nth i (Input.set_script redeemScript) (ins tx1)) tx1
           else tx1 in
         ok (tx2, toHex sigHash))%result
  end.

(** [tx.ins.forEach]: inputs [i], [i + 1], ... ([n] of them); the
    hashes are appended to [sigHashList]. *)
Fixpoint sigHashInputs (prevOutFetcher : list PrevOutput.t) (network : Network)
  (n i : nat) (tx : Transaction) (sigHashList : list string)
  : Result (list string * Transaction) :=
  match n with
  | O => ok (sigHashList, tx)
  | S n' =>
      (r <- sigHashInput prevOutFetcher network tx i ;;
       let '(tx', sigHash) := r in
       sigHashInputs prevOutFetcher network n' (S i) tx' (sigHashList ++ [sigHash]))%result
  end.

(** [calculateSigHash (tx, prevOutFetcher, network)]: the list it
    returns, and the transaction as it leaves it. *)
Definition calculateSigHash (tx : Transaction) (prevOutFetcher : list PrevOutput.t)
  (network : Network) : Result (list string * Transaction) :=
  sigHashInputs prevOutFetcher network (length (ins tx)) 0 tx [].

(** An entry that has its public key. *)
Definition hasPublicKey (entry : PrevOutput.t) : Prop :=
  exists hex, PrevOutput.publicKey entry = Some hex /\ hex <> ""%string.

End SigHash.

(** The inscriptions of the chains [k], [k + 1], ... ([count] of them)
    of a layout of [n]. *)
Definition inscriptionsFrom (n k count : nat) : nat :=
  fold_right Nat.add 0 (map (fun i => inscriptionsInChain n (k + i)) (seq 0 count)).

Section FactoryState.
Context {ext : Externals}.

Lemma extendWith_fees n : forall built t k,
  Tool.txFees (extendWith n t k built)
  = Tool.txFees t ++ layoutFees (length (Tool.txChains t)) built
  /\ Tool.totalEstimatedFee (extendWith n t k built)
     = (Tool.totalEstimatedFee t + sumZ (map (fun b => sumZ (snd b)) built))%Z.
Proof.
  induction built as [| [txChain fees] built IH]; intros t k;
    cbn [extendWith layoutFees map snd sumZ fold_right].
  - rewrite app_nil_r. split; [reflexivity | lia].
  - destruct (IH (Tool.set_txChains (Tool.txChains t ++ [txChain])
                    (withLedger t (sumZ fees)
                       (chainMappings (length (Tool.txChains t)) (24 * k)
                          (inscriptionsInChain n k))
                       (feeEntries (length (Tool.txChains t)) 0 fees))) (S k))
      as [H1 H2].
    rewrite H1, H2. clear H1 H2 IH.
    unfold Tool.set_txChains, withLedger.
    cbn [Tool.txFees Tool.totalEstimatedFee Tool.txChains].
    rewrite <- app_assoc, length_app. cbn [length].
    replace (length (Tool.txChains t) + 1) with (S (length (Tool.txChains t))) by lia.
    split; [reflexivity |]. unfold sumZ. lia.
Qed.

Lemma ledgerFees_feeEntries : forall fees c i, ledgerFees (feeEntries c i fees) = fees.
Proof.
  induction fees as [| fee fees IH]; intros c i; cbn; [reflexivity |].
  unfold ledgerFees in IH. rewrite IH. reflexivity.
Qed.

Lemma length_feeEntries : forall fees c i, length (feeEntries c i fees) = length fees.
Proof.
  intros fees c i. rewrite <- (ledgerFees_feeEntries fees c i) at 2.
  unfold ledgerFees. rewrite length_map. reflexivity.
Qed.

Lemma sumZ_app : forall a b, sumZ (a ++ b) = (sumZ a + sumZ b)%Z.
Proof.
  induction a as [| x a IH]; intros b; cbn; [reflexivity |].
  fold (sumZ (a ++ b)). fold (sumZ a). rewrite IH. lia.
Qed.

Lemma ledgerFees_layoutFees : forall built c,
  sumZ (ledgerFees (layoutFees c built)) = sumZ (map (fun b => sumZ (snd b)) built).
Proof.
  induction built as [| [txChain fees] built IH]; intros c; [reflexivity |].
  cbn [layoutFees map snd]. unfold ledgerFees in *. rewrite map_app, sumZ_app.
  fold (ledgerFees (feeEntries c 0 fees)). rewrite ledgerFees_feeEntries, IH.
  reflexivity.
Qed.

(** The state of a tool the factory returns: the instance after the
    preparation, extended by the chains of the layout, with the chains
    replaced by the signed ones. *)
Lemma newChainInscriptionTool_state network request seed w :
  newChainInscriptionTool network request seed = inr w ->
  let utxos := InscriptionRequest.commitTxPrevOutputList request in
  let revealOutValue :=
    orDefault (InscriptionRequest.revealOutValue request) DEFAULT_REVEAL_OUT_VALUE in
  let minChangeValue :=
    orDefaultOpt (InscriptionRequest.minChangeValue request) DEFAULT_MIN_CHANGE_VALUE in
  exists w0 contexts built chains' w1 w',
    prepare network request (mkWorld Tool.new seed) = inr (tt, w0)
    /\ Tool.inscriptionTxCtxDataList (this w0) = contexts
    /\ 1 <= length contexts
    /\ length contexts = length (InscriptionRequest.inscriptionDataList request)
    /\ Tool.txChains (this w0) = []
    /\ Tool.chainContextMapping (this w0) = []
    /\ Tool.txFees (this w0) = []
    /\ Tool.totalEstimatedFee (this w0) = 0%Z
    /\ Tool.network (this w0) = network
    /\ length built = chainCount (length contexts)
    /\ length built <= length utxos
    /\ chainsBuilt network utxos revealOutValue (InscriptionRequest.changeAddress request)
         minChangeValue (length contexts) contexts 0 built
    /\ this w1 = extendWith (length contexts) (this w0) 0 built
    /\ signChains utxos (map fst built) 0 w1 = inr (chains', w')
    /\ this w = Tool.set_txChains chains' (this w1)
    /\ Forall (fun utxo => String.eqb (PrevOutput.privateKey utxo) "" = false) utxos
    /\ Tool.chainContextMapping (this w1) = layoutMappings (length contexts) 0 0 built
    /\ Tool.inscriptionTxCtxDataList (this w1) = contexts
    /\ Tool.network (this w1) = network
    /\ Tool.txFees (this w1) = layoutFees 0 built.
Proof.
  intros H utxos revealOutValue minChangeValue.
  apply newChainInscriptionTool_ok in H as (w0 & w1 & chains' & w' & Hp & Hb & Hs & Hw' & Hw).
  pose proof Hp as Hp0.
  apply prepare_ok in Hp
    as (firstUtxo & rest & ctxs & Hu & Hd & Hkeys & Hc & _ & Hnet & Hctx & Hchains & Hmap
        & Hfees & Htotal).
  assert (Hlen : length ctxs = length (InscriptionRequest.inscriptionDataList request))
    by (eapply rmap_length; exact Hc).
  assert (Hn : 1 <= length (Tool.inscriptionTxCtxDataList (this w0))).
  { rewrite Hctx, Hlen.
    destruct (InscriptionRequest.inscriptionDataList request); [congruence | cbn; lia]. }
  unfold buildPhase in Hb.
  apply buildEnhancedInscriptionChains_ok in Hb as (built & Hbl & Hbm & Hbuilt & Hw1);
    [| exact Hn | rewrite Hu; cbn; lia].
  destruct (extendWith_contexts (length (Tool.inscriptionTxCtxDataList (this w0)))
              built (this w0) 0) as (Hx1 & Hx2 & _ & Hx4).
  pose proof (extendWith_mappings (length (Tool.inscriptionTxCtxDataList (this w0)))
                built (this w0) 0) as Hx5.
  destruct (extendWith_fees (length (Tool.inscriptionTxCtxDataList (this w0)))
              built (this w0) 0) as [Hx6 _].
  rewrite <- Hw1 in Hx1, Hx2, Hx4, Hx5, Hx6.
  rewrite Hchains in Hx4, Hx5, Hx6. rewrite Hmap in Hx5. rewrite Hfees in Hx6.
  cbn [app length] in Hx4, Hx5, Hx6.
  rewrite Hx4 in Hs. rewrite Hctx in *. rewrite <- Hu in Hkeys.
  exists w0, ctxs, built, chains', w1, w'.
  repeat (split; [first [assumption | reflexivity | congruence] |]). exact Hx6.
Qed.

End FactoryState.

Section SignerProperties.
Context {ext : Externals}.

Lemma nth_error_update_nth {A} (f : A -> A) : forall l i j,
  nth_error (update_nth i f l) j
  = if j =? i then option_map f (nth_error l j) else nth_error l j.
Proof.
  induction l as [| x l IH]; intros i j.
  - destruct i, j; cbn; try reflexivity. destruct (j =? i); reflexivity.
  - destruct i as [| i], j as [| j]; cbn [update_nth nth_error Nat.eqb option_map];
      try reflexivity.
    apply IH.
Qed.

Lemma length_update_nth {A} (f : A -> A) : forall l i,
  length (update_nth i f l) = length l.
Proof.
  induction l as [| x l IH]; intros [| i]; cbn; auto.
Qed.

Lemma map_update_nth {A B} (g : A -> B) (f : A -> A) :
  (forall x, g (f x) = g x) ->
  forall l i, map g (update_nth i f l) = map g l.
Proof.
  intros Hf. induction l as [| x l IH]; intros [| i]; cbn; try reflexivity.
  - rewrite Hf. reflexivity.
  - rewrite IH. reflexivity.
Qed.

Lemma sameSpending_refl tx : sameSpending tx tx.
Proof. unfold sameSpending. auto. Qed.

Lemma sameSpending_trans a b c : sameSpending a b -> sameSpending b c -> sameSpending a c.
Proof.
  unfold sameSpending. intros (H1 & H2 & H3 & H4) (H5 & H6 & H7 & H8).
  repeat split; congruence.
Qed.

Lemma sameSpending_set_witness tx i ws :
  sameSpending tx (set_ins (update_nth i (Input.set_witness ws) (ins tx)) tx).
Proof.
  unfold sameSpending. cbn. repeat split. apply map_update_nth. reflexivity.
Qed.

Lemma sameSpending_set_script tx i s :
  sameSpending tx (set_ins (update_nth i (Input.set_script s) (ins tx)) tx).
Proof.
  unfold sameSpending. cbn. repeat split. apply map_update_nth. reflexivity.
Qed.

(** What a successful signature of a funding input went through. *)
Lemma signInput_ok utxos network tx i w tx' w' :
  signInput utxos network tx i w = inr (tx', w') ->
  exists utxo addressType privateKeyHex,
    nth_error utxos i = Some utxo
    /\ getAddressType (PrevOutput.address utxo) network = inr addressType
    /\ privateKeyFromWIF (PrevOutput.privateKey utxo) network = inr privateKeyHex
    /\ this w' = this w
    /\ length (ins tx') = length (ins tx)
    /\ sameSpending tx tx'
    /\ (forall j, j <> i -> nth_error (ins tx') j = nth_error (ins tx) j)
    /\ (forall input,
          nth_error (ins tx) i = Some input ->
          exists input',
            nth_error (ins tx') i = Some input'
            /\ unlocked addressType (fromHex privateKeyHex) input input').
Proof.
  unfold signInput. intros H.
  destruct (nth_error utxos i) as [utxo |] eqn:Hu; [| discriminate].
  apply bind_ok in H as (ty & w1 & Ht & H). apply lift_ok in Ht as [Ht ->].
  apply bind_ok in H as (hex & w2 & Hk & H). apply lift_ok in Hk as [Hk ->].
  exists utxo, ty, hex. split; [reflexivity |]. split; [exact Ht |]. split; [exact Hk |].
  assert (Hother : forall (f : Input.t -> Input.t) j, j <> i ->
            nth_error (update_nth i f (ins tx)) j = nth_error (ins tx) j).
  { intros f j Hj. rewrite nth_error_update_nth.
    destruct (Nat.eqb_spec j i); [contradiction | reflexivity]. }
  assert (Hat : forall (f : Input.t -> Input.t) input, nth_error (ins tx) i = Some input ->
            nth_error (update_nth i f (ins tx)) i = Some (f input)).
  { intros f input Hi. rewrite nth_error_update_nth, Nat.eqb_refl, Hi. reflexivity. }
  destruct ty.
  - (* legacy *)
    apply bind_ok in H as (s & w3 & Hs & H). apply lift_ok in Hs as [Hs ->].
    inversion H. subst tx' w'. clear H. cbn [ins set_ins].
    split; [reflexivity |]. split; [apply length_update_nth |].
    split; [apply sameSpending_set_script |]. split; [apply Hother |].
    intros input Hi. eexists. split; [apply Hat; exact Hi |].
    split; [reflexivity |]. split; [reflexivity |]. eexists. reflexivity.
  - (* native segwit *)
    inversion H. subst tx' w'. clear H. cbn [ins set_ins].
    split; [reflexivity |]. split; [apply length_update_nth |].
    split; [apply sameSpending_set_witness |]. split; [apply Hother |].
    intros input Hi. eexists. split; [apply Hat; exact Hi |].
    split; [reflexivity |]. split; [reflexivity |]. eexists. reflexivity.
  - (* nested segwit *)
    inversion H. subst tx' w'. clear H. cbn [ins set_ins].
    split; [reflexivity |]. split; [rewrite !length_update_nth; reflexivity |].
    split.
    { eapply sameSpending_trans; [apply sameSpending_set_witness |].
      apply (sameSpending_set_script
               (set_ins (update_nth i (Input.set_witness _) (ins tx)) tx)). }
    split.
    { intros j Hj. rewrite nth_error_update_nth.
      destruct (Nat.eqb_spec j i); [contradiction |]. apply Hother. exact Hj. }
    intros input Hi. eexists. split.
    { rewrite nth_error_update_nth, Nat.eqb_refl. erewrite Hat by exact Hi. reflexivity. }
    split; [reflexivity |]. split; [reflexivity |]. eexists. reflexivity.
  - (* taproot *)
    apply bind_ok in H as (s & w3 & Hs & H). apply lift_ok in Hs as [Hs ->].
    apply bind_ok in H as (aux & w4 & Hd & H). inversion Hd. subst aux w4. clear Hd.
    inversion H. subst tx' w'. clear H. cbn [ins set_ins this].
    split; [reflexivity |]. split; [apply length_update_nth |].
    split; [apply sameSpending_set_witness |]. split; [apply Hother |].
    intros input Hi. eexists. split; [apply Hat; exact Hi |].
    split; [reflexivity |]. split; [reflexivity |]. eexists _, _. reflexivity.
Qed.

(** [tx.ins.forEach]: every input in the range is unlocked with the key
    of the funding output at its position, the others stay. *)
Lemma signInputs_ok utxos network : forall n i tx w tx' w',
  signInputs utxos network n i tx w = inr (tx', w') ->
  this w' = this w
  /\ length (ins tx') = length (ins tx)
  /\ sameSpending tx tx'
  /\ (forall j, j < i \/ i + n <= j -> nth_error (ins tx') j = nth_error (ins tx) j)
  /\ (forall j input,
        i <= j < i + n ->
        nth_error (ins tx) j = Some input ->
        exists utxo addressType privateKeyHex input',
          nth_error utxos j = Some utxo
          /\ getAddressType (PrevOutput.address utxo) network = inr addressType
          /\ privateKeyFromWIF (PrevOutput.privateKey utxo) network = inr privateKeyHex
          /\ nth_error (ins tx') j = Some input'
          /\ unlocked addressType (fromHex privateKeyHex) input input')
  /\ (forall j, i <= j < i + n -> j < length utxos).
Proof.
  induction n as [| n IH]; intros i tx w tx' w' H; cbn [signInputs] in H.
  - inversion H. subst. split; [reflexivity |]. split; [reflexivity |].
    split; [apply sameSpending_refl |]. split; [reflexivity |].
    split; intros; lia.
  - apply bind_ok in H as (tx1 & w1 & H1 & H).
    apply signInput_ok in H1
      as (utxo & ty & hex & Hu & Ht & Hk & Hw1 & Hl1 & Hs1 & Ho1 & Ha1).
    apply IH in H as (Hw & Hl & Hs & Ho & Ha & Hb).
    split; [congruence |]. split; [congruence |].
    split; [eapply sameSpending_trans; eassumption |].
    split.
    { intros j Hj. rewrite Ho by lia. apply Ho1. lia. }
    split.
    { intros j input Hj Hin. destruct (Nat.eq_dec j i) as [-> | Hne].
      - destruct (Ha1 input Hin) as (input' & Hi' & Hun).
        exists utxo, ty, hex, input'. rewrite Ho by lia. auto.
      - rewrite <- Ho1 in Hin by exact Hne. apply (Ha j input); [lia | exact Hin]. }
    intros j Hj. destruct (Nat.eq_dec j i) as [-> | Hne].
    + apply nth_error_Some. congruence.
    + apply Hb. lia.
Qed.

Lemma signReveal_sameSpending chainIndex txIndex tx prevTxOutputs w tx' w' :
  signReveal chainIndex txIndex tx prevTxOutputs w = inr (tx', w') -> sameSpending tx tx'.
Proof.
  intros H.
  apply signReveal_ok in H as (? & ? & ? & ? & ? & _ & _ & _ & _ & _ & _ & -> & _).
  apply sameSpending_set_witness.
Qed.

Lemma signChainTxs_sameSpending initialUtxo chainIndex :
  forall txs txIndex prevTxOutputs w txs' w',
    signChainTxs initialUtxo chainIndex txs txIndex prevTxOutputs w = inr (txs', w') ->
    Forall2 sameSpending txs txs'.
Proof.
  induction txs as [| tx txs IH]; intros txIndex prevTxOutputs w txs' w' H;
    cbn [signChainTxs] in H.
  - inversion H. constructor.
  - apply bind_ok in H as (tx1 & w1 & H1 & H). apply rethrow_ok in H1.
    apply bind_ok in H as (rest & w2 & H2 & H). inversion H. subst txs' w2. clear H.
    constructor; [| eapply IH; exact H2].
    destruct (txIndex =? 0).
    + rewrite bind_gets in H1. apply signInputs_ok in H1 as (_ & _ & Hs & _). exact Hs.
    + eapply signReveal_sameSpending. exact H1.
Qed.

Lemma Forall2_refl {A} (R : A -> A -> Prop) :
  (forall x, R x x) -> forall l, Forall2 R l l.
Proof. intros HR. induction l; constructor; auto. Qed.

Lemma signChains_sameSpending utxos : forall chains chainIndex w chains' w',
  signChains utxos chains chainIndex w = inr (chains', w') ->
  Forall2 (Forall2 sameSpending) chains chains'.
Proof.
  induction chains as [| chain chains IH]; intros chainIndex w chains' w' H;
    cbn [signChains] in H.
  - inversion H. constructor.
  - apply bind_ok in H as (chain1 & w1 & H1 & H).
    apply bind_ok in H as (rest & w2 & H2 & H). inversion H. subst chains' w2. clear H.
    constructor; [| eapply IH; exact H2].
    destruct (length utxos <=? chainIndex);
      [inversion H1; apply Forall2_refl, sameSpending_refl |].
    destruct (nth_error utxos chainIndex) as [utxo |];
      [| inversion H1; apply Forall2_refl, sameSpending_refl].
    destruct (String.eqb (PrevOutput.privateKey utxo) "");
      [inversion H1; apply Forall2_refl, sameSpending_refl |].
    eapply signChainTxs_sameSpending. exact H1.
Qed.

End SignerProperties.

Section SignerExtras.
Context {ext : Externals}.

(** X1.  When [signTx] succeeds, every input of the transaction had a
    funding output at its position whose address has a type and whose
    WIF decodes, and it is unlocked for that type with that key: a
    one-element witness with a Schnorr signature by the tweaked key for
    taproot, an input script for legacy, signature and public key in the
    witness for native segwit, and in addition the redeem script for
    nested segwit.  Version, lock time, outputs and the outpoints of the
    inputs are as before, and so is the instance. *)
Theorem signTx_unlocks_every_input (tx : Transaction) (utxos : list PrevOutput.t)
  (network : Network) (w : World) (tx' : Transaction) (w' : World) :
  signTx tx utxos network w = inr (tx', w') ->
  length (ins tx) <= length utxos
  /\ this w' = this w
  /\ sameSpending tx tx'
  /\ length (ins tx') = length (ins tx)
  /\ forall j input,
       nth_error (ins tx) j = Some input ->
       exists utxo addressType privateKeyHex input',
         nth_error utxos j = Some utxo
         /\ getAddressType (PrevOutput.address utxo) network = inr addressType
         /\ privateKeyFromWIF (PrevOutput.privateKey utxo) network = inr privateKeyHex
         /\ nth_error (ins tx') j = Some input'
         /\ unlocked addressType (fromHex privateKeyHex) input input'.
Proof.
  unfold signTx. intros H.
  apply signInputs_ok in H as (Hw & Hl & Hs & _ & Ha & Hb).
  split.
  { destruct (ins tx) as [| i0 l] eqn:E; [cbn; lia |].
    specialize (Hb (length (i0 :: l) - 1)). cbn [length] in *. lia. }
  split; [exact Hw |]. split; [exact Hs |]. split; [exact Hl |].
  intros j input Hj. apply Ha; [| exact Hj].
  assert (j < length (ins tx)) by (apply nth_error_Some; congruence). lia.
Qed.

(** X2.  Signing all chains changes nothing but how inputs are unlocked:
    the signed chains have the same transactions in the same places, each
    with its version, lock time, outputs and input outpoints, and the
    contexts, the ledgers, the total fee and the funding map of the
    instance are as before. *)
Theorem signing_keeps_what_is_spent_and_paid (utxos : list PrevOutput.t)
  (w : World) (u : unit) (w' : World) :
  signAllTransactions utxos w = inr (u, w') ->
  Forall2 (Forall2 sameSpending) (Tool.txChains (this w)) (Tool.txChains (this w'))
  /\ this w' = Tool.set_txChains (Tool.txChains (this w')) (this w).
Proof.
  intros H. apply signAllTransactions_ok in H as (chains' & w1 & Hs & _ & Hw).
  apply signChains_sameSpending in Hs. rewrite Hw. cbn. split; [exact Hs | reflexivity].
Qed.

End SignerExtras.

Section SignerExamples.
#[local] Existing Instance Reference.externals.

(** A transaction with a legacy and a nested-segwit input. *)
Lemma signTx_unlocks_every_input_witness :
  let utxos :=
    [PrevOutput.mk "aa" 0 1000 "1legacy" Reference.key None;
     PrevOutput.mk "bb" 1 2000 "3nested" Reference.key None] in
  let tx :=
    mkTransaction 2 0
      [Input.mk [Byte.xaa] 0 [] DEFAULT_SEQUENCE_NUM [];
       Input.mk [Byte.xbb] 1 [] DEFAULT_SEQUENCE_NUM []]
      [Output.mk [Byte.x51] 2500] in
  exists tx' w' first second,
    signTx tx utxos testnet (mkWorld Tool.new 0) = inr (tx', w')
    /\ ins tx' = [first; second]
    /\ Input.witness first = []
    /\ length (Input.witness second) = 2
    /\ outs tx' = outs tx.
Proof.
  intros utxos tx.
  set (r := match signTx tx utxos testnet (mkWorld Tool.new 0) with
            | inr r => r
            | inl _ => (tx, mkWorld Tool.new 0)
            end).
  assert (H : signTx tx utxos testnet (mkWorld Tool.new 0) = inr (fst r, snd r))
    by (vm_compute; reflexivity).
  destruct (signTx_unlocks_every_input _ _ _ _ H) as (_ & _ & (_ & _ & Houts & _) & _ & _).
  exists (fst r), (snd r), (nth 0 (ins (fst r)) (Input.mk [] 0 [] 0 [])),
    (nth 1 (ins (fst r)) (Input.mk [] 0 [] 0 [])).
  split; [exact H |]. split; [vm_compute; reflexivity |].
  split; [vm_compute; reflexivity |]. split; [vm_compute; reflexivity | exact Houts].
Defined.

(** The chain of two inscriptions on one funding output. *)
Lemma signing_keeps_what_is_spent_and_paid_witness :
  let request := Reference.requestOf [Reference.utxoOf "aa" 100000] 2 in
  exists w0 w1 w2,
    prepare testnet request (mkWorld Tool.new 0) = inr (tt, w0)
    /\ buildPhase testnet request w0 = inr (tt, w1)
    /\ signAllTransactions (InscriptionRequest.commitTxPrevOutputList request) w1
       = inr (tt, w2)
    /\ map (map outs) (Tool.txChains (this w2)) = map (map outs) (Tool.txChains (this w1))
    /\ map (@length _) (Tool.txChains (this w2)) = [3].
Proof.
  intros request.
  set (w0 := match prepare testnet request (mkWorld Tool.new 0) with
             | inr (_, w) => w
             | inl _ => mkWorld Tool.new 0
             end).
  set (w1 := match buildPhase testnet request w0 with
             | inr (_, w) => w
             | inl _ => mkWorld Tool.new 0
             end).
  set (w2 := match signAllTransactions
                     (InscriptionRequest.commitTxPrevOutputList request) w1 with
             | inr (_, w) => w
             | inl _ => mkWorld Tool.new 0
             end).
  assert (H : signAllTransactions (InscriptionRequest.commitTxPrevOutputList request) w1
              = inr (tt, w2)) by (vm_compute; reflexivity).
  destruct (signing_keeps_what_is_spent_and_paid _ _ H) as [Hsame _].
  exists w0, w1, w2. split; [vm_compute; reflexivity |]. split; [vm_compute; reflexivity |].
  split; [exact H |]. split; [| vm_compute; reflexivity].
  clear H. revert Hsame.
  generalize (Tool.txChains (this w1)) (Tool.txChains (this w2)).
  intros chains chains' Hsame.
  induction Hsame as [| chain chain' chains chains' Hc _ IH]; [reflexivity |].
  cbn [map]. rewrite IH. f_equal.
  induction Hc as [| tx tx' chain chain' (_ & _ & Ho & _) _ IHc]; [reflexivity |].
  cbn [map]. rewrite IHc, Ho. reflexivity.
Defined.

End SignerExamples.

Section LedgerExtras.
Context {ext : Externals}.

Lemma length_revealMappings : forall count c i s,
  length (revealMappings c i s count) = count.
Proof. induction count as [| count IH]; intros c i s; cbn; [| rewrite IH]; reflexivity. Qed.

Lemma layout_lengths network utxos revealOutValue changeAddress minChangeValue n contexts :
  forall built c k,
    chainsBuilt network utxos revealOutValue changeAddress minChangeValue n contexts k built ->
    length (layoutFees c built) = length (concat (map fst built))
    /\ length (layoutMappings n c k built) = length (concat (map fst built)).
Proof.
  induction built as [| [txChain fees] built IH]; intros c k Hb; [split; reflexivity |].
  destruct Hb as [(utxo & _ & _ & Hlc & Hlf) Hrest].
  destruct (IH (S c) (S k) Hrest) as [IH1 IH2].
  cbn [layoutFees layoutMappings map fst concat]. rewrite !length_app, IH1, IH2.
  rewrite length_feeEntries. unfold chainMappings. cbn [length].
  rewrite length_revealMappings. split; lia.
Qed.

Lemma length_concat_Forall2 {A} (R : A -> A -> Prop) : forall l l',
  Forall2 (Forall2 R) l l' -> length (concat l') = length (concat l).
Proof.
  intros l l' H. induction H as [| x y l l' Hxy _ IH]; [reflexivity |].
  cbn [concat]. rewrite !length_app, IH. erewrite (Forall2_length Hxy). reflexivity.
Qed.

(** X3.  In a tool the factory returns, the total estimated fee is the
    sum of the fees in the fee ledger, and both ledgers (fees and context
    mapping) have exactly one entry per transaction of the chains. *)
Theorem total_fee_is_sum_of_fee_ledger (network : Network)
  (request : InscriptionRequest.t) (seed : nat) (w : World) :
  newChainInscriptionTool network request seed = inr w ->
  Tool.totalEstimatedFee (this w) = sumZ (ledgerFees (Tool.txFees (this w)))
  /\ length (Tool.txFees (this w)) = length (concat (Tool.txChains (this w)))
  /\ length (Tool.chainContextMapping (this w)) = length (concat (Tool.txChains (this w))).
Proof.
  intros H.
  apply newChainInscriptionTool_state in H
    as (w0 & contexts & built & chains' & w1 & w' & _ & _ & _ & _ & Hch & Hmap & Hfees
        & Htotal & _ & _ & _ & Hbuilt & Hw1 & Hs & Hw & _).
  destruct (extendWith_fees (length contexts) built (this w0) 0) as [Hf Ht].
  pose proof (extendWith_mappings (length contexts) built (this w0) 0) as Hm.
  rewrite <- Hw1 in Hf, Ht, Hm. rewrite Hch in Hf, Hm. rewrite Hfees in Hf.
  rewrite Hmap in Hm. rewrite Htotal in Ht. cbn [app length] in Hf, Hm.
  destruct (@layout_lengths _ _ _ _ _ _ _ built 0 0 Hbuilt) as [Hl1 Hl2].
  apply signChains_sameSpending in Hs. apply length_concat_Forall2 in Hs.
  rewrite Hw. cbn [Tool.set_txChains Tool.totalEstimatedFee Tool.txFees
                   Tool.chainContextMapping Tool.txChains].
  rewrite Hf, Ht, Hm, ledgerFees_layoutFees, Hs. split; [lia |]. auto.
Qed.

End LedgerExtras.

Section LedgerExamples.
#[local] Existing Instance Reference.externals.

(** Thirty inscriptions on two funding outputs: 32 transactions, 32 fee
    entries. *)
Lemma total_fee_is_sum_of_fee_ledger_witness :
  let request :=
    Reference.requestOf [Reference.utxoOf "aa" 100000; Reference.utxoOf "bb" 100000] 30 in
  exists w,
    newChainInscriptionTool testnet request 0 = inr w
    /\ Tool.totalEstimatedFee (this w) = sumZ (ledgerFees (Tool.txFees (this w)))
    /\ length (Tool.txFees (this w)) = 32.
Proof.
  intros request.
  set (w := match newChainInscriptionTool testnet request 0 with
            | inr w => w
            | inl _ => mkWorld Tool.new 0
            end).
  assert (H : newChainInscriptionTool testnet request 0 = inr w)
    by (vm_compute; reflexivity).
  destruct (total_fee_is_sum_of_fee_ledger _ _ _ H) as (Hsum & _ & _).
  exists w. split; [exact H |]. split; [exact Hsum |]. vm_compute. reflexivity.
Defined.

End LedgerExamples.

Section Conservation.
Context {ext : Externals}.

Lemma revealsShape_conservation network inscriptions revealOutValue finalChangeAddress
  minChangeValue :
  forall txs fees i prevTx prevOutputIndex available,
    revealsShape network inscriptions revealOutValue finalChangeAddress minChangeValue
      i prevTx prevOutputIndex available txs fees ->
    i + length txs = length inscriptions ->
    txs <> [] ->
    let lastTx := last txs newTransaction in
    let spent :=
      (sumZ fees + Z.of_nat (length txs) * revealOutValue + changeValueOf lastTx)%Z in
    (length (outs lastTx) = 2 -> available = spent)
    /\ ((0 <= minChangeValue)%Z -> (spent <= available)%Z).
Proof.
  induction txs as [| tx txs IH]; intros fees i prevTx prevOutputIndex available Hs Hlen Hne;
    [congruence |].
  destruct fees as [| fee fees]; [contradiction |].
  destruct Hs as [Hsh Hrest]. cbn zeta.
  destruct txs as [| tx2 txs].
  - destruct fees; [| contradiction]. cbn [last length sumZ fold_right].
    destruct Hsh as (ctx & pk & _ & _ & _ & _ & [(c & Ho & Hmin & Hav) | (_ & Ho & Hav)]).
    + unfold changeValueOf. rewrite Ho. cbn [Output.value]. split; intros; lia.
    + unfold changeValueOf. rewrite Ho. cbn [length]. split; [discriminate | lia].
  - specialize (IH fees (S i) tx 1 (changeValueOf tx) Hrest
                  ltac:(cbn [length] in *; lia) ltac:(discriminate)).
    cbn zeta in IH. destruct IH as [IH1 IH2].
    change (last (tx :: tx2 :: txs) newTransaction) with (last (tx2 :: txs) newTransaction).
    set (lastTx := last (tx2 :: txs) newTransaction) in *.
    assert (Hsum : sumZ (fee :: fees) = (fee + sumZ fees)%Z) by reflexivity.
    rewrite Hsum.
    assert (Hl : Z.of_nat (length (tx :: tx2 :: txs))
                 = (1 + Z.of_nat (length (tx2 :: txs)))%Z) by (cbn [length]; lia).
    rewrite Hl.
    destruct Hsh as (ctx & pk & _ & _ & _ & _ & [(c & Ho & Hmin & Hav) | (Hi & _)]).
    + assert (Hc : changeValueOf tx = c) by (unfold changeValueOf; rewrite Ho; reflexivity).
      rewrite Hc in *. split; intros; [rewrite Hav, IH1 by assumption; lia |].
      specialize (IH2 ltac:(assumption)). lia.
    + cbn [length] in Hlen. lia.
Qed.

(** X4.  A chain that was built conserves value: the funding amount is
    the sum of the estimated fees entered for its transactions, plus the
    reveal output value of every inscription, plus the final change, when
    the last reveal has a change output; when it dropped the change (and
    the minimum change is not negative), the funding amount covers fees
    and reveal outputs, and the rest goes to the miners. *)
Theorem chain_conserves_value (network : Network) (utxo : PrevOutput.t)
  (inscriptions : list InscriptionTxCtxData.t) (revealOutValue : Z) (revealFeeRate : Q)
  (finalChangeAddress : string) (minChangeValue : Z) (commitFeeRate : Q)
  (inscriptionCtxStartIndex chainIndex : nat) (w : World) (chain : list Transaction)
  (w1 : World) :
  inscriptions <> [] ->
  buildSingleUtxoChain network utxo inscriptions revealOutValue revealFeeRate
    finalChangeAddress minChangeValue commitFeeRate inscriptionCtxStartIndex chainIndex w
  = inr (chain, w1) ->
  exists fees,
    Tool.txFees (this w1) = Tool.txFees (this w) ++ feeEntries chainIndex 0 fees
    /\ Tool.totalEstimatedFee (this w1) = (Tool.totalEstimatedFee (this w) + sumZ fees)%Z
    /\ length chain = S (length inscriptions)
    /\ let lastTx := last chain newTransaction in
       let spent :=
         (sumZ fees + Z.of_nat (length inscriptions) * revealOutValue
          + changeValueOf lastTx)%Z in
       (length (outs lastTx) = 2 -> PrevOutput.amount utxo = spent)
       /\ ((0 <= minChangeValue)%Z -> (spent <= PrevOutput.amount utxo)%Z).
Proof.
  intros Hne H.
  apply buildSingleUtxoChain_ok in H as (fees & Hshape & Hlf & Hw1); [| exact Hne].
  exists fees. rewrite Hw1. cbn [withLedger Tool.txFees Tool.totalEstimatedFee].
  split; [reflexivity |]. split; [reflexivity |].
  destruct Hshape as (first & cv & reveals & cf & rf & _ & -> & -> & Hcv & Ham & Hlen & Hs).
  split; [cbn [length]; congruence |].
  assert (Hr : reveals <> []).
  { intros ->. destruct inscriptions; [congruence | discriminate]. }
  destruct (@revealsShape_conservation _ _ _ _ _ _ _ _ _ _ _ Hs ltac:(cbn; lia) Hr)
    as [H1 H2].
  cbn zeta in H1, H2 |- *.
  assert (Hlast : last (commitOf utxo (InscriptionTxCtxData.commitTxAddressPkScript first) cv
                         :: reveals) newTransaction = last reveals newTransaction).
  { destruct reveals; [congruence | reflexivity]. }
  rewrite Hlast. rewrite Hlen in H1, H2.
  assert (Hsum : sumZ (cf :: rf) = (cf + sumZ rf)%Z) by reflexivity.
  rewrite Hsum, Ham. split; intros; [rewrite H1 by assumption; lia |].
  specialize (H2 ltac:(assumption)). lia.
Qed.

End Conservation.

Section ConservationExamples.
#[local] Existing Instance Reference.externals.

(** Two inscriptions on 100000 satoshi: the change comes back; on 1200
    satoshi with one inscription the change is dropped. *)
Lemma chain_conserves_value_witness :
  exists chain w1 fees,
    buildSingleUtxoChain testnet (Reference.utxoOf "aa" 100000) (Reference.contextsOf 2)
      546 (5 # 2) "Qchange" 546 2 0 0 (Reference.worldOf 2) = inr (chain, w1)
    /\ ledgerFees (Tool.txFees (this w1)) = fees
    /\ (100000 = sumZ fees + 2 * 546 + changeValueOf (last chain newTransaction))%Z.
Proof.
  set (r := match buildSingleUtxoChain testnet (Reference.utxoOf "aa" 100000)
                    (Reference.contextsOf 2) 546 (5 # 2) "Qchange" 546 2 0 0
                    (Reference.worldOf 2) with
            | inr r => r
            | inl _ => ([], Reference.worldOf 2)
            end).
  assert (H : buildSingleUtxoChain testnet (Reference.utxoOf "aa" 100000)
                (Reference.contextsOf 2) 546 (5 # 2) "Qchange" 546 2 0 0
                (Reference.worldOf 2) = inr (fst r, snd r)) by (vm_compute; reflexivity).
  assert (Hne : Reference.contextsOf 2 <> []) by (vm_compute; discriminate).
  destruct (@chain_conserves_value _ _ _ _ _ _ _ _ _ _ _ _ _ _ Hne H) as (fees & Hf & _ & _ & Hkept & _).
  exists (fst r), (snd r), fees. split; [exact H |].
  assert (Hfees : ledgerFees (Tool.txFees (this (snd r))) = fees).
  { rewrite Hf. unfold ledgerFees. rewrite map_app.
    fold (ledgerFees (feeEntries 0 0 fees)). rewrite ledgerFees_feeEntries. reflexivity. }
  split; [exact Hfees |].
  cbn zeta in Hkept. specialize (Hkept ltac:(vm_compute; reflexivity)).
  change (Z.of_nat (length (Reference.contextsOf 2))) with 2%Z in Hkept.
  change (PrevOutput.amount (Reference.utxoOf "aa" 100000)) with 100000%Z in Hkept.
  exact Hkept.
Defined.

End ConservationExamples.

Section MappingExtras.
Context {ext : Externals}.

Lemma In_revealMappings m c : forall count t s,
  In m (revealMappings c t s count) ->
  exists j, j < count /\ m = Mapping.mk c (t + j) (Some (s + j)).
Proof.
  induction count as [| count IH]; intros t s H; [contradiction |].
  cbn [revealMappings] in H. destruct H as [<- | H].
  - exists 0. rewrite !Nat.add_0_r. split; [lia | reflexivity].
  - destruct (IH _ _ H) as (j & Hj & ->). exists (S j). split; [lia |].
    f_equal; [| f_equal]; lia.
Qed.

Lemma In_layoutMappings m n : forall built c k,
  In m (layoutMappings n c k built) ->
  exists i,
    i < length built
    /\ Mapping.chainIndex m = c + i
    /\ ((Mapping.txIndex m = 0 /\ Mapping.contextIndex m = None)
        \/ exists j,
             j < inscriptionsInChain n (k + i)
             /\ Mapping.txIndex m = S j
             /\ Mapping.contextIndex m = Some (24 * (k + i) + j)).
Proof.
  induction built as [| b built IH]; intros c k H; [contradiction |].
  cbn [layoutMappings] in H. apply in_app_or in H as [H | H].
  - exists 0. rewrite !Nat.add_0_r. split; [cbn; lia |].
    unfold chainMappings in H. destruct H as [<- | H]; [cbn; auto |].
    apply In_revealMappings in H as (j & Hj & ->). cbn. split; [reflexivity |].
    right. exists j. auto.
  - destruct (IH _ _ H) as (i & Hi & Hc & Hcase). exists (S i).
    replace (k + S i) with (S k + i) by lia. split; [cbn; lia |]. split; [lia | exact Hcase].
Qed.

Lemma findMapping_layout_commit n : forall built c k i,
  i < length built ->
  findMapping (c + i) 0 (layoutMappings n c k built) = Some (Mapping.mk (c + i) 0 None).
Proof.
  induction built as [| b built IH]; intros c k i Hi; [cbn in Hi; lia |].
  cbn [layoutMappings]. unfold findMapping. rewrite find_app.
  destruct i as [| i].
  - rewrite Nat.add_0_r. unfold chainMappings.
    cbn [find Mapping.chainIndex Mapping.txIndex]. rewrite !Nat.eqb_refl. reflexivity.
  - pose proof (@findMapping_chain_other (c + S i) c (24 * k) (inscriptionsInChain n k)
                  0 ltac:(lia)) as H.
    unfold findMapping in H. rewrite H.
    replace (c + S i) with (S c + i) by lia.
    apply IH. cbn [length] in Hi. lia.
Qed.

(** X5.  In a tool the factory returns, the context mapping pairs the
    inscriptions and the reveals one to one: inscription [c] is found at
    transaction [c mod 24 + 1] of chain [c / 24], no other entry names
    it, and the entries without a context are the commits, at
    transaction [0] of every chain. *)
Theorem each_inscription_has_one_reveal (network : Network)
  (request : InscriptionRequest.t) (seed : nat) (w : World) :
  newChainInscriptionTool network request seed = inr w ->
  let n := length (InscriptionRequest.inscriptionDataList request) in
  let mappings := Tool.chainContextMapping (this w) in
  (forall c, c < n ->
     findMapping (c / 24) (c mod 24 + 1) mappings
     = Some (Mapping.mk (c / 24) (c mod 24 + 1) (Some c)))
  /\ (forall m c,
        In m mappings -> Mapping.contextIndex m = Some c ->
        c < n /\ Mapping.chainIndex m = c / 24 /\ Mapping.txIndex m = c mod 24 + 1)
  /\ (forall k, k < chainCount n -> findMapping k 0 mappings = Some (Mapping.mk k 0 None))
  /\ (forall m,
        In m mappings -> Mapping.contextIndex m = None ->
        Mapping.txIndex m = 0 /\ Mapping.chainIndex m < chainCount n).
Proof.
  intros H n mappings.
  apply newChainInscriptionTool_state in H
    as (w0 & contexts & built & chains' & w1 & w' & _ & _ & _ & Hn & Hch & Hmap & _
        & _ & _ & Hbl & _ & _ & Hw1 & _ & Hw & _).
  pose proof (extendWith_mappings (length contexts) built (this w0) 0) as Hm.
  rewrite <- Hw1 in Hm. rewrite Hch, Hmap in Hm. cbn [app length] in Hm.
  assert (Hmappings : mappings = layoutMappings n 0 0 built).
  { subst mappings n. rewrite Hw. cbn. rewrite Hm, Hn. reflexivity. }
  rewrite Hn in Hbl. fold n in Hbl. rewrite Hmappings. clear Hmappings Hm Hw Hw1.
  split; [| split; [| split]].
  - intros c Hc.
    pose proof (Nat.div_mod_eq c 24) as Hdm.
    pose proof (Nat.mod_upper_bound c 24 ltac:(lia)) as Hmod.
    pose proof (@findMapping_layout n built 0 0 (c / 24) (c mod 24)) as Hf.
    cbn [Nat.add] in Hf. rewrite Nat.add_1_r.
    rewrite Hf; [f_equal; f_equal; f_equal; lia | |].
    + rewrite Hbl. apply chainCount_lt. lia.
    + unfold inscriptionsInChain. lia.
  - intros m c Hin Hc.
    apply In_layoutMappings in Hin as (i & Hi & Hci & [[_ Hnone] | (j & Hj & Ht & Hs)]);
      [congruence |].
    change (0 + i) with i in *.
    assert (Hceq : c = 24 * i + j) by congruence. subst c. clear Hs.
    unfold inscriptionsInChain in Hj.
    assert (Hdiv : (24 * i + j) / 24 = i).
    { symmetry. apply (Nat.div_unique (24 * i + j) 24 i j); lia. }
    assert (Hmod : (24 * i + j) mod 24 = j).
    { symmetry. apply (Nat.mod_unique (24 * i + j) 24 i j); lia. }
    rewrite Hdiv, Hmod. split; [lia |]. split; [exact Hci | lia].
  - intros k Hk. pose proof (@findMapping_layout_commit n built 0 0 k) as Hf.
    cbn [Nat.add] in Hf. apply Hf. rewrite Hbl. exact Hk.
  - intros m Hin Hnone.
    apply In_layoutMappings in Hin as (i & Hi & Hci & [[Ht _] | (j & _ & _ & Hs)]);
      [| congruence].
    change (0 + i) with i in Hci. split; [exact Ht |]. rewrite Hci, <- Hbl. exact Hi.
Qed.

End MappingExtras.

Section MappingExamples.
#[local] Existing Instance Reference.externals.

(** Thirty inscriptions on two funding outputs: inscription 26 is
    revealed by transaction 3 of chain 1. *)
Lemma each_inscription_has_one_reveal_witness :
  let request :=
    Reference.requestOf [Reference.utxoOf "aa" 100000; Reference.utxoOf "bb" 100000] 30 in
  exists w,
    newChainInscriptionTool testnet request 0 = inr w
    /\ findMapping 1 3 (Tool.chainContextMapping (this w)) = Some (Mapping.mk 1 3 (Some 26)).
Proof.
  intros request.
  set (w := match newChainInscriptionTool testnet request 0 with
            | inr w => w
            | inl _ => mkWorld Tool.new 0
            end).
  assert (H : newChainInscriptionTool testnet request 0 = inr w)
    by (vm_compute; reflexivity).
  destruct (each_inscription_has_one_reveal _ _ _ H) as (Hfind & _).
  exists w. split; [exact H |].
  apply (Hfind 26). vm_compute. lia.
Defined.

End MappingExamples.

Section Delivery.
Context {ext : Externals}.

Lemma createInscriptionTxCtxData_reveal network inscriptionData privateKeyWif ctx :
  createInscriptionTxCtxData network inscriptionData privateKeyWif = inr ctx ->
  toOutputScript (InscriptionData.revealAddr inscriptionData) network
  = inr (InscriptionTxCtxData.revealPkScript ctx).
Proof.
  intros H. unfold createInscriptionTxCtxData in H.
  destruct (privateKeyFromWIF privateKeyWif network); [discriminate |].
  destruct (wif2Public privateKeyWif network); [discriminate |].
  cbn [rbind] in H.
  destruct (p2tr _ _ _ _); [discriminate |]. cbn [rbind] in H.
  destruct (toOutputScript _ _) as [e | revealPkScript]; [discriminate |].
  cbn [rbind ok] in H. inversion H. reflexivity.
Qed.

Lemma newChainInscriptionTool_count network request seed w :
  newChainInscriptionTool network request seed = inr w ->
  length (Tool.txChains (this w))
  = chainCount (length (InscriptionRequest.inscriptionDataList request))
  /\ length (Tool.inscriptionTxCtxDataList (this w))
     = length (InscriptionRequest.inscriptionDataList request).
Proof.
  intros H. pose proof (newChainInscriptionTool_contexts _ _ _ H) as (f & r & _ & Hc).
  apply rmap_length in Hc.
  apply newChainInscriptionTool_state in H
    as (w0 & contexts & built & chains' & w1 & w' & _ & _ & _ & Hn & _ & _ & _
        & _ & _ & Hbl & _ & _ & _ & Hs & Hw & _).
  split; [| exact Hc].
  rewrite Hw. cbn. erewrite signChains_length by exact Hs.
  rewrite length_map, Hbl, Hn. reflexivity.
Qed.

(** The place of inscription [c]: chain [c / 24], transaction
    [c mod 24 + 1], which exists in a tool the factory returns, with the
    reveal as built and the context of [c]. *)
Lemma reveal_of_inscription network request seed w c :
  newChainInscriptionTool network request seed = inr w ->
  c < length (InscriptionRequest.inscriptionDataList request) ->
  exists chain' chain fees tx' tx ctx inscriptionData firstUtxo rest,
    nth_error (Tool.txChains (this w)) (c / 24) = Some chain'
    /\ nth_error chain' (c mod 24 + 1) = Some tx'
    /\ nth_error chain (c mod 24 + 1) = Some tx
    /\ map outs chain' = map outs chain
    /\ length chain = 1 + inscriptionsInChain
                            (length (InscriptionRequest.inscriptionDataList request)) (c / 24)
    /\ chainShape network
         (slice (Tool.inscriptionTxCtxDataList (this w)) (24 * (c / 24))
            (24 * (c / 24)
             + inscriptionsInChain
                 (length (InscriptionRequest.inscriptionDataList request)) (c / 24)))
         (orDefault (InscriptionRequest.revealOutValue request) DEFAULT_REVEAL_OUT_VALUE)
         (InscriptionRequest.changeAddress request)
         (orDefaultOpt (InscriptionRequest.minChangeValue request) DEFAULT_MIN_CHANGE_VALUE)
         (nth (c / 24) (InscriptionRequest.commitTxPrevOutputList request) firstUtxo)
         chain fees
    /\ (exists aux prevOut, tx' = signedReveal ctx prevOut tx aux)
    /\ nth_error (Tool.inscriptionTxCtxDataList (this w)) c = Some ctx
    /\ nth_error (InscriptionRequest.inscriptionDataList request) c = Some inscriptionData
    /\ InscriptionRequest.commitTxPrevOutputList request = firstUtxo :: rest
    /\ createInscriptionTxCtxData network inscriptionData (PrevOutput.privateKey firstUtxo)
       = inr ctx.
Proof.
  intros H Hc.
  destruct (newChainInscriptionTool_count _ _ _ H) as [Hcount Hlenc].
  apply newChainInscriptionTool_signed in H
    as (firstUtxo & rest & built & Hu & _ & Hcreated & Hbuilt & Hlen & Hsigned).
  cbv zeta in Hbuilt, Hsigned, Hcreated.
  set (n := length (InscriptionRequest.inscriptionDataList request)) in *.
  rewrite Hlenc in Hbuilt.
  pose proof (Nat.div_mod_eq c 24) as Hdm.
  pose proof (Nat.mod_upper_bound c 24 ltac:(lia)) as Hmod.
  set (k := c / 24) in *. set (r := c mod 24) in *.
  assert (Hk : k < chainCount n) by (apply chainCount_lt; lia).
  destruct (nth_error (Tool.txChains (this w)) k) as [chain' |] eqn:Hk';
    [| apply nth_error_None in Hk'; lia].
  destruct (Hsigned k chain' Hk') as (chain & fees & Hnb & Houts & Htxs).
  assert (Hkb : k < length built) by (apply nth_error_Some; congruence).
  destruct (@chainsBuilt_nth _ _ _ _ _ _ _ _ built 0 k Hbuilt Hkb)
    as (c0 & f0 & Hb' & (utxo0 & Hu0 & Hshape & Hlc & _)).
  rewrite Hnb in Hb'. inversion Hb'. subst c0 f0. clear Hb'. cbn [Nat.add] in *.
  assert (Hin : r < inscriptionsInChain n k) by (unfold inscriptionsInChain; lia).
  assert (Hlc' : length chain' = length chain).
  { rewrite <- (length_map outs chain'), Houts. apply length_map. }
  replace (r + 1) with (S r) by lia.
  destruct (nth_error chain' (S r)) as [tx' |] eqn:Htx';
    [| apply nth_error_None in Htx'; lia].
  destruct (Htxs (S r) tx' Htx' ltac:(lia))
    as (tx & input & prevOut & ctx & aux & Htx & _ & _ & Hctx & _ & Heq).
  replace (24 * k + (S r - 1)) with c in Hctx by lia.
  destruct (Forall2_nth_error_r _ Hcreated Hctx) as (inscriptionData & Hd & Hmade).
  exists chain', chain, fees, tx', tx, ctx, inscriptionData, firstUtxo, rest.
  split; [reflexivity |]. split; [exact Htx' |]. split; [exact Htx |].
  split; [exact Houts |]. split; [exact Hlc |].
  split; [erewrite nth_error_nth by exact Hu0; exact Hshape |].
  split; [eauto |]. auto.
Qed.

(** X6.  Every inscription of the request is delivered: in a tool the
    factory returns, transaction [c mod 24 + 1] of chain [c / 24] pays,
    as its first output, the reveal output value (the 546 default in
    place of 0) to the output script of the reveal address of
    inscription [c]; at most one more output, the change, follows. *)
Theorem every_inscription_is_delivered (network : Network)
  (request : InscriptionRequest.t) (seed : nat) (w : World) (c : nat)
  (inscriptionData : InscriptionData.t) :
  newChainInscriptionTool network request seed = inr w ->
  nth_error (InscriptionRequest.inscriptionDataList request) c = Some inscriptionData ->
  exists chain tx script others,
    nth_error (Tool.txChains (this w)) (c / 24) = Some chain
    /\ nth_error chain (c mod 24 + 1) = Some tx
    /\ toOutputScript (InscriptionData.revealAddr inscriptionData) network = inr script
    /\ outs tx
       = Output.mk script
           (orDefault (InscriptionRequest.revealOutValue request) DEFAULT_REVEAL_OUT_VALUE)
         :: others
    /\ length others <= 1.
Proof.
  intros H Hd.
  assert (Hc : c < length (InscriptionRequest.inscriptionDataList request))
    by (apply nth_error_Some; congruence).
  destruct (@reveal_of_inscription network request seed w c H Hc)
    as (chain' & chain & fees & tx' & tx & ctx & data & firstUtxo & rest & Hk & Htx' & Htx
        & Houts & Hlc & Hshape & (aux & prevOut & Heq) & Hctx & Hd' & _ & Hmade).
  rewrite Hd in Hd'. inversion Hd'. subst data. clear Hd'.
  apply createInscriptionTxCtxData_reveal in Hmade.
  pose proof (Nat.div_mod_eq c 24) as Hdm.
  pose proof (Nat.mod_upper_bound c 24 ltac:(lia)) as Hmod.
  destruct (chainShape_reveals_linked Hshape (j := c mod 24 + 1) ltac:(lia) Htx)
    as (prev & ctx1 & _ & Hc1 & _ & _ & Hcase).
  assert (Hsame : ctx1 = ctx).
  { rewrite nth_error_slice in Hc1.
    - replace (24 * (c / 24) + (c mod 24 + 1 - 1)) with c in Hc1 by lia. congruence.
    - unfold inscriptionsInChain. lia. }
  subst ctx1.
  exists chain', tx', (InscriptionTxCtxData.revealPkScript ctx).
  assert (Ho : outs tx' = outs tx) by (rewrite Heq; reflexivity).
  destruct Hcase as [(pk & change & Hout & _) | (_ & Hout)].
  - exists [Output.mk pk change]. rewrite Ho, Hout. cbn. auto 6.
  - exists []. rewrite Ho, Hout. cbn. auto 6.
Qed.

End Delivery.

Section DeliveryExamples.
#[local] Existing Instance Reference.externals.

(** Inscription 1 of two, sent to "Qrecipient". *)
Lemma every_inscription_is_delivered_witness :
  let request := Reference.requestOf [Reference.utxoOf "aa" 100000] 2 in
  exists w chain tx others,
    newChainInscriptionTool testnet request 0 = inr w
    /\ nth_error (Tool.txChains (this w)) 0 = Some chain
    /\ nth_error chain 2 = Some tx
    /\ outs tx = Output.mk (list_byte_of_string "Qrecipient") 546 :: others.
Proof.
  intros request.
  set (w := match newChainInscriptionTool testnet request 0 with
            | inr w => w
            | inl _ => mkWorld Tool.new 0
            end).
  assert (H : newChainInscriptionTool testnet request 0 = inr w)
    by (vm_compute; reflexivity).
  destruct (@every_inscription_is_delivered _ testnet request 0 w 1
              (Reference.inscriptionOf "mint 1") H ltac:(vm_compute; reflexivity))
    as (chain & tx & script & others & Hk & Htx & Hs & Ho & _).
  exists w, chain, tx, others. split; [exact H |]. split; [exact Hk |].
  split; [exact Htx |]. rewrite Ho.
  vm_compute in Hs. inversion Hs. reflexivity.
Defined.

End DeliveryExamples.

Section Links.
Context {ext : Externals}.

Lemma signChains_funded utxos (built : list (list Transaction * list Z)) :
  length built <= length utxos ->
  Forall (fun utxo => String.eqb (PrevOutput.privateKey utxo) "" = false) utxos ->
  forall w chains' w',
    signChains utxos (map fst built) 0 w = inr (chains', w') ->
    forall k chain',
      nth_error chains' k = Some chain' ->
      exists chain fees utxo wi wi',
        nth_error built k = Some (chain, fees)
        /\ nth_error utxos k = Some utxo
        /\ this wi = this w
        /\ signChainTxs utxo k chain 0 [] wi = inr (chain', wi').
Proof.
  intros Hfunded Hkeys w chains' w' Hs k chain' Hk.
  apply signChains_ok in Hs as (_ & Hall).
  destruct (Hall k chain' Hk) as (chain & Hn & Hcase). cbn [Nat.add] in Hcase.
  rewrite nth_error_map in Hn.
  destruct (nth_error built k) as [[chain0 fees] |] eqn:Hb; [| discriminate].
  cbn in Hn. inversion Hn. subst chain0. clear Hn.
  assert (Hlt : k < length built) by (apply nth_error_Some; congruence).
  destruct Hcase as [(-> & [Hle | (utxo & Hu & Hempty)]) | (utxo & wi & wi' & Hu & Hwi & Hsign)].
  - lia.
  - rewrite Forall_forall in Hkeys.
    rewrite (Hkeys utxo (nth_error_In _ _ Hu)) in Hempty. discriminate.
  - exists chain, fees, utxo, wi, wi'. auto.
Qed.

Lemma signChainTxs_commit initialUtxo chainIndex tx txs prevTxOutputs w txs' w' :
  signChainTxs initialUtxo chainIndex (tx :: txs) 0 prevTxOutputs w = inr (txs', w') ->
  exists tx' w1 rest,
    txs' = tx' :: rest
    /\ signTx tx [initialUtxo] (Tool.network (this w)) w = inr (tx', w1).
Proof.
  cbn [signChainTxs Nat.eqb]. intros H.
  apply bind_ok in H as (tx1 & w1 & H1 & H). apply rethrow_ok in H1.
  rewrite bind_gets in H1.
  apply bind_ok in H as (rest & w2 & _ & H). inversion H.
  exists tx1, w1, rest. auto.
Qed.

Lemma unlocked_witness_only addressType privateKey input input' :
  unlocked addressType privateKey input input' ->
  addressType = segwit_taproot \/ addressType = segwit_native ->
  input' = Input.set_witness (Input.witness input') input.
Proof.
  intros [Hout Hcase] Hty. destruct input as [h i s q ws], input' as [h' i' s' q' ws'].
  unfold outpoint in Hout. cbn in Hout. inversion Hout. subst h' i' q'.
  destruct Hty as [-> | ->]; destruct Hcase as [Hs _]; cbn in Hs; subst s'; reflexivity.
Qed.

(** X7.  When the funding outputs are taproot or native segwit, the
    links of the chains hold for the signed transactions: the one input
    of every transaction after the commit names the hash of the signed
    transaction before it and one of its outputs.  This rests on the
    hash not covering witnesses, a law of the transaction library. *)
Theorem links_hold_after_signing (network : Network) (request : InscriptionRequest.t)
  (seed : nat) (w : World) :
  hash_ignores_witnesses ->
  Forall
    (fun utxo =>
       getAddressType (PrevOutput.address utxo) network = inr segwit_taproot
       \/ getAddressType (PrevOutput.address utxo) network = inr segwit_native)
    (InscriptionRequest.commitTxPrevOutputList request) ->
  newChainInscriptionTool network request seed = inr w ->
  forall k chain j tx prev,
    nth_error (Tool.txChains (this w)) k = Some chain ->
    1 <= j ->
    nth_error chain j = Some tx ->
    nth_error chain (j - 1) = Some prev ->
    exists input,
      ins tx = [input]
      /\ Input.hash input = getHash prev
      /\ Input.index input < length (outs prev).
Proof.
  intros Hlaw Hty H k chain' j tx' prev' Hk Hj Htx' Hprev'.
  apply newChainInscriptionTool_state in H
    as (w0 & contexts & built & chains' & w1 & w' & _ & _ & _ & _ & _ & _ & _ & _ & _
        & _ & Hbm & Hbuilt & _ & Hs & Hw & Hkeys & Hmap & Hctx & Hnet & _).
  assert (Hchains : Tool.txChains (this w) = chains') by (rewrite Hw; reflexivity).
  rewrite Hchains in Hk.
  destruct (@signChains_funded _ built Hbm Hkeys _ _ _ Hs k _ Hk)
    as (chain & fees & utxo & wi & wi' & Hnb & Hu & Hwi & Hsign).
  destruct (@signed_layout _ _ _ _ _ _ _ _ _ Hbuilt Hbm Hkeys w1 _ _ Hmap Hs k _ Hk)
    as (chain0 & fees0 & Hnb0 & Houts & Htxs).
  rewrite Hnb in Hnb0. inversion Hnb0. subst chain0 fees0. clear Hnb0.
  assert (Hkb : k < length built) by (apply nth_error_Some; congruence).
  destruct (@chainsBuilt_nth _ _ _ _ _ _ _ _ built 0 k Hbuilt Hkb)
    as (c0 & f0 & Hb' & (utxo0 & Hu0 & Hshape & _)).
  rewrite Hnb in Hb'. inversion Hb'. subst c0 f0. clear Hb'. cbn [Nat.add] in *.
  rewrite Hu in Hu0. inversion Hu0. subst utxo0. clear Hu0.
  destruct (Htxs j tx' Htx' Hj)
    as (tx & input & prevOut & ctx & aux & Htx & Hin & Hprev & _ & _ & Heq).
  destruct (chainShape_reveals_linked Hshape Hj Htx)
    as (prev & ctx1 & Hp & _ & Hins & _ & _).
  rewrite Hins in Hin. cbn in Hin. inversion Hin. subst input. clear Hin.
  cbn [Input.index] in Hprev.
  assert (Hop : outs prev' = outs prev).
  { assert (Hn1 : nth_error (map outs chain') (j - 1) = Some (outs prev'))
      by (rewrite nth_error_map, Hprev'; reflexivity).
    rewrite Houts, nth_error_map, Hp in Hn1. cbn in Hn1. congruence. }
  assert (Ho : nth (j - 1) (map outs chain) [] = outs prev).
  { erewrite nth_error_nth; [reflexivity |]. rewrite nth_error_map, Hp. reflexivity. }
  rewrite Ho in Hprev.
  eexists. split; [rewrite Heq; unfold signedReveal; rewrite Hins; reflexivity |].
  cbn [Input.set_witness Input.hash Input.index].
  split; [| rewrite Hop; apply nth_error_Some; congruence].
  destruct (Nat.eq_dec j 1) as [-> | Hne].
  - (* the commit *)
    change (1 - 1) with 0 in *.
    destruct chain as [| commit reveals]; [discriminate |].
    cbn in Hp. inversion Hp. subst prev. clear Hp.
    apply signChainTxs_commit in Hsign as (commit' & w2 & rest & -> & Hc).
    cbn in Hprev'. inversion Hprev'. subst prev'. clear Hprev'.
    apply signInputs_ok in Hc as (_ & Hl & (Hv & Hlt & Hout & _) & _ & Ha & _).
    destruct Hshape as (first & cv & reveals0 & cf & rf & _ & Hchain & _).
    inversion Hchain. subst commit reveals0. clear Hchain.
    destruct (Ha 0 _ ltac:(cbn; lia) eq_refl)
      as (utxo1 & ty & hex & input' & Hu1 & Hty1 & _ & Hi' & Hun).
    cbn in Hu1. inversion Hu1. subst utxo1. clear Hu1.
    rewrite Hwi, Hnet in Hty1.
    assert (Hkind : ty = segwit_taproot \/ ty = segwit_native).
    { rewrite Forall_forall in Hty.
      destruct (Hty utxo (nth_error_In _ _ Hu)) as [E | E]; rewrite E in Hty1;
        inversion Hty1; auto. }
    apply unlocked_witness_only in Hun; [| exact Hkind].
    assert (Hc' : commit'
                  = set_ins
                      (update_nth 0 (Input.set_witness (Input.witness input'))
                         (ins (commitOf utxo
                                 (InscriptionTxCtxData.commitTxAddressPkScript first) cv)))
                      (commitOf utxo
                         (InscriptionTxCtxData.commitTxAddressPkScript first) cv)).
    { destruct commit' as [v l i o]. cbn in Hv, Hlt, Hout, Hl, Hi' |- *.
      subst v l o. destruct i as [| i0 [| i1 i]]; try discriminate.
      cbn in Hi'. inversion Hi'. subst i0. rewrite Hun at 1. reflexivity. }
    rewrite Hc'. symmetry. apply Hlaw.
  - (* a reveal *)
    destruct (Htxs (j - 1) prev' Hprev' ltac:(lia))
      as (tx2 & input2 & prevOut2 & ctx2 & aux2 & Htx2 & _ & _ & _ & _ & Heq2).
    rewrite Hp in Htx2. inversion Htx2. subst tx2. clear Htx2.
    rewrite Heq2. unfold signedReveal. symmetry. apply Hlaw.
Qed.

End Links.

Section LinksExamples.
#[local] Existing Instance Reference.externals.

Lemma reference_hash_ignores_witnesses : hash_ignores_witnesses.
Proof.
  intros tx i ws. unfold getHash. cbn [Reference.externals]. cbn [ins outs set_ins].
  rewrite (map_update_nth Input.hash (Input.set_witness ws)); reflexivity.
Qed.

(** Two inscriptions on one taproot funding output. *)
Lemma links_hold_after_signing_witness :
  let request := Reference.requestOf [Reference.utxoOf "aa" 100000] 2 in
  exists w commit reveal1 reveal2 input,
    newChainInscriptionTool testnet request 0 = inr w
    /\ Tool.txChains (this w) = [[commit; reveal1; reveal2]]
    /\ ins reveal1 = [input]
    /\ Input.hash input = getHash commit.
Proof.
  intros request.
  set (w := match newChainInscriptionTool testnet request 0 with
            | inr w => w
            | inl _ => mkWorld Tool.new 0
            end).
  assert (H : newChainInscriptionTool testnet request 0 = inr w)
    by (vm_compute; reflexivity).
  set (chain := nth 0 (Tool.txChains (this w)) []).
  set (commit := nth 0 chain newTransaction).
  set (reveal1 := nth 1 chain newTransaction).
  set (reveal2 := nth 2 chain newTransaction).
  assert (Hty : Forall
                  (fun utxo =>
                     getAddressType (PrevOutput.address utxo) testnet = inr segwit_taproot
                     \/ getAddressType (PrevOutput.address utxo) testnet = inr segwit_native)
                  (InscriptionRequest.commitTxPrevOutputList request)).
  { repeat constructor. }
  destruct (@links_hold_after_signing _ testnet request 0 w
              reference_hash_ignores_witnesses Hty H 0 chain 1 reveal1 commit)
    as (input & Hins & Hhash & _);
    [vm_compute; reflexivity | lia | vm_compute; reflexivity | vm_compute; reflexivity |].
  exists w, commit, reveal1, reveal2, input.
  split; [exact H |]. split; [vm_compute; reflexivity |]. split; [exact Hins | exact Hhash].
Defined.

End LinksExamples.

Section Packager.
Context {ext : Externals}.

Lemma packageChain_run tool request hexes ids details chainIndex chain :
  packable chain ->
  exists detail,
    packageChain tool request (hexes, ids, details) chainIndex chain
    = inr (hexes ++ [map tx_toHex chain], ids ++ [map getId chain], details ++ [detail])
    /\ describesLastTx tool request chainIndex chain detail.
Proof.
  intros (lastTx & prevTx & inputInfo & spent & Hlen & Hl & Hp & Hi & Hs).
  unfold packageChain.
  replace (length chain <? 2) with false by (symmetry; apply Nat.ltb_ge; exact Hlen).
  replace (length chain - 1 - 1) with (length chain - 2) by lia.
  rewrite Hl, Hp, Hi.
  assert (Hlt : Input.index inputInfo < length (outs prevTx))
    by (apply nth_error_Some; congruence).
  replace (length (outs prevTx) <=? Input.index inputInfo) with false
    by (symmetry; apply Nat.leb_gt; exact Hlt).
  rewrite Hs. eexists. split; [reflexivity |].
  exists lastTx, prevTx, inputInfo, spent.
  repeat (split; [first [assumption | reflexivity] |]).
  unfold lastContext. cbn [LastTxInfo.signingPrivateKeyWIF LastTxInfo.prevInputPkScriptHex
                            LastTxInfo.tapScriptTreeHashHex].
  destruct (findMapping chainIndex (length chain - 1) (Tool.chainContextMapping tool))
    as [m |]; [| repeat split].
  destruct (Mapping.contextIndex m); repeat split.
Qed.

Lemma packageChains_run tool request : forall chains hexes ids details chainIndex,
  Forall packable chains ->
  exists more,
    packageChains tool request (hexes, ids, details) chainIndex chains
    = inr (hexes ++ map (map tx_toHex) chains, ids ++ map (map getId) chains,
           details ++ more)
    /\ length more = length chains
    /\ forall k detail,
         nth_error more k = Some detail ->
         exists chain,
           nth_error chains k = Some chain
           /\ describesLastTx tool request (chainIndex + k) chain detail.
Proof.
  induction chains as [| chain chains IH]; intros hexes ids details chainIndex Hall.
  - exists []. cbn. rewrite !app_nil_r. split; [reflexivity |]. split; [reflexivity |].
    intros k d Hk. destruct k; discriminate.
  - inversion Hall as [| c cs Hc Hcs]. subst c cs.
    destruct (packageChain_run tool request hexes ids details chainIndex Hc)
      as (detail & Hrun & Hdesc).
    cbn [packageChains]. rewrite Hrun.
    destruct (IH (hexes ++ [map tx_toHex chain]) (ids ++ [map getId chain])
                (details ++ [detail]) (S chainIndex) Hcs) as (more & Hr & Hlen & Hall').
    exists (detail :: more). rewrite Hr. cbn [map]. rewrite <- !app_assoc. cbn [app].
    split; [reflexivity |]. split; [cbn; lia |].
    intros k d Hk. destruct k as [| k].
    + cbn in Hk. inversion Hk. subst d. exists chain. rewrite Nat.add_0_r. auto.
    + cbn [nth_error] in Hk. destruct (Hall' k d Hk) as (chain0 & Hn & Hd).
      exists chain0. replace (chainIndex + S k) with (S chainIndex + k) by lia. auto.
Qed.

End Packager.

Section ToolChains.
Context {ext : Externals}.

Lemma findFee_feeEntries_other c c' txIndex : forall fees t,
  c <> c' -> findFee c txIndex (feeEntries c' t fees) = None.
Proof.
  induction fees as [| fee fees IH]; intros t Hc; [reflexivity |].
  cbn [feeEntries]. unfold findFee. cbn [find TxFee.chainIndex].
  replace (c' =? c) with false by (symmetry; apply Nat.eqb_neq; lia).
  cbn [andb]. apply IH. exact Hc.
Qed.

Lemma findFee_feeEntries c : forall fees t j fee,
  nth_error fees j = Some fee ->
  findFee c (t + j) (feeEntries c t fees) = Some (TxFee.mk c (t + j) fee).
Proof.
  induction fees as [| f fees IH]; intros t j fee Hj; [destruct j; discriminate |].
  cbn [feeEntries]. unfold findFee. cbn [find TxFee.chainIndex TxFee.txIndex].
  rewrite Nat.eqb_refl. cbn [andb].
  destruct j as [| j].
  - cbn in Hj. inversion Hj. rewrite !Nat.add_0_r, Nat.eqb_refl. reflexivity.
  - replace (t =? t + S j) with false by (symmetry; apply Nat.eqb_neq; lia).
    replace (t + S j) with (S t + j) by lia.
    apply IH. exact Hj.
Qed.

Lemma findFee_layout : forall built c i chain fees j fee,
  nth_error built i = Some (chain, fees) ->
  nth_error fees j = Some fee ->
  findFee (c + i) j (layoutFees c built) = Some (TxFee.mk (c + i) j fee).
Proof.
  induction built as [| [chain0 fees0] built IH]; intros c i chain fees j fee Hi Hj;
    [destruct i; discriminate |].
  cbn [layoutFees]. unfold findFee. rewrite find_app.
  destruct i as [| i].
  - cbn in Hi. inversion Hi. subst chain0 fees0. rewrite Nat.add_0_r.
    pose proof (@findFee_feeEntries c fees 0 j fee Hj) as H. cbn [Nat.add] in H.
    unfold findFee in H. rewrite H. reflexivity.
  - pose proof (@findFee_feeEntries_other (c + S i) c j fees0 0 ltac:(lia)) as H.
    unfold findFee in H. rewrite H.
    replace (c + S i) with (S c + i) by lia.
    eapply IH; eassumption.
Qed.

(** Chain [k] of a tool the factory returns: the chain as built, its
    fees, and what the ledgers and the signer have for it. *)
Lemma chain_of_tool network request seed w k chain' :
  newChainInscriptionTool network request seed = inr w ->
  nth_error (Tool.txChains (this w)) k = Some chain' ->
  let n := length (InscriptionRequest.inscriptionDataList request) in
  let contexts := Tool.inscriptionTxCtxDataList (this w) in
  exists chain fees utxo,
    k < chainCount n
    /\ length contexts = n
    /\ nth_error (InscriptionRequest.commitTxPrevOutputList request) k = Some utxo
    /\ chainShape network
         (slice contexts (24 * k) (24 * k + inscriptionsInChain n k))
         (orDefault (InscriptionRequest.revealOutValue request) DEFAULT_REVEAL_OUT_VALUE)
         (InscriptionRequest.changeAddress request)
         (orDefaultOpt (InscriptionRequest.minChangeValue request) DEFAULT_MIN_CHANGE_VALUE)
         utxo chain fees
    /\ 1 <= inscriptionsInChain n k
    /\ length chain = 1 + inscriptionsInChain n k
    /\ length fees = 1 + inscriptionsInChain n k
    /\ length chain' = length chain
    /\ map outs chain' = map outs chain
    /\ (forall j fee,
          nth_error fees j = Some fee ->
          findFee k j (Tool.txFees (this w)) = Some (TxFee.mk k j fee))
    /\ (forall j,
          j < inscriptionsInChain n k ->
          findMapping k (S j) (Tool.chainContextMapping (this w))
          = Some (Mapping.mk k (S j) (Some (24 * k + j))))
    /\ (forall j tx',
          nth_error chain' j = Some tx' ->
          1 <= j ->
          exists tx input prevOut ctx aux,
            nth_error chain j = Some tx
            /\ nth_error (ins tx) 0 = Some input
            /\ nth_error (nth (j - 1) (map outs chain) []) (Input.index input)
               = Some prevOut
            /\ nth_error contexts (24 * k + (j - 1)) = Some ctx
            /\ InscriptionTxCtxData.commitTxAddressPkScript ctx = Output.script prevOut
            /\ tx' = signedReveal ctx prevOut tx aux).
Proof.
  intros H Hk n contexts.
  apply newChainInscriptionTool_state in H
    as (w0 & ctxs & built & chains' & w1 & w' & _ & _ & _ & Hn & _ & _ & _ & _ & _
        & Hbl & Hbm & Hbuilt & _ & Hs & Hw & Hkeys & Hmap & Hctx & _ & Hfees).
  assert (Hchains : Tool.txChains (this w) = chains') by (rewrite Hw; reflexivity).
  assert (Hcontexts : contexts = ctxs) by (subst contexts; rewrite Hw; exact Hctx).
  assert (Hmapw : Tool.chainContextMapping (this w) = layoutMappings n 0 0 built)
    by (rewrite Hw; cbn; rewrite Hmap, Hn; reflexivity).
  assert (Hfeesw : Tool.txFees (this w) = layoutFees 0 built)
    by (rewrite Hw; cbn; exact Hfees).
  rewrite Hn in Hbl, Hbuilt, Hmap. fold n in Hbl, Hbuilt, Hmap.
  rewrite Hchains in Hk. rewrite Hcontexts, Hmapw, Hfeesw. clear Hmapw Hfeesw.
  destruct (@signed_layout _ _ _ _ _ _ _ _ _ Hbuilt Hbm Hkeys w1 _ _ Hmap Hs k _ Hk)
    as (chain & fees & Hnb & Houts & Htxs).
  assert (Hkb : k < length built) by (apply nth_error_Some; congruence).
  destruct (@chainsBuilt_nth _ _ _ _ _ _ _ _ built 0 k Hbuilt Hkb)
    as (c0 & f0 & Hb' & (utxo & Hu & Hshape & Hlc & Hlf)).
  rewrite Hnb in Hb'. inversion Hb'. subst c0 f0. clear Hb'. cbn [Nat.add] in *.
  exists chain, fees, utxo.
  assert (Hkc : k < chainCount n) by lia.
  split; [exact Hkc |]. split; [exact Hn |]. split; [exact Hu |]. split; [exact Hshape |].
  split.
  { apply chainCount_lt in Hkc. unfold inscriptionsInChain. lia. }
  split; [exact Hlc |]. split; [exact Hlf |].
  split; [rewrite <- (length_map outs chain'), Houts; apply length_map |].
  split; [exact Houts |].
  split.
  { intros j fee Hj. exact (@findFee_layout built 0 k chain fees j fee Hnb Hj). }
  split.
  { intros j Hj. pose proof (@findMapping_layout n built 0 0 k j Hkb Hj) as Hf.
    exact Hf. }
  intros j tx' Hj Hpos.
  destruct (Htxs j tx' Hj Hpos) as (tx & input & prevOut & ctx & aux & H1 & H2 & H3 & H4 & H5 & H6).
  exists tx, input, prevOut, ctx, aux. rewrite Hctx in H4. auto 10.
Qed.

(** Every chain of such a tool can be packaged. *)
Lemma chains_of_tool_packable network request seed w :
  newChainInscriptionTool network request seed = inr w ->
  Forall packable (Tool.txChains (this w)).
Proof.
  intros H. apply Forall_forall. intros chain' Hin.
  apply In_nth_error in Hin as (k & Hk).
  destruct (@chain_of_tool network request seed w k chain' H Hk)
    as (chain & fees & utxo & _ & _ & _ & _ & Hcnt & Hlc & _ & Hlc' & Houts & _ & _ & Htxs).
  set (cnt := inscriptionsInChain
                (length (InscriptionRequest.inscriptionDataList request)) k) in *.
  assert (Hlen : length chain' = S cnt) by lia.
  destruct (nth_error chain' cnt) as [lastTx |] eqn:Hl;
    [| apply nth_error_None in Hl; lia].
  destruct (nth_error chain' (cnt - 1)) as [prevTx |] eqn:Hp;
    [| apply nth_error_None in Hp; lia].
  destruct (Htxs cnt lastTx Hl Hcnt)
    as (tx & input & prevOut & ctx & aux & _ & Hi & Hprev & _ & _ & Heq).
  exists lastTx, prevTx, (Input.set_witness
                            (revealSignature ctx prevOut tx aux
                             :: InscriptionTxCtxData.witness ctx) input), prevOut.
  rewrite Hlen. replace (S cnt - 1) with cnt by lia.
  replace (S cnt - 2) with (cnt - 1) by lia.
  split; [lia |]. split; [exact Hl |]. split; [exact Hp |].
  split.
  { rewrite Heq. unfold signedReveal. cbn [ins set_ins].
    rewrite nth_error_update_nth, Hi. reflexivity. }
  cbn [Input.set_witness Input.index].
  rewrite <- Houts in Hprev.
  erewrite nth_error_nth in Hprev; [exact Hprev |].
  rewrite nth_error_map, Hp. reflexivity.
Qed.

End ToolChains.

Section ResultLemmas.
Context {ext : Externals}.

Lemma newChainInscriptionTool_network network request seed w :
  newChainInscriptionTool network request seed = inr w ->
  Tool.network (this w) = network.
Proof.
  intros H.
  apply newChainInscriptionTool_state in H
    as (w0 & ctxs & built & chains' & w1 & w' & _ & _ & _ & _ & _ & _ & _ & _ & _
        & _ & _ & _ & _ & _ & Hw & _ & _ & _ & Hnet & _).
  rewrite Hw. exact Hnet.
Qed.

(** The result of [inscribeChain] when the factory succeeds. *)
Lemma inscribeChain_success network request seed w :
  newChainInscriptionTool network request seed = inr w ->
  exists details,
    inscribeChain network request seed
    = ChainInscribeResult.mk true
        (map (map tx_toHex) (Tool.txChains (this w)))
        (map (map getId) (Tool.txChains (this w)))
        details (Tool.totalEstimatedFee (this w)) None
    /\ length details = length (Tool.txChains (this w))
    /\ forall k detail,
         nth_error details k = Some detail ->
         exists chain,
           nth_error (Tool.txChains (this w)) k = Some chain
           /\ describesLastTx (this w) request k chain detail.
Proof.
  intros H. pose proof (chains_of_tool_packable _ _ _ H) as Hp.
  destruct (packageChains_run (this w) request [] [] [] 0 Hp) as (details & Hr & Hlen & Hall).
  exists details. unfold inscribeChain, inscribeChainTry. rewrite H. cbn [rbind].
  rewrite Hr. cbn [rbind ok app]. split; [reflexivity |]. split; [exact Hlen |].
  intros k detail Hk. destruct (Hall k detail Hk) as (chain & Hn & Hd).
  exists chain. auto.
Qed.

End ResultLemmas.

Section ResultExtras.
Context {ext : Externals}.

(** X8.  When the factory succeeds, [inscribeChain] succeeds: the
    result has [success = true] and no error, the serialization and the
    id of every transaction of every chain, in the order of the chains,
    the total estimated fee of the tool, and one [LastTxInfo] per chain,
    that is, one for every 24 inscriptions or part of it. *)
Theorem successful_result_lists_every_chain (network : Network)
  (request : InscriptionRequest.t) (seed : nat) (w : World) :
  newChainInscriptionTool network request seed = inr w ->
  let result := inscribeChain network request seed in
  let chains := Tool.txChains (this w) in
  ChainInscribeResult.success result = true
  /\ ChainInscribeResult.error result = None
  /\ ChainInscribeResult.txChains result = map (map tx_toHex) chains
  /\ ChainInscribeResult.txChainTxIds result = map (map getId) chains
  /\ ChainInscribeResult.totalEstimatedFee result = Tool.totalEstimatedFee (this w)
  /\ length chains = chainCount (length (InscriptionRequest.inscriptionDataList request))
  /\ length (ChainInscribeResult.lastTxDetails result) = length chains
  /\ forall k detail,
       nth_error (ChainInscribeResult.lastTxDetails result) k = Some detail ->
       exists chain,
         nth_error chains k = Some chain
         /\ describesLastTx (this w) request k chain detail.
Proof.
  intros H result chains.
  destruct (inscribeChain_success _ _ _ H) as (details & Hr & Hlen & Hall).
  destruct (newChainInscriptionTool_count _ _ _ H) as [Hcount _].
  subst result. rewrite Hr. cbn. auto 10.
Qed.

(** X9.  The [LastTxInfo] of chain [k] is what a fee bump of the last
    reveal needs: the fee is the one the fee ledger has for that
    transaction; the input is output 0 of the commit when the chain has
    one inscription and output 1 of the reveal before otherwise, with
    the value of that output; the signing key is the primary key, given
    back as WIF; the previous script is the script of the output spent,
    and the hash is the leaf hash of the context of the last inscription
    of the chain. *)
Theorem last_tx_info_matches_the_chain (network : Network)
  (request : InscriptionRequest.t) (seed : nat) (w : World) (k : nat)
  (detail : LastTxInfo.t) :
  newChainInscriptionTool network request seed = inr w ->
  nth_error (ChainInscribeResult.lastTxDetails (inscribeChain network request seed)) k
  = Some detail ->
  exists chain lastTx prevTx input spent ctx firstUtxo rest primaryKeyHex,
    nth_error (Tool.txChains (this w)) k = Some chain
    /\ nth_error chain (length chain - 1) = Some lastTx
    /\ nth_error chain (length chain - 2) = Some prevTx
    /\ ins lastTx = [input]
    /\ nth_error (outs prevTx) (Input.index input) = Some spent
    /\ nth_error (Tool.inscriptionTxCtxDataList (this w)) (24 * k + (length chain - 2))
       = Some ctx
    /\ InscriptionRequest.commitTxPrevOutputList request = firstUtxo :: rest
    /\ privateKeyFromWIF (PrevOutput.privateKey firstUtxo) network = inr primaryKeyHex
    /\ LastTxInfo.txId detail = getId lastTx
    /\ LastTxInfo.hex detail = tx_toHex lastTx
    /\ LastTxInfo.inputTxId detail = getId prevTx
    /\ LastTxInfo.inputVout detail = (if length chain =? 2 then 0 else 1)
    /\ LastTxInfo.inputValue detail = Output.value spent
    /\ findFee k (length chain - 1) (Tool.txFees (this w))
       = Some (TxFee.mk k (length chain - 1) (LastTxInfo.fee detail))
    /\ LastTxInfo.signingPrivateKeyWIF detail = private2Wif (fromHex primaryKeyHex) network
    /\ LastTxInfo.prevInputPkScriptHex detail = toString_hex (Output.script spent)
    /\ LastTxInfo.tapScriptTreeHashHex detail
       = toString_hex (InscriptionTxCtxData.hash ctx).
Proof.
  intros H Hk.
  destruct (inscribeChain_success _ _ _ H) as (details & Hr & _ & Hall).
  rewrite Hr in Hk. cbn [ChainInscribeResult.lastTxDetails] in Hk.
  destruct (Hall k detail Hk) as (chain' & Hn & Hdesc).
  destruct Hdesc
    as (lastTx & prevTx & inputInfo & spent & Hl & Hp & Hi & Hs & Hid & Hhex & Hin & Hvout
        & Hval & _ & Hfee & _ & _ & Hwif & Hprevs & Htap).
  pose proof (newChainInscriptionTool_network _ _ _ H) as Hnet.
  destruct (newChainInscriptionTool_signed _ _ _ H)
    as (firstUtxo & rest & built0 & Hu & _ & Hcreated & _).
  cbv zeta in Hcreated.
  destruct (@chain_of_tool _ network request seed w k chain' H Hn)
    as (chain & fees & utxo & _ & _ & _ & Hshape & Hcnt & Hlc & Hlf & Hlc' & Houts & Hff
        & Hfm & Htxs).
  cbv zeta in Hshape, Htxs, Hfm.
  remember (inscriptionsInChain
              (length (InscriptionRequest.inscriptionDataList request)) k) as cnt eqn:Ecnt.
  clear Ecnt.
  assert (Hlen : length chain' = S cnt) by lia.
  rewrite Hlen in *. replace (S cnt - 1) with cnt in * by lia.
  replace (S cnt - 2) with (cnt - 1) in * by lia.
  destruct (Htxs cnt lastTx Hl Hcnt)
    as (tx & input & prevOut & ctx & aux & Htx & Hi0 & Hprev & Hctx & Hscript & Heq).
  destruct (chainShape_reveals_linked Hshape Hcnt Htx)
    as (prev & ctx1 & _ & _ & Hins & _ & _).
  rewrite Hins in Hi0. cbn in Hi0. inversion Hi0. subst input. clear Hi0.
  assert (Hins' : ins lastTx
                  = [Input.set_witness
                       (revealSignature ctx prevOut tx aux
                        :: InscriptionTxCtxData.witness ctx)
                       (Input.mk (getHash prev) (if cnt =? 1 then 0 else 1) []
                          DEFAULT_SEQUENCE_NUM [])]).
  { rewrite Heq. unfold signedReveal. rewrite Hins. reflexivity. }
  rewrite Hins' in Hi. cbn [nth_error] in Hi. inversion Hi. subst inputInfo. clear Hi.
  cbn [Input.set_witness Input.index] in Hs, Hvout, Hprev.
  assert (Hspent : spent = prevOut).
  { rewrite <- Houts in Hprev.
    erewrite nth_error_nth in Hprev by (rewrite nth_error_map, Hp; reflexivity).
    congruence. }
  subst prevOut.
  assert (Hlast : lastContext (this w) k cnt = Some ctx).
  { unfold lastContext. pose proof (Hfm (cnt - 1) ltac:(lia)) as Hf.
    replace (S (cnt - 1)) with cnt in Hf by lia. rewrite Hf.
    cbn [Mapping.contextIndex]. exact Hctx. }
  rewrite Hlast in Hwif, Hprevs, Htap.
  destruct (Forall2_nth_error_r _ Hcreated Hctx) as (inscriptionData & _ & Hmade).
  apply createInscriptionTxCtxData_ok in Hmade
    as (hex & publicKey & chunks & payment & Hhexk & _ & _ & _ & _ & Hpriv & _).
  destruct (nth_error fees cnt) as [fee |] eqn:Hfc;
    [| apply nth_error_None in Hfc; lia].
  pose proof (Hff cnt fee Hfc) as Hfind. rewrite Hfind in Hfee. cbn [TxFee.fee] in Hfee.
  exists chain', lastTx, prevTx,
    (Input.set_witness
       (revealSignature ctx spent tx aux :: InscriptionTxCtxData.witness ctx)
       (Input.mk (getHash prev) (if cnt =? 1 then 0 else 1) [] DEFAULT_SEQUENCE_NUM [])),
    spent, ctx, firstUtxo, rest, hex.
  rewrite Hlen. replace (S cnt - 1) with cnt by lia.
  replace (S cnt - 2) with (cnt - 1) by lia.
  split; [exact Hn |]. split; [exact Hl |]. split; [exact Hp |]. split; [exact Hins' |].
  split; [exact Hs |]. split; [exact Hctx |]. split; [exact Hu |]. split; [exact Hhexk |].
  split; [exact Hid |]. split; [exact Hhex |]. split; [exact Hin |].
  split.
  { rewrite Hvout. change (S cnt =? 2) with (cnt =? 1). reflexivity. }
  split; [exact Hval |]. split; [rewrite Hfee; exact Hfind |].
  split; [rewrite Hwif, Hpriv, Hnet; reflexivity |].
  split; [rewrite Hprevs, Hscript; reflexivity | exact Htap].
Qed.

End ResultExtras.

Section ResultExamples.
#[local] Existing Instance Reference.externals.

(** Thirty inscriptions on two funding outputs: chains of 25 and 7
    transactions, two [LastTxInfo]. *)
Lemma successful_result_lists_every_chain_witness :
  let request :=
    Reference.requestOf [Reference.utxoOf "aa" 100000; Reference.utxoOf "bb" 100000] 30 in
  let result := inscribeChain testnet request 0 in
  ChainInscribeResult.success result = true
  /\ map (@length _) (ChainInscribeResult.txChains result) = [25; 7]
  /\ length (ChainInscribeResult.lastTxDetails result) = 2.
Proof.
  intros request result.
  set (w := match newChainInscriptionTool testnet request 0 with
            | inr w => w
            | inl _ => mkWorld Tool.new 0
            end).
  assert (H : newChainInscriptionTool testnet request 0 = inr w)
    by (vm_compute; reflexivity).
  destruct (successful_result_lists_every_chain _ _ _ H)
    as (Hsuccess & _ & Hhex & _ & _ & Hcount & Hdetails & _).
  fold result in Hsuccess, Hhex, Hdetails.
  split; [exact Hsuccess |]. split.
  - rewrite Hhex. vm_compute. reflexivity.
  - rewrite Hdetails, Hcount. reflexivity.
Defined.

(** One inscription on one funding output of 100000 satoshi: the last
    reveal spends output 0 of the commit. *)
Lemma last_tx_info_matches_the_chain_witness :
  let request := Reference.requestOf [Reference.utxoOf "aa" 100000] 1 in
  exists detail,
    nth_error (ChainInscribeResult.lastTxDetails (inscribeChain testnet request 0)) 0
    = Some detail
    /\ LastTxInfo.inputVout detail = 0
    /\ LastTxInfo.signingPrivateKeyWIF detail = Reference.key.
Proof.
  intros request.
  set (w := match newChainInscriptionTool testnet request 0 with
            | inr w => w
            | inl _ => mkWorld Tool.new 0
            end).
  assert (H : newChainInscriptionTool testnet request 0 = inr w)
    by (vm_compute; reflexivity).
  set (detail := nth 0 (ChainInscribeResult.lastTxDetails (inscribeChain testnet request 0))
                   (LastTxInfo.mk "" "" 0 "" 0 0 [] "" "" testnet 0 0 "" "" "" "" "")).
  assert (Hd : nth_error
                 (ChainInscribeResult.lastTxDetails (inscribeChain testnet request 0)) 0
               = Some detail) by (vm_compute; reflexivity).
  destruct (@last_tx_info_matches_the_chain _ testnet request 0 w 0 detail H Hd)
    as (chain & lastTx & prevTx & input & spent & ctx & firstUtxo & rest & hex & Hc & _ & _
        & _ & _ & _ & Hu & Hk & _ & _ & _ & Hvout & _ & _ & Hwif & _).
  exists detail. split; [exact Hd |]. split.
  - rewrite Hvout.
    assert (Hchain : nth_error (Tool.txChains (this w)) 0
                     = Some (nth 0 (Tool.txChains (this w)) []))
      by (vm_compute; reflexivity).
    rewrite Hchain in Hc. inversion Hc. vm_compute. reflexivity.
  - rewrite Hwif. inversion Hu. subst firstUtxo. vm_compute in Hk. inversion Hk.
    vm_compute. reflexivity.
Defined.

End ResultExamples.

Section ErrorExtras.
Context {ext : Externals}.

Lemma checkPrivateKeys_first_missing : forall utxos index i utxo w,
  nth_error utxos i = Some utxo ->
  PrevOutput.privateKey utxo = ""%string ->
  (forall j u, j < i -> nth_error utxos j = Some u -> PrevOutput.privateKey u <> ""%string) ->
  checkPrivateKeys utxos index w
  = inl (mkError ("输入错误：commitTxPrevOutputList 中索引 " ++ show_nat (index + i)
                  ++ " 的 UTXO (txId: " ++ PrevOutput.txId utxo
                  ++ ") 缺少私钥 (privateKey)")).
Proof.
  induction utxos as [| u0 utxos IH]; intros index i utxo w Hi Hk Hbefore;
    [destruct i; discriminate |].
  cbn [checkPrivateKeys]. destruct i as [| i].
  - cbn in Hi. inversion Hi. subst u0. rewrite Hk. cbn [String.eqb].
    rewrite Nat.add_0_r. reflexivity.
  - destruct (String.eqb_spec (PrevOutput.privateKey u0) "") as [E | E].
    + exfalso. exact (Hbefore 0 u0 ltac:(lia) eq_refl E).
    + replace (index + S i) with (S index + i) by lia.
      apply IH; [exact Hi | exact Hk |].
      intros j u Hj Hn. apply (Hbefore (S j) u); [lia | exact Hn].
Qed.

(** X10.  A funding output without private key is reported before
    anything is built: when both lists of the request are not empty and
    the first funding output with an empty key is at position [i],
    [inscribeChain] fails with the message that names [i] and its
    transaction id. *)
Theorem missing_private_key_is_reported (network : Network)
  (request : InscriptionRequest.t) (seed : nat) (i : nat) (utxo : PrevOutput.t) :
  InscriptionRequest.inscriptionDataList request <> [] ->
  nth_error (InscriptionRequest.commitTxPrevOutputList request) i = Some utxo ->
  PrevOutput.privateKey utxo = ""%string ->
  (forall j u,
      j < i ->
      nth_error (InscriptionRequest.commitTxPrevOutputList request) j = Some u ->
      PrevOutput.privateKey u <> ""%string) ->
  let result := inscribeChain network request seed in
  ChainInscribeResult.success result = false
  /\ ChainInscribeResult.error result
     = Some ("输入错误：commitTxPrevOutputList 中索引 " ++ show_nat i
             ++ " 的 UTXO (txId: " ++ PrevOutput.txId utxo
             ++ ") 缺少私钥 (privateKey)")%string
  /\ ChainInscribeResult.txChains result = []
  /\ ChainInscribeResult.lastTxDetails result = [].
Proof.
  intros Hd Hi Hk Hbefore result.
  assert (Hinit : initialize network request (mkWorld Tool.new seed)
                  = inl (mkError ("输入错误：commitTxPrevOutputList 中索引 " ++ show_nat i
                                  ++ " 的 UTXO (txId: " ++ PrevOutput.txId utxo
                                  ++ ") 缺少私钥 (privateKey)"))).
  { unfold initialize. rewrite bind_modify.
    destruct (InscriptionRequest.commitTxPrevOutputList request) as [| u0 us] eqn:Hu;
      [destruct i; discriminate |].
    destruct (InscriptionRequest.inscriptionDataList request) as [| d ds]; [congruence |].
    cbn [length Nat.eqb].
    apply bind_fail.
    exact (@checkPrivateKeys_first_missing (u0 :: us) 0 i utxo _ Hi Hk Hbefore). }
  subst result. rewrite (inscribeChain_failure _ _ _ Hinit).
  unfold failureResult. cbn. auto.
Qed.


End ErrorExtras.

Section ErrorExamples.
#[local] Existing Instance Reference.externals.

(** The second of two funding outputs has no key. *)
Lemma missing_private_key_is_reported_witness :
  let request :=
    Reference.requestOf
      [Reference.utxoOf "aa" 100000; PrevOutput.mk "bb" 1 100000 "Qfunding" "" None] 2 in
  ChainInscribeResult.error (inscribeChain testnet request 0)
  = Some "输入错误：commitTxPrevOutputList 中索引 1 的 UTXO (txId: bb) 缺少私钥 (privateKey)"%string.
Proof.
  intros request.
  destruct (@missing_private_key_is_reported _ testnet request 0 1
              (PrevOutput.mk "bb" 1 100000 "Qfunding" "" None))
    as (_ & Herr & _).
  - vm_compute. discriminate.
  - reflexivity.
  - reflexivity.
  - intros j u Hj Hn. destruct j as [| j]; [| lia].
    cbn in Hn. inversion Hn. vm_compute. discriminate.
  - rewrite Herr. reflexivity.
Defined.


End ErrorExamples.

Section RevealErrors.
Context {ext : Externals}.


End RevealErrors.

Section RevealErrorExamples.
#[local] Existing Instance Reference.externals.


End RevealErrorExamples.

Section UtxoMap.
Context {ext : Externals}.

Lemma map_set_keys {V} (key : string) (v : V) : forall m,
  map fst (map_set key v m)
  = if existsb (String.eqb key) (map fst m) then map fst m else map fst m ++ [key].
Proof.
  induction m as [| [k v'] m IH]; [reflexivity |].
  cbn [map_set map fst existsb].
  rewrite (String.eqb_sym key k).
  destruct (String.eqb k key) eqn:E; cbn [orb map fst]; [reflexivity |].
  rewrite IH. destruct (existsb (String.eqb key) (map fst m)); reflexivity.
Qed.

Lemma map_set_NoDup {V} (key : string) (v : V) m :
  NoDup (map fst m) -> NoDup (map fst (map_set key v m)).
Proof.
  intros H. rewrite map_set_keys.
  destruct (existsb (String.eqb key) (map fst m)) eqn:E; [exact H |].
  apply NoDup_app; [exact H | repeat constructor; intros [] | ].
  intros k Hin [<- | []].
  assert (existsb (String.eqb key) (map fst m) = true); [| congruence].
  apply existsb_exists. exists key. split; [exact Hin | apply String.eqb_refl].
Qed.

Lemma map_set_In {V} (key : string) (x : V) k v : forall m,
  NoDup (map fst m) ->
  In (k, v) (map_set key x m) <-> (k = key /\ v = x) \/ (k <> key /\ In (k, v) m).
Proof.
  induction m as [| [k0 v0] m IH]; intros Hnd.
  - cbn. split.
    + intros [H | []]. inversion H. auto.
    + intros [[-> ->] | [_ []]]. auto.
  - inversion Hnd as [| a l Hnotin Hnd']. subst a l.
    cbn [map_set]. destruct (String.eqb_spec k0 key) as [-> | Hne].
    + cbn [In]. split.
      * intros [H | H]; [inversion H; auto |].
        right. split; [| auto]. intros ->. apply Hnotin.
        change key with (fst (key, v)). apply in_map. exact H.
      * intros [[-> ->] | [Hk [H | H]]]; [auto | inversion H; congruence | auto].
    + cbn [In]. rewrite (IH Hnd'). split.
      * intros [H | [H | [Hk H]]]; [inversion H; subst; auto | auto | auto].
      * intros [H | [Hk [H | H]]]; auto.
Qed.

(** The map after the funding outputs [utxos] were entered in turn. *)
Lemma utxoMap_fold : forall utxos : list PrevOutput.t,
  let m := fold_left (fun m utxo => map_set (utxoKey utxo) (utxoInfo utxo) m) utxos [] in
  NoDup (map fst m)
  /\ forall key info,
       In (key, info) m
       <-> exists i utxo,
             nth_error utxos i = Some utxo
             /\ utxoKey utxo = key
             /\ utxoInfo utxo = info
             /\ forall j later,
                  i < j -> nth_error utxos j = Some later -> utxoKey later <> key.
Proof.
  induction utxos as [| u utxos IH] using rev_ind; cbn zeta.
  - cbn. split; [constructor |]. intros key info. split; [intros [] |].
    intros (i & utxo & H & _). destruct i; discriminate.
  - rewrite fold_left_app. cbn [fold_left]. cbn zeta in IH. destruct IH as [Hnd IH].
    split; [apply map_set_NoDup; exact Hnd |].
    intros key info. rewrite (@map_set_In _ _ _ _ _ _ Hnd). rewrite IH. clear IH. split.
    + intros [[-> ->] | [Hk (i & utxo & Hi & Hkey & Hinfo & Hlast)]].
      * exists (length utxos), u. rewrite nth_error_app2, Nat.sub_diag by lia.
        split; [reflexivity |]. split; [reflexivity |]. split; [reflexivity |].
        intros j later Hj Hn.
        assert (j < length (utxos ++ [u])) by (apply nth_error_Some; congruence).
        rewrite length_app in *. cbn [length] in *. lia.
      * assert (Hlt : i < length utxos) by (apply nth_error_Some; congruence).
        exists i, utxo. rewrite nth_error_app1 by exact Hlt.
        split; [exact Hi |]. split; [exact Hkey |]. split; [exact Hinfo |].
        intros j later Hj Hn.
        destruct (Nat.lt_ge_cases j (length utxos)) as [Hjl | Hjl].
        -- rewrite nth_error_app1 in Hn by exact Hjl. eapply Hlast; eassumption.
        -- rewrite nth_error_app2 in Hn by exact Hjl.
           destruct (j - length utxos) as [| d]; [| destruct d; discriminate].
           cbn in Hn. inversion Hn. subst later. congruence.
    + intros (i & utxo & Hi & Hkey & Hinfo & Hlast).
      destruct (Nat.lt_ge_cases i (length utxos)) as [Hil | Hil].
      * right. rewrite nth_error_app1 in Hi by exact Hil. split.
        -- intros ->. apply (Hlast (length utxos) u Hil); [| reflexivity].
           rewrite nth_error_app2, Nat.sub_diag by lia. reflexivity.
        -- exists i, utxo. split; [exact Hi |]. split; [exact Hkey |]. split; [exact Hinfo |].
           intros j later Hj Hn. apply (Hlast j later Hj).
           assert (j < length utxos) by (apply nth_error_Some; congruence).
           rewrite nth_error_app1 by lia. exact Hn.
      * left. rewrite nth_error_app2 in Hi by exact Hil.
        destruct (i - length utxos) as [| d]; [| destruct d; discriminate].
        cbn in Hi. inversion Hi. subst utxo. auto.
Qed.

Lemma prepare_utxoMap network request seed u w :
  prepare network request (mkWorld Tool.new seed) = inr (u, w) ->
  Tool.utxoMap (this w)
  = fold_left (fun m utxo => map_set (utxoKey utxo) (utxoInfo utxo) m)
      (InscriptionRequest.commitTxPrevOutputList request) [].
Proof.
  unfold prepare. rewrite bind_modify. intros H.
  destruct (InscriptionRequest.commitTxPrevOutputList request) as [| firstUtxo rest];
    [discriminate |].
  destruct (length (InscriptionRequest.inscriptionDataList request) =? 0); [discriminate |].
  apply bind_ok in H as ([] & w1 & Hk & H). apply checkPrivateKeys_ok in Hk as [-> Hk].
  apply bind_ok in H as (contexts & w2 & Hc & H). apply lift_ok in Hc as [Hc ->].
  rewrite bind_modify in H. inversion H. reflexivity.
Qed.

(** X12.  The funding map of a tool the factory returns has one entry
    per outpoint key [txId:vOut], and the entry of a key is amount,
    address and private key of the last funding output of the request
    with that key. *)
Theorem funding_map_holds_last_entry_per_outpoint (network : Network)
  (request : InscriptionRequest.t) (seed : nat) (w : World) :
  newChainInscriptionTool network request seed = inr w ->
  let utxos := InscriptionRequest.commitTxPrevOutputList request in
  NoDup (map fst (Tool.utxoMap (this w)))
  /\ forall key info,
       In (key, info) (Tool.utxoMap (this w))
       <-> exists i utxo,
             nth_error utxos i = Some utxo
             /\ utxoKey utxo = key
             /\ utxoInfo utxo = info
             /\ forall j later,
                  i < j -> nth_error utxos j = Some later -> utxoKey later <> key.
Proof.
  intros H utxos.
  apply newChainInscriptionTool_state in H
    as (w0 & contexts & built & chains' & w1 & w' & Hp & _ & _ & _ & _ & _ & _ & _ & _
        & _ & _ & _ & Hw1 & _ & Hw & _).
  apply prepare_utxoMap in Hp.
  destruct (extendWith_contexts (length contexts) built (this w0) 0) as (_ & _ & Hm & _).
  rewrite <- Hw1 in Hm.
  assert (Hmap : Tool.utxoMap (this w)
                 = fold_left (fun m utxo => map_set (utxoKey utxo) (utxoInfo utxo) m)
                     utxos []).
  { rewrite Hw. cbn. rewrite Hm. exact Hp. }
  rewrite Hmap. apply utxoMap_fold.
Qed.

End UtxoMap.

Section UtxoMapExamples.
#[local] Existing Instance Reference.externals.

(** Two funding outputs with different outpoints. *)
Lemma funding_map_holds_last_entry_per_outpoint_witness :
  let request :=
    Reference.requestOf [Reference.utxoOf "aa" 100000; Reference.utxoOf "bb" 5000] 2 in
  exists w,
    newChainInscriptionTool testnet request 0 = inr w
    /\ In ("bb:0"%string, UtxoInfo.mk 5000 "Qfunding" Reference.key) (Tool.utxoMap (this w))
    /\ length (Tool.utxoMap (this w)) = 2.
Proof.
  intros request.
  set (w := match newChainInscriptionTool testnet request 0 with
            | inr w => w
            | inl _ => mkWorld Tool.new 0
            end).
  assert (H : newChainInscriptionTool testnet request 0 = inr w)
    by (vm_compute; reflexivity).
  destruct (funding_map_holds_last_entry_per_outpoint _ _ _ H) as [_ Hin].
  exists w. split; [exact H |]. split; [| vm_compute; reflexivity].
  apply Hin. exists 1, (Reference.utxoOf "bb" 5000).
  split; [reflexivity |]. split; [vm_compute; reflexivity |]. split; [reflexivity |].
  intros j later Hj Hn. destruct j as [| [| j]]; try lia. destruct j; discriminate.
Defined.

End UtxoMapExamples.

Section SigHashExtras.
Context {ext : Externals} {kinds : ScriptKinds}.

Lemma sigHashInput_ok prevOutFetcher network tx i tx' sigHash :
  sigHashInput prevOutFetcher network tx i = inr (tx', sigHash) ->
  sameSpending tx tx'
  /\ length (ins tx') = length (ins tx)
  /\ exists entry,
       nth_error prevOutFetcher i = Some entry /\ hasPublicKey entry.
Proof.
  unfold sigHashInput. intros H.
  destruct (nth_error prevOutFetcher i) as [entry |]; [| discriminate].
  assert (Hkey : hasPublicKey entry
                 \/ negb (match PrevOutput.publicKey entry with
                          | None => false
                          | Some hex => negb (String.eqb hex "")
                          end) = true).
  { unfold hasPublicKey. destruct (PrevOutput.publicKey entry) as [hex |]; [| auto].
    destruct (String.eqb_spec hex ""); [right; reflexivity | left; eauto]. }
  destruct Hkey as [Hkey | Hkey]; [| rewrite Hkey in H; discriminate].
  destruct (negb _); [discriminate |].
  destruct (toOutputScript (PrevOutput.address entry) network) as [e | pkScript];
    [discriminate |].
  cbn [rbind] in H.
  assert (Hdone : sameSpending tx tx' /\ length (ins tx') = length (ins tx)).
  { destruct (isP2TR pkScript).
    - destruct (rmap _ prevOutFetcher); [discriminate |]. cbn [rbind ok] in H.
      inversion H. subst. cbn [ins set_ins].
      split; [apply sameSpending_set_witness | apply length_update_nth].
    - destruct (isP2PKH pkScript).
      + inversion H. subst. cbn [ins set_ins].
        split; [apply sameSpending_set_script | apply length_update_nth].
      + destruct (isP2SHScript pkScript); inversion H; subst; cbn [ins set_ins].
        * split; [| rewrite !length_update_nth; reflexivity].
          eapply sameSpending_trans; [apply sameSpending_set_witness |].
          apply (sameSpending_set_script
                   (set_ins (update_nth i (Input.set_witness _) (ins tx)) tx)).
        * split; [apply sameSpending_set_witness | apply length_update_nth]. }
  destruct Hdone as [Hs Hl]. split; [exact Hs |]. split; [exact Hl |].
  exists entry. auto.
Qed.

Lemma sigHashInputs_ok prevOutFetcher network : forall n i tx acc hashes tx',
  sigHashInputs prevOutFetcher network n i tx acc = inr (hashes, tx') ->
  sameSpending tx tx'
  /\ length hashes = length acc + n
  /\ forall j, i <= j < i + n ->
       exists entry, nth_error prevOutFetcher j = Some entry /\ hasPublicKey entry.
Proof.
  induction n as [| n IH]; intros i tx acc hashes tx' H; cbn [sigHashInputs] in H.
  - inversion H. subst. split; [apply sameSpending_refl |]. split; [lia |].
    intros; lia.
  - destruct (sigHashInput prevOutFetcher network tx i) as [e | [tx1 h]] eqn:E;
      [discriminate |].
    cbn [rbind] in H. apply sigHashInput_ok in E as (Hs1 & _ & Hentry).
    apply IH in H as (Hs & Hlen & Hall).
    rewrite length_app in Hlen. cbn [length] in Hlen.
    split; [eapply sameSpending_trans; eassumption |]. split; [lia |].
    intros j Hj. destruct (Nat.eq_dec j i) as [-> | Hne]; [exact Hentry |].
    apply Hall. lia.
Qed.

End SigHashExtras.

Section SigHashTheorems.
Context {ext : Externals} {kinds : ScriptKinds}.

Lemma sigHashInputs_app prevOutFetcher network : forall n m i tx acc,
  sigHashInputs prevOutFetcher network (n + m) i tx acc
  = match sigHashInputs prevOutFetcher network n i tx acc with
    | inl e => inl e
    | inr (hashes, tx') => sigHashInputs prevOutFetcher network m (i + n) tx' hashes
    end.
Proof.
  induction n as [| n IH]; intros m i tx acc; cbn [Nat.add sigHashInputs].
  - rewrite Nat.add_0_r. reflexivity.
  - destruct (sigHashInput prevOutFetcher network tx i) as [e | [tx1 h]]; [reflexivity |].
    cbn [rbind]. rewrite IH. replace (S i + n) with (i + S n) by lia. reflexivity.
Qed.

(** X13.  When [calculateSigHash] returns, it returns one hash per
    input, every input had an entry with a public key at its position,
    and the transaction it leaves differs from the one it got only in
    the placeholders that unlock the inputs: version, lock time, outputs
    and outpoints are as before. *)
Theorem calculateSigHash_gives_one_hash_per_input (tx : Transaction)
  (prevOutFetcher : list PrevOutput.t) (network : Network)
  (sigHashList : list string) (tx' : Transaction) :
  calculateSigHash tx prevOutFetcher network = inr (sigHashList, tx') ->
  length sigHashList = length (ins tx)
  /\ sameSpending tx tx'
  /\ length (ins tx) <= length prevOutFetcher
  /\ forall j,
       j < length (ins tx) ->
       exists entry, nth_error prevOutFetcher j = Some entry /\ hasPublicKey entry.
Proof.
  unfold calculateSigHash. intros H.
  apply sigHashInputs_ok in H as (Hs & Hlen & Hall). cbn [length] in Hlen.
  split; [exact Hlen |]. split; [exact Hs |]. split.
  - destruct (ins tx) as [| i0 l] eqn:E; [cbn; lia |].
    destruct (Hall (length (i0 :: l) - 1) ltac:(cbn [length]; lia)) as (entry & Hn & _).
    assert (length (i0 :: l) - 1 < length prevOutFetcher)
      by (apply nth_error_Some; congruence).
    cbn [length] in *. lia.
  - intros j Hj. apply Hall. lia.
Qed.

(** X14.  [calculateSigHash] throws for the first input whose entry has
    no public key (none, or the empty string): when the inputs before
    position [i] went through, the error is the missing-public-key
    message with the index [i], and no list is returned. *)
Theorem calculateSigHash_reports_missing_public_key (tx : Transaction)
  (prevOutFetcher : list PrevOutput.t) (network : Network) (i : nat)
  (entry : PrevOutput.t) (before : list string) (tx1 : Transaction) :
  i < length (ins tx) ->
  sigHashInputs prevOutFetcher network i 0 tx [] = inr (before, tx1) ->
  nth_error prevOutFetcher i = Some entry ->
  PrevOutput.publicKey entry = None \/ PrevOutput.publicKey entry = Some ""%string ->
  calculateSigHash tx prevOutFetcher network = inl (mkError (missingPublicKey i)).
Proof.
  intros Hi Hbefore Hentry Hkey. unfold calculateSigHash.
  replace (length (ins tx)) with (i + S (length (ins tx) - i - 1)) by lia.
  rewrite sigHashInputs_app, Hbefore. cbn [Nat.add sigHashInputs].
  unfold sigHashInput. rewrite Hentry.
  destruct Hkey as [-> | ->]; reflexivity.
Qed.

End SigHashTheorems.

Section SigHashExamples.
#[local] Existing Instance Reference.externals.

(** Scripts of the reference instance are classified by the first
    character of the address they stand for. *)
Definition startsWith (c : Byte.byte) (script : Buffer) : bool :=
  match script with
  | b :: _ => Byte.eqb b c
  | [] => false
  end.

#[local] Instance referenceKinds : ScriptKinds := {|
  isP2TR := startsWith Byte.x51;
  isP2PKH := startsWith Byte.x31;
  isP2SHScript := startsWith Byte.x33;
  p2wpkh_witness := fun pubkey signature => [signature; pubkey]
|}.

(** A taproot and a nested-segwit input, both with public keys. *)
Lemma calculateSigHash_gives_one_hash_per_input_witness :
  let fetcher :=
    [PrevOutput.mk "aa" 0 1000 "Qtaproot" "" (Some "02ab"%string);
     PrevOutput.mk "bb" 1 2000 "3nested" "" (Some "03cd"%string)] in
  let tx :=
    mkTransaction 2 0
      [Input.mk [Byte.xaa] 0 [] DEFAULT_SEQUENCE_NUM [];
       Input.mk [Byte.xbb] 1 [] DEFAULT_SEQUENCE_NUM []]
      [Output.mk [Byte.x51] 2500] in
  exists hashes tx',
    calculateSigHash tx fetcher testnet = inr (hashes, tx')
    /\ length hashes = 2
    /\ outs tx' = outs tx
    /\ map (fun i => length (Input.witness i)) (ins tx') = [1; 2].
Proof.
  intros fetcher tx.
  set (r := match calculateSigHash tx fetcher testnet with
            | inr r => r
            | inl _ => ([], tx)
            end).
  assert (H : calculateSigHash tx fetcher testnet = inr (fst r, snd r))
    by (vm_compute; reflexivity).
  destruct (calculateSigHash_gives_one_hash_per_input _ _ _ H)
    as (Hlen & (_ & _ & Houts & _) & _).
  exists (fst r), (snd r). split; [exact H |]. split; [exact Hlen |].
  split; [exact Houts |]. vm_compute. reflexivity.
Defined.

(** The second entry has no public key. *)
Lemma calculateSigHash_reports_missing_public_key_witness :
  let fetcher :=
    [PrevOutput.mk "aa" 0 1000 "Qtaproot" "" (Some "02ab"%string);
     PrevOutput.mk "bb" 1 2000 "3nested" "" None] in
  let tx :=
    mkTransaction 2 0
      [Input.mk [Byte.xaa] 0 [] DEFAULT_SEQUENCE_NUM [];
       Input.mk [Byte.xbb] 1 [] DEFAULT_SEQUENCE_NUM []]
      [Output.mk [Byte.x51] 2500] in
  calculateSigHash tx fetcher testnet
  = inl (mkError "计算签名哈希错误 (输入索引 1): PrevOutput 中缺少 publicKey").
Proof.
  intros fetcher tx.
  set (r := match sigHashInputs fetcher testnet 1 0 tx [] with
            | inr r => r
            | inl _ => ([], tx)
            end).
  assert (H : sigHashInputs fetcher testnet 1 0 tx [] = inr (fst r, snd r))
    by (vm_compute; reflexivity).
  exact (@calculateSigHash_reports_missing_public_key _ _ tx fetcher testnet 1
           (PrevOutput.mk "bb" 1 2000 "3nested" "" None) (fst r) (snd r)
           ltac:(cbn; lia) H eq_refl (or_introl eq_refl)).
Defined.

End SigHashExamples.

Section Replaceable.
Context {ext : Externals}.

Lemma revealsShape_inputs network inscriptions revealOutValue finalChangeAddress
  minChangeValue :
  forall txs fees i prevTx prevOutputIndex available j tx,
    revealsShape network inscriptions revealOutValue finalChangeAddress minChangeValue
      i prevTx prevOutputIndex available txs fees ->
    nth_error txs j = Some tx ->
    version tx = DEFAULT_TX_VERSION
    /\ exists hash index, map outpoint (ins tx) = [(hash, index, DEFAULT_SEQUENCE_NUM)].
Proof.
  induction txs as [| tx0 txs IH]; intros fees i prevTx prevOutputIndex available j tx Hs Hj;
    [destruct j; discriminate |].
  destruct fees as [| fee fees]; [contradiction |]. destruct Hs as [Hsh Hrest].
  destruct j as [| j].
  - cbn in Hj. inversion Hj. subst tx0.
    destruct Hsh as (ctx & pk & _ & _ & Hv & Hins & _).
    split; [exact Hv |]. rewrite Hins. eexists _, _. reflexivity.
  - cbn [nth_error] in Hj. eapply IH; eassumption.
Qed.

(** X15.  Every transaction of the chains of a tool the factory returns
    has version 2 and one input whose sequence number is 0xfffffffd, so
    that it can be replaced by fee; the input of the commit of chain [k]
    is the outpoint of funding output [k] of the request, the
    transaction id taken in reverse byte order. *)
Theorem every_transaction_is_replaceable (network : Network)
  (request : InscriptionRequest.t) (seed : nat) (w : World) (k j : nat)
  (chain : list Transaction) (tx : Transaction) :
  newChainInscriptionTool network request seed = inr w ->
  nth_error (Tool.txChains (this w)) k = Some chain ->
  nth_error chain j = Some tx ->
  version tx = 2%Z
  /\ (exists input,
        ins tx = [input] /\ Input.sequence input = 0xfffffffd%Z)
  /\ (j = 0 ->
      exists utxo input,
        nth_error (InscriptionRequest.commitTxPrevOutputList request) k = Some utxo
        /\ ins tx = [input]
        /\ Input.hash input = reverseBuffer (fromHex (PrevOutput.txId utxo))
        /\ Input.index input = PrevOutput.vOut utxo).
Proof.
  intros H Hk Hj.
  apply newChainInscriptionTool_state in H
    as (w0 & contexts & built & chains' & w1 & w' & _ & _ & _ & _ & _ & _ & _ & _ & _
        & _ & _ & Hbuilt & _ & Hs & Hw & _).
  assert (Hchains : Tool.txChains (this w) = chains') by (rewrite Hw; reflexivity).
  rewrite Hchains in Hk.
  apply signChains_sameSpending in Hs.
  destruct (Forall2_nth_error_r _ Hs Hk) as (chain0 & Hc0 & Hsame).
  destruct (Forall2_nth_error_r _ Hsame Hj) as (tx0 & Ht0 & (Hv & _ & _ & Hop)).
  rewrite nth_error_map in Hc0.
  destruct (nth_error built k) as [[chain1 fees] |] eqn:Hnb; [| discriminate].
  cbn in Hc0. inversion Hc0. subst chain1. clear Hc0.
  assert (Hkb : k < length built) by (apply nth_error_Some; congruence).
  destruct (@chainsBuilt_nth _ _ _ _ _ _ _ _ built 0 k Hbuilt Hkb)
    as (c0 & f0 & Hb' & (utxo & Hu & Hshape & _)).
  rewrite Hnb in Hb'. inversion Hb'. subst c0 f0. clear Hb'. cbn [Nat.add] in Hu.
  destruct Hshape as (first & cv & reveals & cf & rf & _ & -> & -> & _ & _ & _ & Hr).
  assert (Hbuilt0 : version tx0 = DEFAULT_TX_VERSION
                    /\ exists hash index,
                         map outpoint (ins tx0) = [(hash, index, DEFAULT_SEQUENCE_NUM)]
                         /\ (j = 0 ->
                             hash = reverseBuffer (fromHex (PrevOutput.txId utxo))
                             /\ index = PrevOutput.vOut utxo)).
  { destruct j as [| j].
    - cbn in Ht0. inversion Ht0. subst tx0. split; [reflexivity |].
      eexists _, _. split; [reflexivity |]. auto.
    - cbn [nth_error] in Ht0.
      destruct (@revealsShape_inputs _ _ _ _ _ _ _ _ _ _ _ _ _ Hr Ht0)
        as (Hv0 & hash & index & Ho).
      split; [exact Hv0 |]. exists hash, index. split; [exact Ho |]. discriminate. }
  destruct Hbuilt0 as (Hv0 & hash & index & Ho & Hcommit).
  rewrite Ho in Hop.
  destruct (ins tx) as [| input [| input2 l]] eqn:Hins; try discriminate.
  cbn in Hop. inversion Hop as [[Hh Hi Hq]].
  split; [rewrite Hv; exact Hv0 |].
  split; [exists input; split; [reflexivity | exact Hq] |].
  intros Hj0. destruct (Hcommit Hj0) as [-> ->]. exists utxo, input. auto.
Qed.



End Replaceable.

Section ReplaceableExamples.
#[local] Existing Instance Reference.externals.

(** Thirty inscriptions on two funding outputs: the commit of chain 1
    spends the second funding output. *)
Lemma every_transaction_is_replaceable_witness :
  let request :=
    Reference.requestOf [Reference.utxoOf "aa" 100000; Reference.utxoOf "bb" 100000] 30 in
  exists w chain commit input,
    newChainInscriptionTool testnet request 0 = inr w
    /\ nth_error (Tool.txChains (this w)) 1 = Some chain
    /\ nth_error chain 0 = Some commit
    /\ ins commit = [input]
    /\ Input.hash input = reverseBuffer (fromHex "bb")
    /\ Input.sequence input = 0xfffffffd%Z.
Proof.
  intros request.
  set (w := match newChainInscriptionTool testnet request 0 with
            | inr w => w
            | inl _ => mkWorld Tool.new 0
            end).
  assert (H : newChainInscriptionTool testnet request 0 = inr w)
    by (vm_compute; reflexivity).
  set (chain := nth 1 (Tool.txChains (this w)) []).
  set (commit := nth 0 chain newTransaction).
  assert (Hk : nth_error (Tool.txChains (this w)) 1 = Some chain)
    by (vm_compute; reflexivity).
  assert (Hj : nth_error chain 0 = Some commit) by (vm_compute; reflexivity).
  destruct (@every_transaction_is_replaceable _ testnet request 0 w 1 0 chain commit H Hk Hj)
    as (_ & (input0 & Hins0 & Hseq) & Hcommit).
  destruct (Hcommit eq_refl) as (utxo & input & Hu & Hins & Hhash & _).
  rewrite Hins in Hins0. inversion Hins0. subst input0.
  exists w, chain, commit, input. split; [exact H |]. split; [exact Hk |].
  split; [exact Hj |]. split; [exact Hins |]. split; [| exact Hseq].
  rewrite Hhash. cbn in Hu. inversion Hu. reflexivity.
Defined.


End ReplaceableExamples.

Section Solvency.
Context {ext : Externals}.

Lemma chainShape_spends network inscriptions revealOutValue finalChangeAddress
  minChangeValue utxo chain fees :
  chainShape network inscriptions revealOutValue finalChangeAddress minChangeValue
    utxo chain fees ->
  (0 <= minChangeValue)%Z ->
  (sumZ fees + Z.of_nat (length inscriptions) * revealOutValue <= PrevOutput.amount utxo)%Z.
Proof.
  intros (first & cv & reveals & cf & rf & Hfirst & -> & -> & Hcv & Ham & Hlen & Hs) Hmin.
  assert (Hr : reveals <> []).
  { intros ->. destruct inscriptions; discriminate. }
  destruct (@revealsShape_conservation _ _ _ _ _ _ _ _ _ _ _ _ Hs ltac:(cbn; lia) Hr)
    as [_ H2].
  cbn zeta in H2. specialize (H2 Hmin). rewrite Hlen in H2.
  assert (Hsum : sumZ (cf :: rf) = (cf + sumZ rf)%Z) by reflexivity.
  rewrite Hsum, Ham.
  assert (Hchange : (0 <= changeValueOf (last reveals newTransaction))%Z).
  { clear H2 Hr Hlen. revert Hs. generalize 0 at 1.
    generalize (commitOf utxo (InscriptionTxCtxData.commitTxAddressPkScript first) cv).
    generalize 0 at 1. generalize cv. clear Hcv Ham Hsum.
    revert rf. induction reveals as [| tx txs IH]; intros rf av idx prev i Hs;
      [cbn; lia |].
    destruct rf as [| fee rf]; [contradiction |]. destruct Hs as [Hsh Hrest].
    destruct txs as [| tx2 txs].
    - cbn [last].
      destruct Hsh as (ctx & pk & _ & _ & _ & _ & [(c & Ho & Hc & _) | (_ & Ho & _)]);
        unfold changeValueOf; rewrite Ho; cbn; lia.
    - change (last (tx :: tx2 :: txs) newTransaction)
        with (last (tx2 :: txs) newTransaction).
      eapply IH. exact Hrest. }
  lia.
Qed.

Lemma inscriptionsFrom_S n k count :
  inscriptionsFrom n k (S count)
  = inscriptionsInChain n k + inscriptionsFrom n (S k) count.
Proof.
  unfold inscriptionsFrom. cbn [seq map fold_right]. rewrite <- seq_shift, map_map.
  rewrite (map_ext (fun i => inscriptionsInChain n (k + S i))
                   (fun i => inscriptionsInChain n (S k + i)))
    by (intros i; f_equal; lia).
  rewrite Nat.add_0_r. reflexivity.
Qed.

Lemma inscriptions_sum n : forall count k,
  inscriptionsFrom n k count = Nat.min n (24 * (k + count)) - Nat.min n (24 * k).
Proof.
  induction count as [| count IH]; intros k.
  - unfold inscriptionsFrom. cbn [seq map fold_right]. rewrite Nat.add_0_r. lia.
  - rewrite inscriptionsFrom_S, IH. unfold inscriptionsInChain. lia.
Qed.

Lemma chainsBuilt_spend network utxos revealOutValue changeAddress minChangeValue n contexts :
  (0 <= minChangeValue)%Z ->
  length contexts = n ->
  forall built k,
    chainsBuilt network utxos revealOutValue changeAddress minChangeValue n contexts k built ->
    (sumZ (map (fun b => sumZ (snd b)) built)
     + Z.of_nat (inscriptionsFrom n k (length built)) * revealOutValue
     <= sumZ (map PrevOutput.amount (firstn (length built) (skipn k utxos))))%Z.
Proof.
  intros Hmin Hn. induction built as [| [chain fees] built IH]; intros k Hb.
  - cbn. lia.
  - destruct Hb as [(utxo & Hu & Hshape & _ & _) Hrest].
    specialize (IH (S k) Hrest).
    apply chainShape_spends in Hshape; [| exact Hmin].
    assert (Hslice : length (slice contexts (24 * k) (24 * k + inscriptionsInChain n k))
                     = inscriptionsInChain n k).
    { rewrite length_slice. unfold inscriptionsInChain. lia. }
    rewrite Hslice in Hshape.
    assert (Hskip : skipn k utxos = utxo :: skipn (S k) utxos).
    { clear - Hu. revert k Hu. induction utxos as [| u utxos IHu]; intros [| k] Hu;
        try discriminate.
      - cbn in Hu. inversion Hu. reflexivity.
      - cbn [nth_error] in Hu. cbn [skipn]. rewrite (IHu k Hu). reflexivity. }
    rewrite Hskip. cbn [length firstn map snd]. rewrite inscriptionsFrom_S.
    assert (Hs1 : sumZ (sumZ fees :: map (fun b => sumZ (snd b)) built)
                  = (sumZ fees + sumZ (map (fun b => sumZ (snd b)) built))%Z) by reflexivity.
    assert (Hs2 : sumZ (PrevOutput.amount utxo
                        :: map PrevOutput.amount (firstn (length built) (skipn (S k) utxos)))
                  = (PrevOutput.amount utxo
                     + sumZ (map PrevOutput.amount
                               (firstn (length built) (skipn (S k) utxos))))%Z)
      by reflexivity.
    rewrite Hs1, Hs2. rewrite Nat2Z.inj_add. lia.
Qed.

(** X18.  A tool the factory returns never spends more than its
    funding: when the minimum change is not negative, the total
    estimated fee plus the reveal output value for every inscription is
    at most the sum of the amounts of the funding outputs used, which are
    the first ceil(n / 24) of the request. *)
Theorem chains_spend_at_most_their_funding (network : Network)
  (request : InscriptionRequest.t) (seed : nat) (w : World) :
  newChainInscriptionTool network request seed = inr w ->
  let n := length (InscriptionRequest.inscriptionDataList request) in
  let revealOutValue :=
    orDefault (InscriptionRequest.revealOutValue request) DEFAULT_REVEAL_OUT_VALUE in
  (0 <= orDefaultOpt (InscriptionRequest.minChangeValue request) DEFAULT_MIN_CHANGE_VALUE)%Z ->
  (Tool.totalEstimatedFee (this w) + Z.of_nat n * revealOutValue
   <= sumZ (map PrevOutput.amount
              (firstn (chainCount n) (InscriptionRequest.commitTxPrevOutputList request))))%Z.
Proof.
  intros H n revealOutValue Hmin.
  apply newChainInscriptionTool_state in H
    as (w0 & contexts & built & chains' & w1 & w' & _ & _ & _ & Hn & _ & _ & _ & Htotal
        & _ & Hbl & _ & Hbuilt & Hw1 & _ & Hw & _).
  destruct (extendWith_fees (length contexts) built (this w0) 0) as [_ Ht].
  rewrite <- Hw1, Htotal in Ht.
  assert (Htw : Tool.totalEstimatedFee (this w)
                = sumZ (map (fun b => sumZ (snd b)) built)).
  { rewrite Hw. cbn. rewrite Ht. lia. }
  rewrite Hn in Hbl, Hbuilt. fold n in Hbl, Hbuilt.
  pose proof (@chainsBuilt_spend _ _ _ _ _ n contexts Hmin Hn built 0 Hbuilt) as Hspend.
  rewrite inscriptions_sum in Hspend. cbn [skipn Nat.add] in Hspend.
  rewrite Hbl in Hspend.
  pose proof (chainCount_spec n) as [_ Hc].
  replace (Nat.min n (24 * chainCount n) - Nat.min n (24 * 0)) with n in Hspend by lia.
  rewrite Htw. exact Hspend.
Qed.

End Solvency.

Section SolvencyExamples.
#[local] Existing Instance Reference.externals.

(** Thirty inscriptions on three funding outputs, of which two are
    used. *)
Lemma chains_spend_at_most_their_funding_witness :
  let request :=
    Reference.requestOf
      [Reference.utxoOf "aa" 100000; Reference.utxoOf "bb" 50000; Reference.utxoOf "cc" 7]
      30 in
  exists w,
    newChainInscriptionTool testnet request 0 = inr w
    /\ (Tool.totalEstimatedFee (this w) + 30 * 546 <= 150000)%Z.
Proof.
  intros request.
  set (w := match newChainInscriptionTool testnet request 0 with
            | inr w => w
            | inl _ => mkWorld Tool.new 0
            end).
  assert (H : newChainInscriptionTool testnet request 0 = inr w)
    by (vm_compute; reflexivity).
  exists w. split; [exact H |].
  pose proof (@chains_spend_at_most_their_funding _ testnet request 0 w H) as Hs.
  cbv zeta in Hs. specialize (Hs ltac:(vm_compute; discriminate)).
  exact Hs.
Defined.

End SolvencyExamples.
